(** * obesity-predictor: preprocessing consistency and model comparison

    A shallow embedding of
      - [core/preprocessing/base_preprocessor.py],
        [core/preprocessing/train_preprocessor.py],
        [core/preprocessing/inference_preprocessor.py],
      - [core/model/evaluator.py], [core/model/comparator.py],
      - [core/pipeline/inference_pipeline.py],
        [core/validation/schema_validator.py],
        [core/validation/drift_detector.py],
        [api/routers/prediction_router.py], [config/settings.py],
      - [core/model/registry.py] ([get_latest_version]),
        [core/data/loader.py] ([load_data], [get_data]),
    together with the parts of pandas, scikit-learn, joblib and the Python
    builtins that these files call.

    Conventions.
      - Python objects that are mutated through a reference (the DataFrame
        handed to [fit]/[transform], the files written by joblib, the log
        sink) live in a [World]; a method is a function of its receiver
        [self] and of the world that returns both, updated, with either the
        returned value or the raised exception.  Updates made before an
        exception is raised are kept, as in Python.
      - A float64 is a rational, an infinity or NaN: rounding, overflow and
        the sign of zero are not modelled, so that a sum, a product or a
        quotient is the exact one where float64 gives the nearest double
        (or, for extreme operands, an infinity or 0).  Where a statement
        gives the value of a computed number, it is the value of the exact
        arithmetic.  An int64 is a [Z], with the wrap-around written where
        numpy wraps.
      - A DataFrame is the ordered list of its labelled columns.  The model
        covers the dtypes int64, float64, object (holding [str], or a
        missing value) and category; the row index is left out.
        Arithmetic on an object or category column raises [TypeError]
        (object columns that hold numbers are outside the model).
      - joblib can write to every path; reading a path that was never
        written raises [FileNotFoundError].
      - The texts of the errors raised by pandas, scikit-learn and the
        builtins follow CPython 3.11 and are approximate; the statements
        rely on the exception classes.
      - A trainer is a model state with its [train] and [predict]; the
        trained model that [compare] leaves in the caller's mapping is not
        tracked.
      - What lies outside the program is a parameter of the definition that
        uses it: the conversions of pydantic, the [predict] of a model
        read from a file, the report of Evidently, the answer of the
        MLflow client, [pd.read_csv]. *)

From Stdlib Require Import ZArith QArith Qabs Lqa String Ascii List Lia.
From stdpp Require Import base tactics option list gmap strings pretty.

Set Warnings "-register-all,-clear-no-such-hyp".

(** ** Exceptions *)

(** A raised exception: the name of its class and its argument. *)
Record exn := Exn { exn_class : string; exn_arg : string }.

Definition RuntimeError (msg : string) : exn := Exn "RuntimeError" msg.
Definition KeyError (key : string) : exn := Exn "KeyError" key.
Definition TypeError (msg : string) : exn := Exn "TypeError" msg.
Definition ValueError (msg : string) : exn := Exn "ValueError" msg.
Definition AttributeError (msg : string) : exn := Exn "AttributeError" msg.
Definition FileNotFoundError (path : string) : exn := Exn "FileNotFoundError" path.
(** [sklearn.exceptions.NotFittedError], raised by scikit-learn estimators. *)
Definition sklearn_NotFittedError (msg : string) : exn := Exn "NotFittedError" msg.

(** [inl e]: the call raised [e]; [inr a]: it returned [a]. *)
Definition result (A : Type) : Type := (exn + A)%type.

Definition rbind {A B} (r : result A) (k : A → result B) : result B :=
  match r with
  | inl e => inl e
  | inr a => k a
  end.

Definition raises {A} (r : result A) (cls : string) : Prop :=
  ∃ e, r = inl e ∧ exn_class e = cls.

Definition returns {A} (r : result A) : Prop := ∃ a, r = inr a.

(** ** float64 and int64 *)

Inductive float := Fin (q : Q) | Inf (neg : bool) | NaN.

Definition Qltb (x y : Q) : bool := negb (Qle_bool y x).

Definition of_int (z : Z) : float := Fin (inject_Z z).

Definition fneg_sign (x : Q) : bool := Qltb x 0.

Definition fmul (a b : float) : float :=
  match a, b with
  | NaN, _ | _, NaN => NaN
  | Fin x, Fin y => Fin (x * y)
  | Inf s, Inf t => Inf (xorb s t)
  | Inf s, Fin y | Fin y, Inf s =>
      if Qeq_bool y 0 then NaN else Inf (xorb s (fneg_sign y))
  end.

Definition fsub (a b : float) : float :=
  match a, b with
  | NaN, _ | _, NaN => NaN
  | Fin x, Fin y => Fin (x - y)
  | Inf s, Inf t => if Bool.eqb s t then NaN else Inf s
  | Inf s, Fin _ => Inf s
  | Fin _, Inf t => Inf (negb t)
  end.

(** IEEE division: [x / 0] is an infinity and [0 / 0] is NaN, nothing is
    raised.  On rationals the product and the quotient are exact; float64
    rounds them, and overflows or underflows on extreme operands. *)
Definition fdiv (a b : float) : float :=
  match a, b with
  | NaN, _ | _, NaN => NaN
  | Inf _, Inf _ => NaN
  | Inf s, Fin y => Inf (xorb s (fneg_sign y))
  | Fin _, Inf _ => Fin 0
  | Fin x, Fin y =>
      if Qeq_bool y 0
      then (if Qeq_bool x 0 then NaN else Inf (fneg_sign x))
      else Fin (x / y)
  end.

Definition is_inf (a : float) : bool :=
  match a with Inf _ => true | _ => false end.

(** Python's [a > b] on floats: false as soon as one side is NaN. *)
Definition fgt (a b : float) : bool :=
  match a, b with
  | NaN, _ | _, NaN => false
  | Fin x, Fin y => Qltb y x
  | Inf s, Inf t => negb s && t
  | Inf s, Fin _ => negb s
  | Fin _, Inf t => t
  end.

(** Square root of a non-negative rational, to 64 fractional bits; exact on
    the squares of rationals. *)
Definition Qsqrt (q : Q) : Q :=
  let n := Qnum q in
  let d := Zpos (Qden q) in
  Qmake (Z.sqrt (n * d * 4 ^ 64)) (Z.to_pos (d * 2 ^ 64)).

(** Two's complement wrap-around of int64 arithmetic. *)
Definition wrap64 (z : Z) : Z := ((z + 2 ^ 63) mod 2 ^ 64 - 2 ^ 63)%Z.

(** ** Ordered association lists

    The columns of a DataFrame and the items of a [dict] are kept in
    insertion order: assigning to a key that is there replaces the value
    where it stands, assigning to a new key appends. *)

Fixpoint assoc_lookup {K V} `{EqDecision K} (l : list (K * V)) (k : K) : option V :=
  match l with
  | [] => None
  | (k', v) :: rest => if decide (k' = k) then Some v else assoc_lookup rest k
  end.

Fixpoint assoc_set {K V} `{EqDecision K} (l : list (K * V)) (k : K) (v : V) : list (K * V) :=
  match l with
  | [] => [(k, v)]
  | (k', v') :: rest =>
      if decide (k' = k) then (k', v) :: rest else (k', v') :: assoc_set rest k v
  end.

(** ** pandas: Series and DataFrame *)

Inductive Series :=
| SInt (xs : list Z)                  (* dtype int64 *)
| SFloat (xs : list float)            (* dtype float64 *)
| SObj (xs : list (option string))    (* dtype object: str, or missing *)
| SCat (xs : list (option string)).   (* dtype category: a label, or NaN *)

Definition series_len (s : Series) : nat :=
  match s with
  | SInt xs => length xs
  | SFloat xs => length xs
  | SObj xs => length xs
  | SCat xs => length xs
  end.

Definition is_number (s : Series) : bool :=
  match s with
  | SInt _ | SFloat _ => true
  | SObj _ | SCat _ => false
  end.

(** A column label: a name, or a position of a default [RangeIndex]. *)
Inductive label := LStr (s : string) | LInt (n : nat).

Global Instance label_eq_dec : EqDecision label.
Proof. solve_decision. Defined.

Abbreviation DataFrame := (list (label * Series)).

Definition columns (df : DataFrame) : list label := map fst df.

(** Number of rows ([df.shape[0]]); all columns of a frame are as long. *)
Definition n_rows (df : DataFrame) : nat :=
  match df with
  | [] => 0
  | (_, s) :: _ => series_len s
  end.

Definition wf_frame (df : DataFrame) : Prop :=
  NoDup (columns df) ∧ Forall (λ c, series_len c.2 = n_rows df) df.

(** [df[key]] *)
Definition df_getitem (df : DataFrame) (key : string) : result Series :=
  match assoc_lookup df (LStr key) with
  | Some s => inr s
  | None => inl (KeyError key)
  end.

(** [df[key] = s]: an existing column is replaced where it stands, a new one
    is appended as the last column. *)
Definition df_setitem (df : DataFrame) (k : label) (s : Series) : DataFrame :=
  assoc_set df k s.

(** [series ** 2] *)
Definition series_pow2 (s : Series) : result Series :=
  match s with
  | SInt xs => inr (SInt (map (λ x, wrap64 (x * x)) xs))
  | SFloat xs => inr (SFloat (map (λ x, fmul x x) xs))
  | SObj _ | SCat _ =>
      inl (TypeError "unsupported operand type(s) for ** or pow()")
  end.

Definition to_floats (s : Series) : option (list float) :=
  match s with
  | SInt xs => Some (map of_int xs)
  | SFloat xs => Some xs
  | SObj _ | SCat _ => None
  end.

(** [a / b], the true division: the result is a float64 Series. *)
Definition series_truediv (a b : Series) : result Series :=
  match to_floats a, to_floats b with
  | Some xs, Some ys => inr (SFloat (zip_with fdiv xs ys))
  | _, _ => inl (TypeError "unsupported operand type(s) for /")
  end.

(** [pd.cut(x, bins=[0, 18, 30, 50, 100],
            labels=["Teen", "Young", "Adult", "Senior"])]:
    right-closed bins (0,18], (18,30], (30,50], (50,100]; a value in no bin
    (or NaN) becomes NaN. *)
Definition cut_bin (x : float) : option string :=
  match x with
  | Fin q =>
      if Qle_bool q 0 then None
      else if Qle_bool q 18 then Some "Teen"
      else if Qle_bool q 30 then Some "Young"
      else if Qle_bool q 50 then Some "Adult"
      else if Qle_bool q 100 then Some "Senior"
      else None
  | Inf _ | NaN => None
  end.

Definition pd_cut (s : Series) : result Series :=
  match to_floats s with
  | Some xs => inr (SCat (map cut_bin xs))
  | None => inl (TypeError "'<' not supported between instances of 'int' and 'str'")
  end.

(** [df.select_dtypes(include="number").columns.tolist()] and
    [df.select_dtypes(exclude="number").columns.tolist()] *)
Definition select_number (df : DataFrame) : list label :=
  columns (filter (λ c, is_number c.2 = true) df).

Definition select_not_number (df : DataFrame) : list label :=
  columns (filter (λ c, is_number c.2 = false) df).

(** [pd.DataFrame(array, columns=names)] on a two-dimensional array, kept
    here as the list of its columns; without [columns] the labels are the
    positions [0 .. n-1]. *)
Abbreviation ndarray := (list (list float)).

Definition range_labels (n : nat) : list label := map LInt (seq 0 n).

Definition pd_DataFrame (arr : ndarray) (names : option (list label)) : result DataFrame :=
  match names with
  | None => inr (zip (range_labels (length arr)) (map SFloat arr))
  | Some ls =>
      if decide (length ls = length arr)
      then inr (zip ls (map SFloat arr))
      else inl (ValueError "Shape of passed values does not match the columns")
  end.

(** ** scikit-learn: StandardScaler, OneHotEncoder, ColumnTransformer *)

Definition str_label (l : label) : option string :=
  match l with LStr s => Some s | LInt _ => None end.

(** Column names as scikit-learn takes them from a DataFrame: every label
    has to be a [str]. *)
Definition feature_names_in (df : DataFrame) : result (list string) :=
  match mapM str_label (columns df) with
  | Some names => inr names
  | None => inl (TypeError "Feature names are only supported if all input features have string names")
  end.

Module StandardScaler.

(** Fitted state: [mean_] and [scale_], one entry per column. *)
Record t := mk { mean_ : list float; scale_ : list float }.

(** [check_array] on the selected columns: float64 values, NaN allowed,
    infinities refused, at least one row. *)
Definition check_column (s : Series) : result (list float) :=
  match to_floats s with
  | None => inl (ValueError "could not convert string to float")
  | Some xs =>
      if existsb is_inf xs
      then inl (ValueError "Input X contains infinity or a value too large for dtype('float64').")
      else inr xs
  end.

Fixpoint check_array (cols : list Series) : result (list (list float)) :=
  match cols with
  | [] => inr []
  | s :: rest =>
      rbind (check_column s) (λ xs,
      rbind (check_array rest) (λ xss, inr (xs :: xss)))
  end.

Definition check_samples (cols : list (list float)) : result unit :=
  match cols with
  | xs :: _ =>
      if decide (length xs = 0)
      then inl (ValueError "Found array with 0 sample(s) while a minimum of 1 is required.")
      else inr tt
  | [] => inr tt
  end.

Definition finite_values (xs : list float) : list Q :=
  omap (λ x, match x with Fin q => Some q | _ => None end) xs.

Definition Qsum (qs : list Q) : Q := foldr Qplus 0%Q qs.

Definition Qmean (qs : list Q) : Q := (Qsum qs / inject_Z (Z.of_nat (length qs)))%Q.

(** Mean and standard deviation (population variance) of the values that
    are not NaN; a zero deviation is replaced by 1. *)
Definition column_stats (xs : list float) : float * float :=
  let qs := finite_values xs in
  match qs with
  | [] => (NaN, NaN)
  | _ =>
      let m := Qmean qs in
      let var := Qmean (map (λ q, (q - m) * (q - m))%Q qs) in
      let sd := Qsqrt var in
      (Fin m, Fin (if Qeq_bool sd 0 then 1%Q else sd))
  end.

Definition fit (cols : list Series) : result t :=
  rbind (check_array cols) (λ xss,
  rbind (check_samples xss) (λ _,
  let stats := map column_stats xss in
  inr (mk (map fst stats) (map snd stats)))).

Definition scale_column (xs : list float) (ms : float * float) : list float :=
  map (λ x, fdiv (fsub x ms.1) ms.2) xs.

Definition transform (sc : t) (cols : list Series) : result ndarray :=
  rbind (check_array cols) (λ xss,
  rbind (check_samples xss) (λ _,
  if decide (length xss = length (mean_ sc))
  then inr (zip_with scale_column xss (zip (mean_ sc) (scale_ sc)))
  else inl (ValueError "X has a different number of features than StandardScaler is expecting"))).

End StandardScaler.

Module OneHotEncoder.

(** Fitted state of [OneHotEncoder(handle_unknown="ignore",
    sparse_output=False)]: the input column names and, per column, its
    categories. *)
Record t := mk { feature_names_in_ : list string;
                 categories_ : list (list (option string)) }.

Fixpoint insert_unique (s : string) (l : list string) : list string :=
  match l with
  | [] => [s]
  | x :: r =>
      if String.eqb s x then l
      else if String.ltb s x then s :: l
      else x :: insert_unique s r
  end.

(** The distinct values in increasing order, a missing value last. *)
Definition unique (xs : list (option string)) : list (option string) :=
  map Some (foldr insert_unique [] (omap id xs))
  ++ (if existsb (λ x, bool_decide (x = None)) xs then [None] else []).

Definition check_column (s : Series) : result (list (option string)) :=
  match s with
  | SObj xs | SCat xs =>
      if decide (length xs = 0)
      then inl (ValueError "Found array with 0 sample(s) while a minimum of 1 is required.")
      else inr xs
  | SInt _ | SFloat _ =>
      inl (TypeError "'<' not supported between instances of 'str' and 'float'")
  end.

Fixpoint check_array (cols : list Series) : result (list (list (option string))) :=
  match cols with
  | [] => inr []
  | s :: rest =>
      rbind (check_column s) (λ xs,
      rbind (check_array rest) (λ xss, inr (xs :: xss)))
  end.

Definition fit (names : list string) (cols : list Series) : result t :=
  rbind (check_array cols) (λ xss, inr (mk names (map unique xss))).

(** One indicator column per category; a value that is none of the
    categories is ignored: it sets no indicator. *)
Definition encode_column (xs : list (option string)) (cats : list (option string)) : ndarray :=
  map (λ c, map (λ x, if decide (x = c) then Fin 1 else Fin 0) xs) cats.

Definition transform (enc : t) (cols : list Series) : result ndarray :=
  rbind (check_array cols) (λ xss,
  if decide (length xss = length (categories_ enc))
  then inr (concat (zip_with encode_column xss (categories_ enc)))
  else inl (ValueError "X has a different number of features than OneHotEncoder is expecting")).

Definition category_str (c : option string) : string :=
  match c with Some s => s | None => "nan" end.

(** [get_feature_names_out(input_features)]: ["<column>_<category>"]. *)
Definition get_feature_names_out (enc : t) (input_features : list label) : result (list label) :=
  if decide (input_features = map LStr (feature_names_in_ enc))
  then inr (concat (zip_with (λ name cats,
               map (λ c, LStr (name +:+ "_" +:+ category_str c)) cats)
             (feature_names_in_ enc) (categories_ enc)))
  else inl (ValueError "input_features is not equal to feature_names_in_").

End OneHotEncoder.

Module ColumnTransformer.

(** [ColumnTransformer(transformers=[("num", StandardScaler(), num_cols),
      ("cat", OneHotEncoder(...), cat_cols)])]; [fitted_] is set by [fit]
    and holds the fitted transformers, one that was given no column being
    skipped. *)
Record t := mk {
  num_cols : list label;
  cat_cols : list label;
  fitted_ : option (option StandardScaler.t * option OneHotEncoder.t) }.

Definition new (numeric_cols categorical_cols : list label) : t :=
  mk numeric_cols categorical_cols None.

(** [X[cols]] *)
Fixpoint select (df : DataFrame) (cols : list label) : result (list Series) :=
  match cols with
  | [] => inr []
  | c :: rest =>
      match assoc_lookup df c with
      | None => inl (ValueError "columns are missing")
      | Some s => rbind (select df rest) (λ ss, inr (s :: ss))
      end
  end.

Definition fit (ct : t) (df : DataFrame) : result t :=
  rbind (feature_names_in df) (λ _,
  rbind (select df (num_cols ct)) (λ xnum,
  rbind (select df (cat_cols ct)) (λ xcat,
  rbind (match num_cols ct with
         | [] => inr None
         | _ => rbind (StandardScaler.fit xnum) (λ sc, inr (Some sc))
         end) (λ num,
  rbind (match cat_cols ct with
         | [] => inr None
         | _ => rbind (OneHotEncoder.fit (omap str_label (cat_cols ct)) xcat)
                      (λ enc, inr (Some enc))
         end) (λ cat,
  inr (mk (num_cols ct) (cat_cols ct) (Some (num, cat)))))))).

Definition transform (ct : t) (df : DataFrame) : result ndarray :=
  match fitted_ ct with
  | None => inl (sklearn_NotFittedError "This ColumnTransformer instance is not fitted yet.")
  | Some (num, cat) =>
      rbind (feature_names_in df) (λ _,
      rbind (select df (num_cols ct)) (λ xnum,
      rbind (select df (cat_cols ct)) (λ xcat,
      rbind (match num with
             | None => inr []
             | Some sc => StandardScaler.transform sc xnum
             end) (λ anum,
      rbind (match cat with
             | None => inr []
             | Some enc => OneHotEncoder.transform enc xcat
             end) (λ acat,
      inr (anum ++ acat))))))
  end.

(** [ct.named_transformers_["cat"].get_feature_names_out(input_features)];
    a skipped encoder was never fitted. *)
Definition cat_feature_names_out (ct : t) (input_features : list label) : result (list label) :=
  match fitted_ ct with
  | Some (_, Some enc) => OneHotEncoder.get_feature_names_out enc input_features
  | _ => inl (sklearn_NotFittedError "This OneHotEncoder instance is not fitted yet.")
  end.

End ColumnTransformer.

(** ** The world: DataFrame objects, joblib files, settings, log *)

(** Values interpolated in log messages and stored in dictionaries. *)
Inductive pyval :=
| PStr (s : string)
| PInt (z : Z)
| PFloat (f : float)
| PLabels (ls : list label)
| PShape (rows cols : nat)
| PMatrix (m : list (list Z))
| PDict (d : list (string * pyval)).

(** One call of the logger: level, message with [{}] for each interpolated
    value, and these values. *)
Record LogRecord := Log { level : string; message : string; args : list pyval }.

(** [config/settings.py]: the field read by the code embedded here;
    [default_settings] is its value when the environment does not set
    TARGET_COLUMN. *)
Record Settings := { target_column : string }.

Definition default_settings : Settings := {| target_column := "NObeyesdad" |}.

(** A reference to a DataFrame object. *)
Abbreviation loc := nat.

(** What [joblib.dump] wrote: [self.pipeline], which is [None] or a
    ColumnTransformer. *)
Abbreviation Pickle := (option ColumnTransformer.t).

Record World := mkWorld {
  frames : list DataFrame;
  files : gmap string Pickle;
  settings : Settings;
  logs : list LogRecord }.

Definition set_frames (f : list DataFrame → list DataFrame) (w : World) : World :=
  mkWorld (f (frames w)) (files w) (settings w) (logs w).

Definition set_files (f : gmap string Pickle → gmap string Pickle) (w : World) : World :=
  mkWorld (frames w) (f (files w)) (settings w) (logs w).

Definition add_log (r : LogRecord) (w : World) : World :=
  mkWorld (frames w) (files w) (settings w) (logs w ++ [r]).

(** A method with receiver of type [S]. *)
Definition Method (S A : Type) : Type := S → World → S * World * result A.

Definition ret {S A} (a : A) : Method S A := λ s w, (s, w, inr a).

Definition raise {S A} (e : exn) : Method S A := λ s w, (s, w, inl e).

Definition bind {S A B} (m : Method S A) (k : A → Method S B) : Method S B :=
  λ s w,
    match m s w with
    | (s', w', inr a) => k a s' w'
    | (s', w', inl e) => (s', w', inl e)
    end.

Notation "x <- m ;; k" := (bind m (λ x, k))
  (at level 100, m at next level, k at level 200, right associativity).
Notation "m ;; k" := (bind m (λ _, k))
  (at level 100, k at level 200, right associativity).

Definition lift {S A} (r : result A) : Method S A := λ s w, (s, w, r).

Definition get_self {S} : Method S S := λ s w, (s, w, inr s).

Definition set_self {S} (f : S → S) : Method S unit := λ s w, (f s, w, inr tt).

Definition get_settings {S} : Method S Settings := λ s w, (s, w, inr (settings w)).

Definition logger {S} (lvl msg : string) (vals : list pyval) : Method S unit :=
  λ s w, (s, add_log (Log lvl msg vals) w, inr tt).

(** Reading through a reference; a reference Python holds is never
    dangling, the error case is there for totality. *)
Definition deref {S} (l : loc) : Method S DataFrame :=
  λ s w,
    match frames w !! l with
    | Some df => (s, w, inr df)
    | None => (s, w, inl (Exn "SystemError" "dangling reference"))
    end.

Definition store {S} (l : loc) (df : DataFrame) : Method S unit :=
  λ s w, (s, set_frames (λ fs, <[l := df]> fs) w, inr tt).

(** A new DataFrame object. *)
Definition alloc {S} (df : DataFrame) : Method S loc :=
  λ s w, (s, set_frames (λ fs, fs ++ [df]) w, inr (length (frames w))).

(** [data[key]] and [data[key] = value] on the object [data] refers to. *)
Definition getitem {S} (data : loc) (key : string) : Method S Series :=
  df <- deref data ;; lift (df_getitem df key).

Definition setitem {S} (data : loc) (key : string) (value : Series) : Method S unit :=
  df <- deref data ;; store data (df_setitem df (LStr key) value).

(** [joblib.dump(obj, path)] and [joblib.load(path)] *)
Definition joblib_dump {S} (obj : Pickle) (path : string) : Method S unit :=
  λ s w, (s, set_files (λ fs, <[path := obj]> fs) w, inr tt).

Definition joblib_load {S} (path : string) : Method S Pickle :=
  λ s w,
    match files w !! path with
    | Some obj => (s, w, inr obj)
    | None => (s, w, inl (FileNotFoundError path))
    end.

(** [list.remove(x)] under [if x in list]: the first occurrence goes. *)
Fixpoint list_remove (x : label) (l : list label) : list label :=
  match l with
  | [] => []
  | y :: r => if decide (y = x) then r else y :: list_remove x r
  end.

(** ** base_preprocessor.py *)

Module BasePreprocessor.

(** The interface of the abstract class: the flag set by [__init__] and
    the four abstract methods. *)
Class t (S : Type) := {
  fitted : S → bool;
  fit : loc → Method S unit;
  transform : loc → Method S loc;
  save : string → Method S unit;
  load : option string → Method S unit }.

Definition _check_fitted {S} (fitted : S → bool) : Method S unit :=
  self <- get_self ;;
  if negb (fitted self)
  then
    logger "ERROR" "[BasePreprocessor] Attempted to transform before fitting." [] ;;
    raise (RuntimeError "Preprocessor must be fitted before calling transform().")
  else ret tt.

End BasePreprocessor.

(** The two statements that derive features, as [fit] and [transform] of
    both preprocessors have them:
      [data["BMI"] = data["Weight"] / (data["Height"] ** 2)]
      [data["Age_Group"] = pd.cut(data["Age"], bins=..., labels=...)] *)
Definition assign_BMI {S} (data : loc) : Method S unit :=
  weight <- getitem data "Weight" ;;
  height <- getitem data "Height" ;;
  height2 <- lift (series_pow2 height) ;;
  bmi <- lift (series_truediv weight height2) ;;
  setitem data "BMI" bmi.

Definition assign_Age_Group {S} (data : loc) : Method S unit :=
  age <- getitem data "Age" ;;
  group <- lift (pd_cut age) ;;
  setitem data "Age_Group" group.

(** [self.pipeline.transform(data)] *)
Definition pipeline_transform {S} (pipeline : S → Pickle) (data : loc) : Method S ndarray :=
  self <- get_self ;;
  match pipeline self with
  | None => raise (AttributeError "'NoneType' object has no attribute 'transform'")
  | Some ct => df <- deref data ;; lift (ColumnTransformer.transform ct df)
  end.

Definition df_shape (df : DataFrame) : pyval := PShape (n_rows df) (length df).

(** [pd.DataFrame(array, columns=names)] as a new object. *)
Definition new_DataFrame {S} (arr : ndarray) (names : option (list label)) : Method S loc :=
  df <- lift (pd_DataFrame arr names) ;; alloc df.

(** ** train_preprocessor.py *)

Module TrainPreprocessor.

Record t := mk {
  fitted : bool;
  pipeline : Pickle;
  feature_names : option (list label) }.

Definition __init__ : t := mk false None None.

Definition set_pipeline (p : Pickle) : Method t unit :=
  set_self (λ self, mk (fitted self) p (feature_names self)).

Definition set_feature_names (names : option (list label)) : Method t unit :=
  set_self (λ self, mk (fitted self) (pipeline self) names).

Definition set_fitted (b : bool) : Method t unit :=
  set_self (λ self, mk b (pipeline self) (feature_names self)).

(** [self.pipeline.fit(data)]: the ColumnTransformer object is fitted in
    place. *)
Definition pipeline_fit (data : loc) : Method t unit :=
  self <- get_self ;;
  match pipeline self with
  | None => raise (AttributeError "'NoneType' object has no attribute 'fit'")
  | Some ct =>
      df <- deref data ;;
      ct' <- lift (ColumnTransformer.fit ct df) ;;
      set_pipeline (Some ct')
  end.

(** [self.pipeline.named_transformers_["cat"]
      .get_feature_names_out(categorical_cols)] *)
Definition pipeline_cat_feature_names (categorical_cols : list label) : Method t (list label) :=
  self <- get_self ;;
  match pipeline self with
  | None => raise (AttributeError "'NoneType' object has no attribute 'named_transformers_'")
  | Some ct => lift (ColumnTransformer.cat_feature_names_out ct categorical_cols)
  end.

Definition fit (data : loc) : Method t unit :=
  logger "INFO" "[TrainPreprocessor] Starting preprocessing fit..." [] ;;
  assign_BMI data ;;
  assign_Age_Group data ;;
  df <- deref data ;;
  cfg <- get_settings ;;
  let numeric_cols := select_number df in
  let categorical_cols := select_not_number df in
  let categorical_cols := list_remove (LStr (target_column cfg)) categorical_cols in
  let numeric_cols := list_remove (LStr (target_column cfg)) numeric_cols in
  logger "DEBUG" "[TrainPreprocessor] Numeric cols: {}" [PLabels numeric_cols] ;;
  logger "DEBUG" "[TrainPreprocessor] Categorical cols: {}" [PLabels categorical_cols] ;;
  set_pipeline (Some (ColumnTransformer.new numeric_cols categorical_cols)) ;;
  pipeline_fit data ;;
  names <- pipeline_cat_feature_names categorical_cols ;;
  set_feature_names (Some (numeric_cols ++ names)) ;;
  set_fitted true ;;
  logger "SUCCESS" "[TrainPreprocessor] Preprocessing fit completed successfully." [].

Definition transform (data : loc) : Method t loc :=
  BasePreprocessor._check_fitted fitted ;;
  logger "INFO" "[TrainPreprocessor] Transforming dataset..." [] ;;
  assign_BMI data ;;
  assign_Age_Group data ;;
  transformed_array <- pipeline_transform pipeline data ;;
  self <- get_self ;;
  transformed_df <- new_DataFrame transformed_array (feature_names self) ;;
  df <- deref transformed_df ;;
  logger "SUCCESS" "[TrainPreprocessor] Transformation complete. Shape: {}" [df_shape df] ;;
  ret transformed_df.

Definition save (path : string) : Method t unit :=
  self <- get_self ;;
  joblib_dump (pipeline self) path ;;
  logger "INFO" "[TrainPreprocessor] Preprocessing pipeline saved to: {}" [PStr path].

Definition load (path : string) : Method t unit :=
  p <- joblib_load path ;;
  set_pipeline p ;;
  set_fitted true ;;
  logger "INFO" "[TrainPreprocessor] Loaded preprocessing pipeline from: {}" [PStr path].

End TrainPreprocessor.

Global Instance TrainPreprocessor_Base : BasePreprocessor.t TrainPreprocessor.t := {|
  BasePreprocessor.fitted := TrainPreprocessor.fitted;
  BasePreprocessor.fit := TrainPreprocessor.fit;
  BasePreprocessor.transform := TrainPreprocessor.transform;
  BasePreprocessor.save := TrainPreprocessor.save;
  BasePreprocessor.load := λ path,
    match path with
    | Some p => TrainPreprocessor.load p
    | None => raise (TypeError "load() missing 1 required positional argument: 'path'")
    end |}.

(** ** inference_preprocessor.py *)

Module InferencePreprocessor.

Record t := mk {
  fitted : bool;
  pipeline : Pickle;
  preprocessor_path : string }.

Definition __init__ (preprocessor_path : string) : t := mk false None preprocessor_path.

Definition fit (data : loc) : Method t unit :=
  logger "WARNING" "[InferencePreprocessor] fit() is not used in inference mode." [].

Definition transform (data : loc) : Method t loc :=
  BasePreprocessor._check_fitted fitted ;;
  logger "INFO" "[InferencePreprocessor] Applying inference transformations..." [] ;;
  assign_BMI data ;;
  assign_Age_Group data ;;
  transformed_array <- pipeline_transform pipeline data ;;
  transformed_df <- new_DataFrame transformed_array None ;;
  df <- deref transformed_df ;;
  logger "SUCCESS" "[InferencePreprocessor] Transformation complete. Shape: {}" [df_shape df] ;;
  ret transformed_df.

Definition save (path : string) : Method t unit :=
  logger "WARNING" "[InferencePreprocessor] save() is not used in inference mode." [].

(** [preprocessor_file = path or self.preprocessor_path]: [None] and the
    empty string fall back on the path given to [__init__]. *)
Definition load (path : option string) : Method t unit :=
  self <- get_self ;;
  let preprocessor_file :=
    match path with
    | Some p => if decide (p = "") then preprocessor_path self else p
    | None => preprocessor_path self
    end in
  p <- joblib_load preprocessor_file ;;
  set_self (λ self, mk (fitted self) p (preprocessor_path self)) ;;
  set_self (λ self, mk true (pipeline self) (preprocessor_path self)) ;;
  logger "INFO" "[InferencePreprocessor] Loaded preprocessor from: {}" [PStr preprocessor_file].

End InferencePreprocessor.

Global Instance InferencePreprocessor_Base : BasePreprocessor.t InferencePreprocessor.t := {|
  BasePreprocessor.fitted := InferencePreprocessor.fitted;
  BasePreprocessor.fit := InferencePreprocessor.fit;
  BasePreprocessor.transform := InferencePreprocessor.transform;
  BasePreprocessor.save := InferencePreprocessor.save;
  BasePreprocessor.load := InferencePreprocessor.load |}.

(** ** Python dictionaries and [max] *)

(** A [dict] with [str] keys, in insertion order. *)
Abbreviation dict V := (list (string * V)).

(** [d[k]] *)
Definition dict_getitem {V} (d : dict V) (k : string) : result V :=
  match assoc_lookup d k with
  | Some v => inr v
  | None => inl (KeyError k)
  end.

(** [d[k] = v] *)
Definition dict_setitem {V} (d : dict V) (k : string) (v : V) : dict V :=
  assoc_set d k v.

Definition keys {V} (d : dict V) : list string := map fst d.

(** [a > b] on the values the code compares. *)
Definition py_gt (a b : pyval) : result bool :=
  match a, b with
  | PFloat x, PFloat y => inr (fgt x y)
  | PInt x, PInt y => inr (bool_decide (y < x)%Z)
  | PFloat x, PInt y => inr (fgt x (of_int y))
  | PInt x, PFloat y => inr (fgt (of_int x) y)
  | _, _ => inl (TypeError "'>' not supported between instances")
  end.

(** The loop of [max(iterable, key=key)]: the running maximum is replaced
    only by an item whose key is greater. *)
Fixpoint max_loop (key : string → result pyval) (items : list string)
    (maxitem : string) (maxval : pyval) : result string :=
  match items with
  | [] => inr maxitem
  | item :: rest =>
      rbind (key item) (λ val,
      rbind (py_gt val maxval) (λ gt,
      if (gt : bool) then max_loop key rest item val
      else max_loop key rest maxitem maxval))
  end.

Definition py_max (items : list string) (key : string → result pyval) : result string :=
  match items with
  | [] => inl (ValueError "max() arg is an empty sequence")
  | item :: rest => rbind (key item) (λ val, max_loop key rest item val)
  end.

(** ** sklearn.metrics on integer class labels *)

Module metrics.

Definition check_consistent_length (y_true y_pred : list Z) : result unit :=
  if decide (length y_true = length y_pred) then inr tt
  else inl (ValueError "Found input variables with inconsistent numbers of samples").

Fixpoint insert_unique (x : Z) (l : list Z) : list Z :=
  match l with
  | [] => [x]
  | y :: r =>
      if (x =? y)%Z then l
      else if (x <? y)%Z then x :: l
      else y :: insert_unique x r
  end.

(** The labels present in [y_true] or [y_pred], in increasing order. *)
Definition unique_labels (y_true y_pred : list Z) : list Z :=
  foldr insert_unique [] (y_true ++ y_pred).

Definition count (P : Z * Z → bool) (pairs : list (Z * Z)) : Z :=
  Z.of_nat (length (List.filter P pairs)).

Definition ratio (a b : Z) : Q :=
  if (b =? 0)%Z then 0%Q else (inject_Z a / inject_Z b)%Q.

Definition accuracy_score (y_true y_pred : list Z) : result float :=
  rbind (check_consistent_length y_true y_pred) (λ _,
  let pairs := zip y_true y_pred in
  match pairs with
  | [] => inr NaN
  | _ => inr (Fin (ratio (count (λ p, (p.1 =? p.2)%Z) pairs) (Z.of_nat (length pairs))))
  end).

(** Per-class counts: true positives, predicted as the class, truly of
    the class (its support). *)
Definition tp_sum (pairs : list (Z * Z)) (c : Z) : Z :=
  count (λ p, (p.1 =? c)%Z && (p.2 =? c)%Z) pairs.
Definition pred_sum (pairs : list (Z * Z)) (c : Z) : Z :=
  count (λ p, (p.2 =? c)%Z) pairs.
Definition true_sum (pairs : list (Z * Z)) (c : Z) : Z :=
  count (λ p, (p.1 =? c)%Z) pairs.

Definition class_precision (pairs : list (Z * Z)) (c : Z) : Q :=
  ratio (tp_sum pairs c) (pred_sum pairs c).
Definition class_recall (pairs : list (Z * Z)) (c : Z) : Q :=
  ratio (tp_sum pairs c) (true_sum pairs c).
Definition class_f1 (pairs : list (Z * Z)) (c : Z) : Q :=
  ratio (2 * tp_sum pairs c) (true_sum pairs c + pred_sum pairs c).

(** [average="weighted"]: the per-class scores averaged with the supports
    as weights; a division by zero counts as 0.  The average is the exact
    one; scikit-learn's, computed on doubles, can differ from it in the
    last place. *)
Definition weighted (score : list (Z * Z) → Z → Q) (y_true y_pred : list Z) : result float :=
  rbind (check_consistent_length y_true y_pred) (λ _,
  let pairs := zip y_true y_pred in
  let labels := unique_labels y_true y_pred in
  let total := foldr Z.add 0%Z (map (true_sum pairs) labels) in
  let weighted_sum :=
    foldr Qplus 0%Q (map (λ c, inject_Z (true_sum pairs c) * score pairs c)%Q labels) in
  inr (Fin (if (total =? 0)%Z then 0%Q else (weighted_sum / inject_Z total)%Q))).

Definition precision_score := weighted class_precision.
Definition recall_score := weighted class_recall.
Definition f1_score := weighted class_f1.

(** Rows are true labels, columns predicted labels, both in the order of
    [unique_labels]. *)
Definition confusion_matrix (y_true y_pred : list Z) : result (list (list Z)) :=
  rbind (check_consistent_length y_true y_pred) (λ _,
  let pairs := zip y_true y_pred in
  let labels := unique_labels y_true y_pred in
  inr (map (λ t, map (λ p, count (λ tp, (tp.1 =? t)%Z && (tp.2 =? p)%Z) pairs) labels) labels)).

End metrics.

(** ** evaluator.py *)

Module ModelEvaluator.

(** The class has no attribute. *)
Definition t : Type := unit.

Definition __init__ : t := tt.

Definition evaluate (y_true y_pred : list Z) : Method t (dict pyval) :=
  accuracy <- lift (metrics.accuracy_score y_true y_pred) ;;
  precision <- lift (metrics.precision_score y_true y_pred) ;;
  recall <- lift (metrics.recall_score y_true y_pred) ;;
  f1 <- lift (metrics.f1_score y_true y_pred) ;;
  let metrics :=
    [ ("accuracy", PFloat accuracy);
      ("precision", PFloat precision);
      ("recall", PFloat recall);
      ("f1_score", PFloat f1) ] in
  logger "INFO" "[Evaluator] Metrics: {}" [PDict metrics] ;;
  cm <- lift (metrics.confusion_matrix y_true y_pred) ;;
  logger "INFO" "[Evaluator] Confusion Matrix:\n{}" [PMatrix cm] ;;
  ret metrics.

End ModelEvaluator.

(** ** base_trainer.py: the interface the comparator relies on *)

(** A trainer object, seen through the two methods the comparator calls:
    [train] fits [self.model] on the training data and [predict] gives the
    labels of the rows of [X] from it.  The boosted-tree libraries behind
    are not modelled: [model_t] stands for their fitted state. *)
Record BaseTrainer := Trainer {
  model_t : Type;
  model_name : string;
  model : model_t;
  train : model_t → DataFrame → list Z → DataFrame → list Z → result model_t;
  predict : model_t → DataFrame → result (list Z) }.

(** ** comparator.py *)

Module ModelComparator.

Record t := mk {
  evaluator : ModelEvaluator.t;
  results : dict (dict pyval) }.

Definition __init__ : t := mk ModelEvaluator.__init__ [].

(** A call of a method of [self.evaluator]. *)
Definition on_evaluator {A} (m : Method ModelEvaluator.t A) : Method t A :=
  λ self w,
    match m (evaluator self) w with
    | (ev, w', r) => (mk ev (results self), w', r)
    end.

(** The body of [for name, trainer in trainers.items()]. *)
Definition compare_step (X_train X_valid : DataFrame) (y_train y_valid : list Z)
    (name : string) (trainer : BaseTrainer) : Method t unit :=
  logger "INFO" "[Comparator] Training model: {}" [PStr name] ;;
  fitted_model <- lift (train trainer (model trainer) X_train y_train X_valid y_valid) ;;
  preds <- lift (predict trainer fitted_model X_valid) ;;
  metrics <- on_evaluator (ModelEvaluator.evaluate y_valid preds) ;;
  set_self (λ self, mk (evaluator self) (dict_setitem (results self) name metrics)).

Fixpoint compare_loop (items : list (string * BaseTrainer))
    (X_train X_valid : DataFrame) (y_train y_valid : list Z) : Method t unit :=
  match items with
  | [] => ret tt
  | (name, trainer) :: rest =>
      compare_step X_train X_valid y_train y_valid name trainer ;;
      compare_loop rest X_train X_valid y_train y_valid
  end.

(** [lambda k: self.results[k]["f1_score"]] *)
Definition f1_key (self : t) (k : string) : result pyval :=
  rbind (dict_getitem (results self) k) (λ m, dict_getitem m "f1_score").

Definition compare (trainers : dict BaseTrainer)
    (X_train X_valid : DataFrame) (y_train y_valid : list Z)
    : Method t (string * dict pyval) :=
  compare_loop trainers X_train X_valid y_train y_valid ;;
  self <- get_self ;;
  best_model_name <- lift (py_max (keys (results self)) (f1_key self)) ;;
  best <- lift (dict_getitem (results self) best_model_name) ;;
  f1 <- lift (dict_getitem best "f1_score") ;;
  logger "SUCCESS" "[Comparator] Best model: {} with F1={:.4f}" [PStr best_model_name; f1] ;;
  ret (best_model_name, best).

End ModelComparator.

(** ** Vocabulary of the statements *)

Inductive dtype := int64 | float64 | object | category.

Definition dtype_of (s : Series) : dtype :=
  match s with
  | SInt _ => int64
  | SFloat _ => float64
  | SObj _ => object
  | SCat _ => category
  end.

(** Two tables have the same column schema: the same labels in the same
    order, with the same dtypes. *)
Definition same_schema (A B : DataFrame) : Prop :=
  Forall2 (λ a b, a.1 = b.1 ∧ dtype_of a.2 = dtype_of b.2) A B.

(** The table after each of the two feature-deriving statements. *)
Definition set_BMI (df : DataFrame) : result DataFrame :=
  rbind (df_getitem df "Weight") (λ weight,
  rbind (df_getitem df "Height") (λ height,
  rbind (series_pow2 height) (λ height2,
  rbind (series_truediv weight height2) (λ bmi,
  inr (df_setitem df (LStr "BMI") bmi))))).

Definition set_Age_Group (df : DataFrame) : result DataFrame :=
  rbind (df_getitem df "Age") (λ age,
  rbind (pd_cut age) (λ group,
  inr (df_setitem df (LStr "Age_Group") group))).

Definition with_derived_features (df : DataFrame) : result DataFrame :=
  rbind (set_BMI df) set_Age_Group.

Definition has_infinity (s : Series) : bool :=
  match to_floats s with
  | Some xs => existsb is_inf xs
  | None => false
  end.

(** No numeric column of the table holds an infinity. *)
Definition no_infinity (df : DataFrame) : Prop :=
  Forall (λ c, has_infinity c.2 = false) df.

(** The values of an object or category column. *)
Definition str_values (s : Series) : list (option string) :=
  match s with
  | SObj xs | SCat xs => xs
  | SInt _ | SFloat _ => []
  end.

(** What a fitted pipeline makes of the columns it selects: the numeric
    ones scaled with the stored means and deviations, then one block of
    indicator columns per categorical one. *)
Definition scaled_columns (num : option StandardScaler.t) (xnum : list Series) : ndarray :=
  match num with
  | None => []
  | Some sc =>
      zip_with StandardScaler.scale_column (omap to_floats xnum)
        (zip (StandardScaler.mean_ sc) (StandardScaler.scale_ sc))
  end.

Definition encoded_blocks (cat : option OneHotEncoder.t) (xcat : list Series) : list ndarray :=
  match cat with
  | None => []
  | Some enc =>
      zip_with OneHotEncoder.encode_column (map str_values xcat) (OneHotEncoder.categories_ enc)
  end.

(** The feature columns [fit] builds the pipeline from. *)
Definition numeric_cols (cfg : Settings) (df : DataFrame) : list label :=
  list_remove (LStr (target_column cfg)) (select_number df).

Definition categorical_cols (cfg : Settings) (df : DataFrame) : list label :=
  list_remove (LStr (target_column cfg)) (select_not_number df).

(** A table [transform] can encode: well formed, with at least one row, and
    with no infinity in a numeric column once the features are derived. *)
Definition finite_table (A : DataFrame) : Prop :=
  wf_frame A ∧ 0 < n_rows A
  ∧ match with_derived_features A with
    | inr A' => no_infinity A'
    | inl _ => True
    end.

(** The names [fit] gives the indicator columns. *)
Definition onehot_names (names : list string) (categories : list (list (option string))) : list label :=
  concat (zip_with (λ name cats,
            map (λ c, LStr (name +:+ "_" +:+ OneHotEncoder.category_str c)) cats)
          names categories).

(** The outcome [r] of a [transform] on the table [data] refers to, in the
    world [w]: the table is now [df'], the one it was with its derived
    columns; when a table is returned, it is a new object, made of float
    columns, and nothing else changed among the tables. *)
Definition updated_in_place {S} (data : loc) (w : World) (df' : DataFrame)
    (r : S * World * result loc) : Prop :=
  frames r.1.2 !! data = Some df'
  ∧ match r.2 with
    | inl _ => frames r.1.2 = <[data := df']> (frames w)
    | inr out =>
        out = length (frames w) ∧ out ≠ data
        ∧ ∃ encoded, frames r.1.2 = <[data := df']> (frames w) ++ [encoded]
                     ∧ Forall (λ c, dtype_of c.2 = float64) encoded
    end.

(** The dictionary [evaluate] returns on [y_true] and [y_pred]. *)
Definition metrics_dict (y_true y_pred : list Z) : result (dict pyval) :=
  rbind (metrics.accuracy_score y_true y_pred) (λ accuracy,
  rbind (metrics.precision_score y_true y_pred) (λ precision,
  rbind (metrics.recall_score y_true y_pred) (λ recall,
  rbind (metrics.f1_score y_true y_pred) (λ f1,
  inr [ ("accuracy", PFloat accuracy);
        ("precision", PFloat precision);
        ("recall", PFloat recall);
        ("f1_score", PFloat f1) ])))).

(** What a trainer predicts for the validation rows once trained, and the
    evaluation of these predictions. *)
Definition trainer_predictions (X_train X_valid : DataFrame) (y_train y_valid : list Z)
    (t : BaseTrainer) : result (list Z) :=
  rbind (train t (model t) X_train y_train X_valid y_valid) (λ m, predict t m X_valid).

Definition trainer_metrics (X_train X_valid : DataFrame) (y_train y_valid : list Z)
    (t : BaseTrainer) : result (dict pyval) :=
  rbind (trainer_predictions X_train X_valid y_train y_valid t) (metrics_dict y_valid).

(** The F1 score of an evaluation. *)
Definition f1_of (m : dict pyval) : Q :=
  match assoc_lookup m "f1_score" with
  | Some (PFloat (Fin q)) => q
  | _ => 0%Q
  end.

(** The column labels of the table [transform] returns: the feature names
    when the preprocessor has them, positions otherwise. *)
Definition output_labels (feature_names : option (list label)) (n : nat) : list label :=
  match feature_names with
  | Some names => names
  | None => range_labels n
  end.

(** ** Example tables *)

(** The two-row training table of the end-to-end scenario. *)
Definition scenario_table : DataFrame :=
  [ (LStr "Age", SInt [25; 40]%Z);
    (LStr "Height", SInt [170; 160]%Z);
    (LStr "Weight", SInt [70; 95]%Z);
    (LStr "Gender", SObj [Some "Male"; Some "Female"]);
    (LStr "NObeyesdad", SObj [Some "Normal"; Some "Obese"]) ].

(** The table of [tests/test_preprocessing.py]: no label column. *)
Definition test_table : DataFrame :=
  [ (LStr "Age", SInt [25; 40]%Z);
    (LStr "Height", SInt [170; 180]%Z);
    (LStr "Weight", SInt [70; 90]%Z);
    (LStr "Gender", SObj [Some "Male"; Some "Female"]) ].

(** [test_table] without its Weight column. *)
Definition no_weight_table : DataFrame :=
  [ (LStr "Age", SInt [25; 40]%Z);
    (LStr "Height", SInt [170; 180]%Z);
    (LStr "Gender", SObj [Some "Male"; Some "Female"]) ].

(** One row with the columns of [scenario_table]. *)
Definition single_row_table : DataFrame :=
  [ (LStr "Age", SInt [30]%Z);
    (LStr "Height", SInt [175]%Z);
    (LStr "Weight", SInt [80]%Z);
    (LStr "Gender", SObj [Some "Male"]);
    (LStr "NObeyesdad", SObj [Some "Overweight"]) ].



(** Trainers for the comparison of the specification: each predicts a fixed
    list of labels whatever it is trained on.  Against 33 validation labels
    0, 11 wrong predictions give a weighted F1 of 0.80 and 6 wrong ones a
    weighted F1 of 0.90. *)
Definition fixed_trainer (name : string) (preds : list Z) : BaseTrainer :=
  Trainer unit name tt (λ _ _ _ _ _, inr tt) (λ _ _, inr preds).

Definition y_valid_33 : list Z := repeat 0%Z 33.

Definition trainers_ABC : dict BaseTrainer :=
  [ ("A", fixed_trainer "A" (repeat 1%Z 11 ++ repeat 0%Z 22));
    ("B", fixed_trainer "B" (repeat 1%Z 6 ++ repeat 0%Z 27));
    ("C", fixed_trainer "C" (repeat 0%Z 27 ++ repeat 1%Z 6)) ].

(** The evaluations of the three trainers, in the order of the mapping. *)
Definition metrics_ABC : list (dict pyval) :=
  omap (λ nt : string * BaseTrainer,
          match trainer_metrics [] [] [] y_valid_33 nt.2 with
          | inr m => Some m
          | inl _ => None
          end) trainers_ABC.

(** A world holding the given DataFrame objects, no file and an empty log,
    with the default settings. *)
Definition world_of (fs : list DataFrame) : World := mkWorld fs ∅ default_settings [].

(** The end-to-end scenario: a new TrainPreprocessor fitted on
    [scenario_table]; the preprocessor and the world [fit] leaves, and the
    table as [fit] leaves it. *)
Definition scenario_fit : TrainPreprocessor.t * World * result unit :=
  TrainPreprocessor.fit 0 TrainPreprocessor.__init__ (world_of [scenario_table]).

Definition scenario_preprocessor : TrainPreprocessor.t := scenario_fit.1.1.

Definition scenario_world : World := scenario_fit.1.2.

(** The file the scenario saves its preprocessor to. *)
Definition scenario_path : string := "XGBoost_preprocessor.joblib".

(** The scenario goes on: the fitted preprocessor is saved, a new
    TrainPreprocessor loads the file, then both transform the fit-time
    table, the fitted one first. *)
Definition scenario_save : TrainPreprocessor.t * World * result unit :=
  TrainPreprocessor.save scenario_path scenario_preprocessor scenario_world.

Definition scenario_load : TrainPreprocessor.t * World * result unit :=
  TrainPreprocessor.load scenario_path TrainPreprocessor.__init__ scenario_save.1.2.

Definition scenario_transform : TrainPreprocessor.t * World * result loc :=
  TrainPreprocessor.transform 0 scenario_preprocessor scenario_load.1.2.

Definition scenario_transform_loaded : TrainPreprocessor.t * World * result loc :=
  TrainPreprocessor.transform 0 scenario_load.1.1 scenario_transform.1.2.

Definition scenario_table_fitted : DataFrame :=
  scenario_table
  ++ [ (LStr "BMI", SFloat [Fin (70 # 28900); Fin (95 # 25600)]);
       (LStr "Age_Group", SCat [Some "Young"; Some "Adult"]) ].

(** ** More example tables *)

(** [test_table] with a height of zero in its second row. *)
Definition zero_height_table : DataFrame :=
  [ (LStr "Age", SInt [25; 40]%Z);
    (LStr "Height", SInt [170; 0]%Z);
    (LStr "Weight", SInt [70; 90]%Z);
    (LStr "Gender", SObj [Some "Male"; Some "Female"]) ].

(** The columns of [test_table], with no row. *)
Definition no_row_table : DataFrame :=
  [ (LStr "Age", SInt []);
    (LStr "Height", SInt []);
    (LStr "Weight", SInt []);
    (LStr "Gender", SObj []) ].

(** A list in strictly increasing order. *)
Fixpoint increasing {A} (lt : A → A → Prop) (l : list A) : Prop :=
  match l with
  | [] => True
  | x :: r => Forall (lt x) r ∧ increasing lt r
  end.

Definition string_lt (x y : string) : Prop := String.ltb x y = true.

(** The results a comparator holds are well formed: one entry per name,
    each with a finite F1 score. *)
Definition results_ok (d : dict (dict pyval)) : Prop :=
  NoDup (keys d)
  ∧ Forall (λ km, dict_getitem km.2 "f1_score" = inr (PFloat (Fin (f1_of km.2)))) d.

(** The entries [compare] stores: each trainer's evaluation under its
    name, in the order of the mapping. *)
Definition store_results (d : dict (dict pyval)) (names : list string)
    (ms : list (dict pyval)) : dict (dict pyval) :=
  foldl (λ d nm, dict_setitem d nm.1 nm.2) d (zip names ms).

(** The value of a weighted average and of the accuracy on non-empty label
    lists of the same length. *)
Definition weighted_value (score : list (Z * Z) → Z → Q) (y_true y_pred : list Z) : Q :=
  (foldr Qplus 0%Q
     (map (λ c, inject_Z (metrics.true_sum (zip y_true y_pred) c)
                * score (zip y_true y_pred) c)%Q
        (metrics.unique_labels y_true y_pred))
   / inject_Z (Z.of_nat (length y_true)))%Q.

Definition accuracy_value (y_true y_pred : list Z) : Q :=
  (inject_Z (metrics.count (λ p, (p.1 =? p.2)%Z) (zip y_true y_pred))
   / inject_Z (Z.of_nat (length y_true)))%Q.

(** ** Vocabulary of the statements on the encoded table *)

(** The order of the categories of a column: texts in increasing order, the
    missing value last. *)
Definition category_lt (x y : option string) : Prop :=
  match x, y with
  | Some a, Some b => String.ltb a b = true
  | Some _, None => True
  | None, _ => False
  end.

(** [cs] are the categories of column [c] of the fit-time table: the values
    met in that column, each once, in increasing order. *)
Definition fit_categories (D' : DataFrame) (c : label) (cs : list (option string)) : Prop :=
  ∃ fit_col, assoc_lookup D' c = Some fit_col
    ∧ increasing category_lt cs
    ∧ ∀ v, v ∈ cs ↔ v ∈ str_values fit_col.

(** [cols] are the feature columns of one kind of the fit-time table, in
    the order of the table: its numeric columns ([numeric = true]) or its
    other columns, the label column apart. *)
Definition feature_columns (target : string) (D' : DataFrame) (numeric : bool)
    (cols : list label) : Prop :=
  sublist cols (columns D')
  ∧ ∀ c, c ∈ cols ↔ c ≠ LStr target ∧ ∃ s, (c, s) ∈ D' ∧ is_number s = numeric.

(** [cols] are the columns of the table that the fitted pipeline [ct], with
    the categories [cats] of its categorical columns, makes of the table
    [A']: first, for each numeric column of the pipeline, in order, the
    values of that column of [A'] less the mean, divided by the scale, that
    the pipeline stores for it; then, for each categorical column of the
    pipeline, in order, one column per category, in order, that holds 1 in
    the rows where the column of [A'] has this category and 0 in the other
    rows. *)
Definition encodes (ct : ColumnTransformer.t) (cats : list (list (option string)))
    (A' : DataFrame) (cols : list Series) : Prop :=
  let num := ColumnTransformer.num_cols ct in
  let cat := ColumnTransformer.cat_cols ct in
  length cols = length num + length (concat cats)
  ∧ (∀ j c, num !! j = Some c →
       ∃ sc enc m sd col xs,
         ColumnTransformer.fitted_ ct = Some (Some sc, enc)
         ∧ StandardScaler.mean_ sc !! j = Some m
         ∧ StandardScaler.scale_ sc !! j = Some sd
         ∧ assoc_lookup A' c = Some col
         ∧ to_floats col = Some xs
         ∧ cols !! j = Some (SFloat (map (λ x, fdiv (fsub x m) sd) xs)))
  ∧ (∀ j c cs k v, cat !! j = Some c → cats !! j = Some cs → cs !! k = Some v →
       ∃ col,
         assoc_lookup A' c = Some col
         ∧ is_number col = false
         ∧ cols !! (length num + length (concat (take j cats)) + k)
           = Some (SFloat (map (λ x, if decide (x = v) then Fin 1 else Fin 0)
                             (str_values col)))).




(** ** inference_pipeline.py *)

(** A fitted model as [joblib.load] returns it, seen through its [predict]:
    the labels it gives the rows of a table, or what it raises.  The
    boosted-tree libraries behind are not modelled. *)
Definition Model : Type := DataFrame → result (list Z).

(** What [joblib.load] can return here: [None], a model, or a
    ColumnTransformer. *)
Inductive pyobject :=
| ObjNone
| ObjModel (m : Model)
| ObjColumnTransformer (ct : ColumnTransformer.t).

(** The model files on disk, by path.  They are kept apart from the files
    of the world, which hold the pipelines that the preprocessors save; a
    path is expected in one of the two stores at most.  The code embedded
    here reads model files and never writes one. *)
Abbreviation ModelFiles := (gmap string Model).

(** [joblib.load(path)], whatever the file holds. *)
Definition joblib_load_object {S} (models : ModelFiles) (path : string) : Method S pyobject :=
  λ s w,
    match models !! path with
    | Some m => (s, w, inr (ObjModel m))
    | None =>
        match files w !! path with
        | Some (Some ct) => (s, w, inr (ObjColumnTransformer ct))
        | Some None => (s, w, inr ObjNone)
        | None => (s, w, inl (FileNotFoundError path))
        end
    end.

Module InferencePipeline.

Record t := mk {
  model_path : string;
  preprocessor_path : string;
  model : pyobject;
  preprocessor : option InferencePreprocessor.t }.

Definition __init__ (model_path preprocessor_path : string) : t :=
  mk model_path preprocessor_path ObjNone None.

Definition set_model (m : pyobject) : Method t unit :=
  set_self (λ self, mk (model_path self) (preprocessor_path self) m (preprocessor self)).

Definition set_preprocessor (p : option InferencePreprocessor.t) : Method t unit :=
  set_self (λ self, mk (model_path self) (preprocessor_path self) (model self) p).

(** A call [self.preprocessor.<method>(...)]. *)
Definition on_preprocessor {A} (method : string) (m : Method InferencePreprocessor.t A)
    : Method t A :=
  λ self w,
    match preprocessor self with
    | None =>
        (self, w,
         inl (AttributeError ("'NoneType' object has no attribute '" +:+ method +:+ "'")))
    | Some p =>
        match m p w with
        | (p', w', r) =>
            (mk (model_path self) (preprocessor_path self) (model self) (Some p'), w', r)
        end
    end.

Definition load (models : ModelFiles) : Method t unit :=
  logger "INFO" "[InferencePipeline] Loading model and preprocessor..." [] ;;
  self <- get_self ;;
  m <- joblib_load_object models (model_path self) ;;
  set_model m ;;
  self <- get_self ;;
  set_preprocessor (Some (InferencePreprocessor.__init__ (preprocessor_path self))) ;;
  on_preprocessor "load" (InferencePreprocessor.load None) ;;
  logger "SUCCESS" "[InferencePipeline] Model and preprocessor loaded successfully." [].

Definition is_None (o : pyobject) : bool :=
  match o with ObjNone => true | _ => false end.

(** [self.model.predict(transformed)] *)
Definition model_predict (transformed : loc) : Method t (list Z) :=
  self <- get_self ;;
  match model self with
  | ObjNone => raise (AttributeError "'NoneType' object has no attribute 'predict'")
  | ObjColumnTransformer _ =>
      raise (AttributeError "'ColumnTransformer' object has no attribute 'predict'")
  | ObjModel m => df <- deref transformed ;; lift (m df)
  end.

(** The array of predictions is logged as one row. *)
Definition predict (models : ModelFiles) (input_data : loc) : Method t (dict (list Z)) :=
  self <- get_self ;;
  (if is_None (model self) || match preprocessor self with None => true | Some _ => false end
   then load models
   else ret tt) ;;
  transformed <- on_preprocessor "transform" (InferencePreprocessor.transform input_data) ;;
  preds <- model_predict transformed ;;
  logger "INFO" "[InferencePipeline] Predictions generated: {}" [PMatrix [preds]] ;;
  ret [("predictions", preds)].

End InferencePipeline.

(** A model that gives every row the label 1. *)
Definition constant_model : Model := λ X, inr (repeat 1%Z (n_rows X)).

(** ** JSON values

    The body of a request and the dictionary form of a drift report. *)

Inductive json :=
| JNull
| JBool (b : bool)
| JInt (z : Z)
| JFloat (f : float)
| JStr (s : string)
| JList (l : list json)
| JDict (d : list (string * json)).

(** Python's comparisons of a float with a bound: false on NaN. *)
Definition float_ge (x : float) (q : Q) : bool :=
  match x with
  | Fin v => Qle_bool q v
  | Inf neg => negb neg
  | NaN => false
  end.

Definition float_le (x : float) (q : Q) : bool :=
  match x with
  | Fin v => Qle_bool v q
  | Inf neg => neg
  | NaN => false
  end.

Definition float_gt (x : float) (q : Q) : bool :=
  match x with
  | Fin v => Qltb q v
  | Inf neg => negb neg
  | NaN => false
  end.

(** ** schema_validator.py *)

(** [pydantic.ValidationError] *)
Definition ValidationError (msg : string) : exn := Exn "ValidationError" msg.

Module ObesityInputSchema.

(** A validated record: the sixteen fields with their types. *)
Record t := mk {
  Gender : string;
  Age : float;
  Height : float;
  Weight : float;
  family_history_with_overweight : string;
  FAVC : string;
  FCVC : float;
  NCP : float;
  CAEC : string;
  SMOKE : string;
  CH2O : float;
  SCC : string;
  FAF : float;
  TUE : float;
  CALC : string;
  MTRANS : string }.

Section validation.

(** pydantic's conversion of a value to the type of a field.  What it
    accepts besides a string for [str] and a number for [float] depends on
    its version, so the two conversions are parameters. *)
Context (to_str : json → option string) (to_float : json → option float).

(** A field declared with [...] is required. *)
Definition field (record : dict json) (name : string) : result json :=
  match assoc_lookup record name with
  | Some v => inr v
  | None => inl (ValidationError (name +:+ ": field required"))
  end.

Definition str_field (record : dict json) (name : string) : result string :=
  rbind (field record name) (λ v,
  match to_str v with
  | Some s => inr s
  | None => inl (ValidationError (name +:+ ": str type expected"))
  end).

(** A [float] field with its [ge], [gt] and [le] bounds. *)
Definition float_field (record : dict json) (name : string) (bounds : float → bool)
    : result float :=
  rbind (field record name) (λ v,
  match to_float v with
  | Some x =>
      if bounds x then inr x
      else inl (ValidationError (name +:+ ": ensure this value is within its bounds"))
  | None => inl (ValidationError (name +:+ ": value is not a valid float"))
  end).

(** The validator of [Gender]; the [ValueError] it raises reaches the
    caller as a [ValidationError]. *)
Definition gender_must_be_valid (v : string) : result string :=
  if decide (v ∈ ["Male"; "Female"]) then inr v
  else inl (ValidationError "Gender: Gender must be 'Male' or 'Female'").

(** The validator of the other [str] fields: it runs on the converted
    value, which is a [str], so that its [isinstance] test holds. *)
Definition validate_categorical_fields (v : string) : result string := inr v.

(** The construction of an [ObesityInputSchema] from the items of a record,
    passed as keyword arguments.  Keys of the record that are no field
    are ignored.  pydantic reports all the failing fields in one
    [ValidationError]; here the first failing field stands for them. *)
Definition validate (record : dict json) : result t :=
  rbind (rbind (str_field record "Gender") gender_must_be_valid) (λ gender,
  rbind (float_field record "Age" (λ x, float_ge x 0 && float_le x 120)) (λ age,
  rbind (float_field record "Height" (λ x, float_gt x 0)) (λ height,
  rbind (float_field record "Weight" (λ x, float_gt x 0)) (λ weight,
  rbind (rbind (str_field record "family_history_with_overweight")
           validate_categorical_fields) (λ family_history,
  rbind (rbind (str_field record "FAVC") validate_categorical_fields) (λ favc,
  rbind (float_field record "FCVC" (λ x, float_ge x 0 && float_le x 3)) (λ fcvc,
  rbind (float_field record "NCP" (λ x, float_ge x 0 && float_le x 5)) (λ ncp,
  rbind (rbind (str_field record "CAEC") validate_categorical_fields) (λ caec,
  rbind (rbind (str_field record "SMOKE") validate_categorical_fields) (λ smoke,
  rbind (float_field record "CH2O" (λ x, float_ge x 0 && float_le x 5)) (λ ch2o,
  rbind (rbind (str_field record "SCC") validate_categorical_fields) (λ scc,
  rbind (float_field record "FAF" (λ x, float_ge x 0 && float_le x 5)) (λ faf,
  rbind (float_field record "TUE" (λ x, float_ge x 0 && float_le x 3)) (λ tue,
  rbind (rbind (str_field record "CALC") validate_categorical_fields) (λ calc,
  rbind (rbind (str_field record "MTRANS") validate_categorical_fields) (λ mtrans,
  inr (mk gender age height weight family_history favc fcvc ncp caec smoke ch2o scc
         faf tue calc mtrans))))))))))))))))).

End validation.

End ObesityInputSchema.

Section validate_input_records.

Context (to_str : json → option string) (to_float : json → option float).

(** The loop of [validate_input_records], with the list built so far:
    a [ValidationError] is turned into a [ValueError]. *)
Fixpoint validate_loop (records : list (dict json)) (validated : list ObesityInputSchema.t)
    : result (list ObesityInputSchema.t) :=
  match records with
  | [] => inr validated
  | record :: rest =>
      match ObesityInputSchema.validate to_str to_float record with
      | inr v => validate_loop rest (validated ++ [v])
      | inl e =>
          if decide (exn_class e = "ValidationError")
          then inl (ValueError ("Invalid record format: " +:+ exn_arg e))
          else inl e
      end
  end.

Definition validate_input_records (records : list (dict json))
    : result (list ObesityInputSchema.t) :=
  validate_loop records [].

End validate_input_records.

(** [pd.DataFrame([v.dict() for v in validated])]: one column per field, in
    the order of the fields, [float64] for a [float] field and [object] for
    a [str] field; no column at all when the list is empty. *)
Definition records_frame (validated : list ObesityInputSchema.t) : DataFrame :=
  match validated with
  | [] => []
  | _ =>
      let str_column (f : ObesityInputSchema.t → string) := SObj (map (λ v, Some (f v)) validated) in
      let float_column (f : ObesityInputSchema.t → float) := SFloat (map f validated) in
      [ (LStr "Gender", str_column ObesityInputSchema.Gender);
        (LStr "Age", float_column ObesityInputSchema.Age);
        (LStr "Height", float_column ObesityInputSchema.Height);
        (LStr "Weight", float_column ObesityInputSchema.Weight);
        (LStr "family_history_with_overweight",
         str_column ObesityInputSchema.family_history_with_overweight);
        (LStr "FAVC", str_column ObesityInputSchema.FAVC);
        (LStr "FCVC", float_column ObesityInputSchema.FCVC);
        (LStr "NCP", float_column ObesityInputSchema.NCP);
        (LStr "CAEC", str_column ObesityInputSchema.CAEC);
        (LStr "SMOKE", str_column ObesityInputSchema.SMOKE);
        (LStr "CH2O", float_column ObesityInputSchema.CH2O);
        (LStr "SCC", str_column ObesityInputSchema.SCC);
        (LStr "FAF", float_column ObesityInputSchema.FAF);
        (LStr "TUE", float_column ObesityInputSchema.TUE);
        (LStr "CALC", str_column ObesityInputSchema.CALC);
        (LStr "MTRANS", str_column ObesityInputSchema.MTRANS) ]
  end.

(** ** settings.py, as a whole *)

Module config.

(** The dataclass [Settings]: nine fields, each with the value of an
    environment variable or its default. *)
Record Settings := {
  mlflow_tracking_uri : string;
  experiment_name : string;
  model_name : string;
  artifact_dir : string;
  target_column : string;
  test_size : float;
  random_state : Z;
  log_dir : string;
  log_level : string }.

(** The values when the environment sets none of the variables. *)
Definition default : Settings := {|
  mlflow_tracking_uri := "http://127.0.0.1:5000";
  experiment_name := "ObesityPredictor";
  model_name := "ObesityPredictor-Best";
  artifact_dir := "data/models";
  target_column := "NObeyesdad";
  test_size := Fin 0.2;
  random_state := 42;
  log_dir := "logs";
  log_level := "INFO" |}.

(** [settings.<name>] for a name that is none of the nine fields: the class
    defines no other attribute. *)
Definition no_attribute {A} (name : string) : result A :=
  inl (AttributeError ("'Settings' object has no attribute '" +:+ name +:+ "'")).

End config.

(** ** prediction_router.py *)

Module prediction_router.

(** What the endpoint function does: it returns a value, or raises
    [HTTPException(status_code, detail)]. *)
Inductive outcome (A : Type) :=
| Returned (a : A)
| HTTPException (status_code : Z) (detail : string).

Arguments Returned {A} a.
Arguments HTTPException {A} status_code detail.

(** [str(e)]: the argument of the exception, between quotes for a
    [KeyError]. *)
Definition exn_str (e : exn) : string :=
  if decide (exn_class e = "KeyError") then "'" +:+ exn_arg e +:+ "'" else exn_arg e.

Section predict.

Context (to_str : json → option string) (to_float : json → option float).

(** The body of the [try]. *)
Definition predict_try (cfg : config.Settings) (models : ModelFiles)
    (records : list (dict json)) : Method unit (dict (list Z)) :=
  validated <- lift (validate_input_records to_str to_float records) ;;
  df <- alloc (records_frame validated) ;;
  best_model_name <- lift (config.no_attribute "best_model_name") ;;
  let model_path := config.artifact_dir cfg +:+ "/" +:+ best_model_name +:+ "_model.joblib" in
  best_model_name <- lift (config.no_attribute "best_model_name") ;;
  let preproc_path :=
    config.artifact_dir cfg +:+ "/" +:+ best_model_name +:+ "_preprocessor.joblib" in
  λ s w,
    match InferencePipeline.predict models df
            (InferencePipeline.__init__ model_path preproc_path) w with
    | (_, w', r) => (s, w', r)
    end.

Definition predict (cfg : config.Settings) (models : ModelFiles)
    (records : list (dict json)) (w : World) : World * outcome (dict (list Z)) :=
  match predict_try cfg models records tt w with
  | (_, w', inr result) => (w', Returned result)
  | (_, w', inl e) => (w', HTTPException 400 (exn_str e))
  end.

End predict.

End prediction_router.

(** What the bounds of the schema say of a float: a number within
    [lo .. hi]; a number above 0, or the infinity (that [gt=0] lets in). *)
Definition between (x : float) (lo hi : Q) : Prop :=
  ∃ q, x = Fin q ∧ (lo <= q <= hi)%Q.

Definition positive (x : float) : Prop :=
  (∃ q, x = Fin q ∧ (0 < q)%Q) ∨ x = Inf false.

Definition valid_input (v : ObesityInputSchema.t) : Prop :=
  (ObesityInputSchema.Gender v = "Male" ∨ ObesityInputSchema.Gender v = "Female")
  ∧ between (ObesityInputSchema.Age v) 0 120
  ∧ positive (ObesityInputSchema.Height v)
  ∧ positive (ObesityInputSchema.Weight v)
  ∧ between (ObesityInputSchema.FCVC v) 0 3
  ∧ between (ObesityInputSchema.NCP v) 0 5
  ∧ between (ObesityInputSchema.CH2O v) 0 5
  ∧ between (ObesityInputSchema.FAF v) 0 5
  ∧ between (ObesityInputSchema.TUE v) 0 3.

(** Conversions that take a JSON string for a [str] and a JSON number for
    a [float], and nothing else. *)
Definition json_str (v : json) : option string :=
  match v with JStr s => Some s | _ => None end.

Definition json_number (v : json) : option float :=
  match v with
  | JInt z => Some (of_int z)
  | JFloat f => Some f
  | _ => None
  end.

(** The record of the example request in the documentation of the
    endpoint, and one with an age outside the schema. *)
Definition example_record : dict json :=
  [ ("Gender", JStr "Male"); ("Age", JInt 25); ("Height", JInt 175); ("Weight", JInt 70);
    ("family_history_with_overweight", JStr "Yes"); ("FAVC", JStr "Yes");
    ("FCVC", JFloat (Fin 2)); ("NCP", JFloat (Fin 3)); ("CAEC", JStr "Sometimes");
    ("SMOKE", JStr "No"); ("CH2O", JFloat (Fin 2)); ("SCC", JStr "No");
    ("FAF", JFloat (Fin 2)); ("TUE", JFloat (Fin 1)); ("CALC", JStr "Sometimes");
    ("MTRANS", JStr "Public_Transport") ].

Definition example_input : ObesityInputSchema.t :=
  ObesityInputSchema.mk "Male" (of_int 25) (of_int 175) (of_int 70) "Yes" "Yes"
    (Fin 2) (Fin 3) "Sometimes" "No" (Fin 2) "No" (Fin 2) (Fin 1) "Sometimes"
    "Public_Transport".

Definition old_age_record : dict json := dict_setitem example_record "Age" (JInt 130).

(** ** drift_detector.py *)

Definition IndexError (msg : string) : exn := Exn "IndexError" msg.
Definition ZeroDivisionError (msg : string) : exn := Exn "ZeroDivisionError" msg.

(** [v[key]] for a [str] key and [v[0]], on the values a report is made
    of. *)
Definition json_getitem (v : json) (key : string) : result json :=
  match v with
  | JDict d =>
      match assoc_lookup d key with
      | Some x => inr x
      | None => inl (KeyError key)
      end
  | JList _ => inl (TypeError "list indices must be integers or slices, not str")
  | JStr _ => inl (TypeError "string indices must be integers, not 'str'")
  | JNull | JBool _ | JInt _ | JFloat _ => inl (TypeError "object is not subscriptable")
  end.

Definition json_getitem_0 (v : json) : result json :=
  match v with
  | JList (x :: _) => inr x
  | JList [] => inl (IndexError "list index out of range")
  | JStr (String c _) => inr (JStr (String c EmptyString))
  | JStr EmptyString => inl (IndexError "string index out of range")
  | JDict _ => inl (KeyError "0")
  | JNull | JBool _ | JInt _ | JFloat _ => inl (TypeError "object is not subscriptable")
  end.

(** The truth value of an object. *)
Definition json_truthy (v : json) : bool :=
  match v with
  | JNull => false
  | JBool b => b
  | JInt z => negb (z =? 0)%Z
  | JFloat (Fin q) => negb (Qeq_bool q 0)
  | JFloat _ => true
  | JStr s => negb (String.eqb s "")
  | JList l => match l with [] => false | _ => true end
  | JDict d => match d with [] => false | _ => true end
  end.

(** A number as a float, a [bool] counting as 0 or 1. *)
Definition json_float (v : json) : option float :=
  match v with
  | JBool b => Some (of_int (if b then 1 else 0))
  | JInt z => Some (of_int z)
  | JFloat f => Some f
  | _ => None
  end.

Definition float_is_zero (x : float) : bool :=
  match x with Fin q => Qeq_bool q 0 | _ => false end.

(** [a / b], Python's true division: a float, [ZeroDivisionError] for a
    zero divisor. *)
Definition json_truediv (a b : json) : result json :=
  match json_float a, json_float b with
  | Some x, Some y =>
      if float_is_zero y then inl (ZeroDivisionError "division by zero")
      else inr (JFloat (fdiv x y))
  | _, _ => inl (TypeError "unsupported operand type(s) for /")
  end.

(** A value as it is interpolated in a log message. *)
Fixpoint json_pyval (v : json) : pyval :=
  match v with
  | JNull => PStr "None"
  | JBool b => PStr (if b then "True" else "False")
  | JInt z => PInt z
  | JFloat f => PFloat f
  | JStr s => PStr s
  | JList l => PDict (map (λ x, ("", json_pyval x)) l)
  | JDict d => PDict (map (λ kv, (kv.1, json_pyval kv.2)) d)
  end.

Module DriftDetector.

(** The Evidently report is not modelled: [__init__] keeps the name of the
    target column, and [summarize] is given what [self.report.as_dict()]
    returns or raises. *)
Record t := mk { target_column : string }.

Definition __init__ (target_column : string) : t := mk target_column.

(** [result["metrics"][0]["result"][key]], [result] being the report. *)
Definition first_result (report : json) (key : string) : result json :=
  rbind (json_getitem report "metrics") (λ metrics,
  rbind (json_getitem_0 metrics) (λ metric,
  rbind (json_getitem metric "result") (λ r,
  json_getitem r key))).

Definition summarize (as_dict : result json) : Method t (dict json) :=
  report <- lift as_dict ;;
  drift_detected <- lift (first_result report "dataset_drift") ;;
  num_drifted <- lift (first_result report "n_drifted_columns") ;;
  total_columns <- lift (first_result report "n_features") ;;
  drift_ratio <- lift (if json_truthy total_columns
                       then json_truediv num_drifted total_columns
                       else inr (JInt 0)) ;;
  let summary :=
    [ ("dataset_drift", drift_detected);
      ("n_drifted_columns", num_drifted);
      ("n_total_columns", total_columns);
      ("drift_ratio", drift_ratio) ] in
  logger "INFO" "[DriftDetector] Summary: {}" [json_pyval (JDict summary)] ;;
  ret summary.

End DriftDetector.

(** A report in dictionary form whose first metric says that [drifted] of
    [features] columns drifted. *)
Definition drift_report (drift : bool) (drifted features : Z) : json :=
  JDict [ ("metrics",
           JList [ JDict [ ("metric", JStr "DataDriftTable");
                           ("result",
                            JDict [ ("dataset_drift", JBool drift);
                                    ("n_drifted_columns", JInt drifted);
                                    ("n_features", JInt features) ]) ] ]) ].

(** ** Python builtins: [int] of a [str], [max] over any items *)

(** [repr] of a [str], on ASCII text: single quotes unless the text has a
    single quote and no double quote; backslash, the quote and control
    characters escaped. *)
Definition hex_digit (n : nat) : ascii :=
  nth n (list_ascii_of_string "0123456789abcdef") "0"%char.

Definition repr_char (quote c : ascii) : list ascii :=
  let n := nat_of_ascii c in
  if Ascii.eqb c "\" || Ascii.eqb c quote then ["\"; c]%char
  else if n =? 9 then ["\"; "t"]%char
  else if n =? 10 then ["\"; "n"]%char
  else if n =? 13 then ["\"; "r"]%char
  else if (n <? 32) || (n =? 127)
  then ["\"; "x"; hex_digit (n / 16); hex_digit (n mod 16)]%char
  else [c].

Definition py_repr (s : string) : string :=
  let cs := list_ascii_of_string s in
  let single := "'"%char in
  let double := ascii_of_nat 34 in
  let quote :=
    if existsb (Ascii.eqb single) cs && negb (existsb (Ascii.eqb double) cs)
    then double else single in
  string_of_list_ascii (quote :: concat (map (repr_char quote) cs) ++ [quote]).

(** The white space that [int] strips (ASCII). *)
Definition is_space (c : ascii) : bool :=
  let n := nat_of_ascii c in
  ((9 <=? n) && (n <=? 13)) || ((28 <=? n) && (n <=? 32)).

Definition digit_value (c : ascii) : option Z :=
  let n := nat_of_ascii c in
  if (48 <=? n) && (n <=? 57) then Some (Z.of_nat (n - 48)) else None.

Fixpoint lstrip (s : list ascii) : list ascii :=
  match s with
  | c :: r => if is_space c then lstrip r else s
  | [] => []
  end.

Definition strip (s : list ascii) : list ascii := rev (lstrip (rev (lstrip s))).

(** Decimal digits, one underscore allowed between two digits. *)
Fixpoint digits (s : list ascii) (acc : Z) (after_digit : bool) : option Z :=
  match s with
  | [] => if after_digit then Some acc else None
  | c :: r =>
      match digit_value c with
      | Some d => digits r (10 * acc + d) true
      | None =>
          if Ascii.eqb c "_" && after_digit then digits r acc false else None
      end
  end.

(** [sys.get_int_max_str_digits()], not changed by the program. *)
Definition int_max_str_digits : nat := 4300.

Definition int_of_digits (s : string) (ds : list ascii) : result Z :=
  match digits ds 0 false with
  | Some z =>
      let n := length (filter (λ c, is_Some (digit_value c)) ds) in
      if int_max_str_digits <? n
      then inl (ValueError ("Exceeds the limit (4300 digits) for integer string conversion: value has "
                            +:+ pretty n
                            +:+ " digits; use sys.set_int_max_str_digits() to increase the limit"))
      else inr z
  | None => inl (ValueError ("invalid literal for int() with base 10: " +:+ py_repr s))
  end.

(** [int(s)] in base 10, on ASCII text: white space around, a sign, digits. *)
Definition py_int (s : string) : result Z :=
  match strip (list_ascii_of_string s) with
  | c :: r =>
      if Ascii.eqb c "-" then rbind (int_of_digits s r) (λ z, inr (- z)%Z)
      else if Ascii.eqb c "+" then int_of_digits s r
      else int_of_digits s (c :: r)
  | [] => int_of_digits s []
  end.

(** [max(items, key=key)] for integer keys, over items of any type: the
    running maximum is replaced only by an item whose key is greater. *)
Fixpoint max_loop_by {A} (key : A → result Z) (items : list A) (maxitem : A) (maxval : Z)
    : result A :=
  match items with
  | [] => inr maxitem
  | item :: rest =>
      rbind (key item) (λ val,
      if (maxval <? val)%Z then max_loop_by key rest item val
      else max_loop_by key rest maxitem maxval)
  end.

Definition py_max_by {A} (items : list A) (key : A → result Z) : result A :=
  match items with
  | [] => inl (ValueError "max() arg is an empty sequence")
  | item :: rest => rbind (key item) (λ val, max_loop_by key rest item val)
  end.

(** ** registry.py *)

Module ModelRegistry.

(** A version of a registered model, as MLflow gives it: the fields the
    code reads. *)
Record ModelVersion := { version : string; current_stage : string }.

(** MLflow is not modelled: the registry is seen through what
    [self.client.get_latest_versions(name)] returns or raises for each
    registered name. *)
Record t := mk { client_latest_versions : string → result (list ModelVersion) }.

Definition get_latest_version (cfg : config.Settings) : Method t ModelVersion :=
  self <- get_self ;;
  versions <- lift (client_latest_versions self (config.model_name cfg)) ;;
  latest <- lift (py_max_by versions (λ v, py_int (version v))) ;;
  logger "INFO" "[Registry] Latest version: {}, stage={}"
    [PStr (version latest); PStr (current_stage latest)] ;;
  ret latest.

End ModelRegistry.

(** ** loader.py *)

Module ObesityDataLoader.

Record t := mk { file_path : string; data : option loc }.

Definition __init__ (file_path : string) : t := mk file_path None.

Section load_data.

(** [pd.read_csv(path)]: the table a file parses to, or what reading it
    raises.  Reading and parsing are not modelled. *)
Context (read_csv : string → result DataFrame).

(** The [except] clauses differ in the message they log; each re-raises. *)
Definition load_data : Method t loc :=
  self <- get_self ;;
  match read_csv (file_path self) with
  | inr df =>
      l <- alloc df ;;
      set_self (λ self, mk (file_path self) (Some l)) ;;
      logger "SUCCESS" "[DataLoader] Data loaded successfully from: {}"
        [PStr (file_path self)] ;;
      logger "INFO" "[DataLoader] Shape: {} rows × {} columns"
        [PInt (Z.of_nat (n_rows df)); PInt (Z.of_nat (length df))] ;;
      ret l
  | inl e =>
      (if decide (exn_class e = "FileNotFoundError")
       then logger "ERROR" "[DataLoader] File not found: {}" [PStr (file_path self)]
       else if decide (exn_class e = "EmptyDataError")
       then logger "ERROR" "[DataLoader] The file is empty." []
       else logger "ERROR" "[DataLoader] Unexpected error: {}" [PStr (prediction_router.exn_str e)]) ;;
      raise e
  end.

End load_data.

Definition get_data : Method t (option loc) :=
  self <- get_self ;;
  (match data self with
   | None => logger "WARNING" "[DataLoader] No data loaded yet. Call `load_data()` first." []
   | Some _ => ret tt
   end) ;;
  ret (data self).

End ObesityDataLoader.

(** A registry interface that knows one model name, with the versions
    9 (in production) and 10 (in staging). *)
Definition registry_9_10 : ModelRegistry.t :=
  ModelRegistry.mk (λ name,
    if decide (name = "ObesityPredictor-Best")
    then inr [ {| ModelRegistry.version := "9"; ModelRegistry.current_stage := "Production" |};
               {| ModelRegistry.version := "10"; ModelRegistry.current_stage := "Staging" |} ]
    else inr []).

(** Text that the model of [int] and [repr] covers. *)
Definition is_ascii_text (s : string) : bool :=
  forallb (λ c, nat_of_ascii c <? 128) (list_ascii_of_string s).

(** A loader of [path] and two states of the file behind it. *)
Definition csv_present (df : DataFrame) : string → result DataFrame := λ _, inr df.

Definition csv_missing : string → result DataFrame := λ path, inl (FileNotFoundError path).

(** The number of a version whose text reads as an integer. *)
Definition version_number (v : ModelRegistry.ModelVersion) : Z :=
  match py_int (ModelRegistry.version v) with inr z => z | inl _ => 0%Z end.

(** * Properties

    Lemmas on association lists and on running the primitives come first,
    then the behaviour of each class. *)

(** ** Association lists *)
Section assoc.
Context {K V : Type} `{EqDecision K}.
Implicit Types (l : list (K * V)) (k : K) (v : V).

Lemma assoc_lookup_set_eq l k v : assoc_lookup (assoc_set l k v) k = Some v.
Proof.
  induction l as [|[k' v'] l IH]; simpl.
  - by rewrite decide_True.
  - destruct (decide (k' = k)) as [->|Hne]; simpl.
    + by rewrite decide_True.
    + by rewrite decide_False.
Qed.

Lemma assoc_lookup_set_ne l k k' v :
  k ≠ k' → assoc_lookup (assoc_set l k v) k' = assoc_lookup l k'.
Proof.
  intros Hne. induction l as [|[k0 v0] l IH]; simpl.
  - by rewrite decide_False.
  - destruct (decide (k0 = k)) as [->|Hne0]; simpl.
    + by rewrite !decide_False.
    + by rewrite IH.
Qed.

Lemma assoc_set_id l k v : assoc_lookup l k = Some v → assoc_set l k v = l.
Proof.
  induction l as [|[k0 v0] l IH]; simpl; [done|].
  destruct (decide (k0 = k)) as [->|Hne]; [by intros [= ->]|].
  intros Hl. by rewrite IH.
Qed.


Lemma assoc_lookup_Some_elem l k v : assoc_lookup l k = Some v → (k, v) ∈ l.
Proof.
  induction l as [|[k0 v0] l IH]; simpl; [done|].
  destruct (decide (k0 = k)) as [->|Hne].
  - intros [= ->]. by left.
  - intros Hl. right. by apply IH.
Qed.

Lemma assoc_set_elem l k v c : c ∈ assoc_set l k v → c ∈ l ∨ c = (k, v).
Proof.
  induction l as [|[k0 v0] l IH]; simpl.
  - intros ->%list_elem_of_singleton. by right.
  - destruct (decide (k0 = k)) as [->|Hne].
    + intros [->|Hin]%elem_of_cons; [by right|]. left. by right.
    + intros [->|Hin]%elem_of_cons; [left; by left|].
      destruct (IH Hin) as [?|?]; [left; by right|by right].
Qed.
End assoc.

Local Arguments df_getitem : simpl never.
Local Arguments series_pow2 : simpl never.
Local Arguments series_truediv : simpl never.
Local Arguments pd_cut : simpl never.
Local Arguments set_BMI : simpl never.
Local Arguments set_Age_Group : simpl never.
Local Arguments getitem : simpl never.
Local Arguments setitem : simpl never.
Local Arguments deref : simpl never.
Local Arguments assign_BMI : simpl never.
Local Arguments assign_Age_Group : simpl never.
Local Arguments ColumnTransformer.fit : simpl never.
Local Arguments ColumnTransformer.transform : simpl never.
Local Arguments ColumnTransformer.cat_feature_names_out : simpl never.
Local Arguments pd_DataFrame : simpl never.
Local Arguments select_number : simpl never.
Local Arguments select_not_number : simpl never.
Local Arguments list_remove : simpl never.

Local Arguments bind {_ _ _} _ _ _ _ /.
Local Arguments ret {_ _} _ _ _ /.
Local Arguments rbind {_ _} _ _ /.
Local Arguments raise {_ _} _ _ _ /.
Local Arguments lift {_ _} _ _ _ /.
Local Arguments get_self {_} _ _ /.
Local Arguments set_self {_} _ _ _ /.
Local Arguments get_settings {_} _ _ /.
Local Arguments logger {_} _ _ _ _ _ /.
Local Arguments store {_} _ _ _ _ /.
Local Arguments alloc {_} _ _ _ /.

(** ** Running the primitives *)
Section run.
Context {S : Type}.
Implicit Types (s : S) (w : World).

Lemma deref_run (l : loc) s w df :
  frames w !! l = Some df → deref l s w = (s, w, inr df).
Proof. intros Hdf. unfold deref. by rewrite Hdf. Qed.

Lemma getitem_run (data : loc) key s w df :
  frames w !! data = Some df → getitem data key s w = (s, w, df_getitem df key).
Proof. intros Hdf. unfold getitem, bind. by rewrite (deref_run _ _ _ _ Hdf). Qed.

Lemma setitem_run (data : loc) key v s w df :
  frames w !! data = Some df →
  setitem data key v s w
  = (s, set_frames (λ fs, <[data := df_setitem df (LStr key) v]> fs) w, inr tt).
Proof. intros Hdf. unfold setitem, bind. by rewrite (deref_run _ _ _ _ Hdf). Qed.

Lemma assign_BMI_run (data : loc) s w df :
  frames w !! data = Some df →
  assign_BMI data s w =
    match set_BMI df with
    | inr df' => (s, set_frames (λ fs, <[data := df']> fs) w, inr tt)
    | inl e => (s, w, inl e)
    end.
Proof.
  intros Hdf. unfold assign_BMI, set_BMI. simpl.
  rewrite !(getitem_run _ _ _ _ _ Hdf).
  destruct (df_getitem df "Weight") as [e|weight]; simpl; [done|].
  rewrite ?(getitem_run _ _ _ _ _ Hdf).
  destruct (df_getitem df "Height") as [e|height]; simpl; [done|].
  destruct (series_pow2 height) as [e|height2]; simpl; [done|].
  destruct (series_truediv weight height2) as [e|bmi]; simpl; [done|].
  by rewrite (setitem_run _ _ _ _ _ _ Hdf).
Qed.

Lemma assign_Age_Group_run (data : loc) s w df :
  frames w !! data = Some df →
  assign_Age_Group data s w =
    match set_Age_Group df with
    | inr df' => (s, set_frames (λ fs, <[data := df']> fs) w, inr tt)
    | inl e => (s, w, inl e)
    end.
Proof.
  intros Hdf. unfold assign_Age_Group, set_Age_Group. simpl.
  rewrite !(getitem_run _ _ _ _ _ Hdf).
  destruct (df_getitem df "Age") as [e|age]; simpl; [done|].
  destruct (pd_cut age) as [e|group]; simpl; [done|].
  by rewrite (setitem_run _ _ _ _ _ _ Hdf).
Qed.

Lemma frames_insert_lookup (data : loc) w df df' :
  frames w !! data = Some df →
  frames (set_frames (λ fs, <[data := df']> fs) w) !! data = Some df'.
Proof.
  intros Hdf. simpl. apply list_lookup_insert_eq. by eapply lookup_lt_Some.
Qed.

Lemma set_frames_insert_insert (data : loc) w df1 df2 :
  set_frames (λ fs, <[data := df2]> fs) (set_frames (λ fs, <[data := df1]> fs) w)
  = set_frames (λ fs, <[data := df2]> fs) w.
Proof. unfold set_frames. simpl. by rewrite list_insert_insert_eq. Qed.


Lemma new_DataFrame_run (arr : ndarray) names s w :
  new_DataFrame arr names s w =
    match pd_DataFrame arr names with
    | inl e => (s, w, inl e)
    | inr df => (s, set_frames (λ fs, fs ++ [df]) w, inr (length (frames w)))
    end.
Proof. unfold new_DataFrame. simpl. by destruct (pd_DataFrame arr names). Qed.

Lemma pipeline_transform_run (pipeline : S → Pickle) (data : loc) s w ct df :
  pipeline s = Some ct →
  frames w !! data = Some df →
  pipeline_transform pipeline data s w = (s, w, ColumnTransformer.transform ct df).
Proof.
  intros Hp Hdf. unfold pipeline_transform. simpl. rewrite Hp. simpl.
  by rewrite (deref_run _ _ _ _ Hdf).
Qed.

Lemma pipeline_transform_None (pipeline : S → Pickle) (data : loc) s w :
  pipeline s = None →
  pipeline_transform pipeline data s w
  = (s, w, inl (AttributeError "'NoneType' object has no attribute 'transform'")).
Proof. intros Hp. unfold pipeline_transform. simpl. by rewrite Hp. Qed.
End run.

Local Arguments new_DataFrame : simpl never.
Local Arguments pipeline_transform : simpl never.
Local Arguments BasePreprocessor._check_fitted : simpl never.
Local Arguments TrainPreprocessor.pipeline_fit : simpl never.
Local Arguments TrainPreprocessor.pipeline_cat_feature_names : simpl never.


(** ** The fitted flag *)

Section check_fitted.
Context {S : Type} (fitted : S → bool).

Lemma check_fitted_false s w :
  fitted s = false →
  BasePreprocessor._check_fitted fitted s w
  = (s,
     add_log (Log "ERROR" "[BasePreprocessor] Attempted to transform before fitting." []) w,
     inl (RuntimeError "Preprocessor must be fitted before calling transform().")).
Proof. intros Hf. unfold BasePreprocessor._check_fitted. simpl. by rewrite Hf. Qed.

Lemma check_fitted_true s w :
  fitted s = true → BasePreprocessor._check_fitted fitted s w = (s, w, inr tt).
Proof. intros Hf. unfold BasePreprocessor._check_fitted. simpl. by rewrite Hf. Qed.
End check_fitted.

(** C3, as the specification words it, fails on the class of the exception:
    [transform] on a new TrainPreprocessor and the two-row table of the
    repository's test raises [RuntimeError], not [NotFittedError]. *)
Lemma transform_unfitted_class :
  (TrainPreprocessor.transform 0 TrainPreprocessor.__init__ (world_of [test_table])).2
  = inl (RuntimeError "Preprocessor must be fitted before calling transform().")
  ∧ ¬ raises (TrainPreprocessor.transform 0 TrainPreprocessor.__init__
                (world_of [test_table])).2 "NotFittedError".
Proof.
  split; [reflexivity|].
  intros (e & He & Hcls). vm_compute in He. injection He as <-. discriminate Hcls.
Qed.

(** ** Running [fit] and [transform] *)

Lemma pipeline_fit_run (data : loc) (self : TrainPreprocessor.t) w ct df :
  TrainPreprocessor.pipeline self = Some ct →
  frames w !! data = Some df →
  TrainPreprocessor.pipeline_fit data self w =
    match ColumnTransformer.fit ct df with
    | inl e => (self, w, inl e)
    | inr ct' =>
        (TrainPreprocessor.mk (TrainPreprocessor.fitted self) (Some ct')
           (TrainPreprocessor.feature_names self), w, inr tt)
    end.
Proof.
  intros Hp Hdf. unfold TrainPreprocessor.pipeline_fit. simpl. rewrite Hp. simpl.
  rewrite (deref_run _ _ _ _ Hdf). simpl.
  by destruct (ColumnTransformer.fit ct df).
Qed.


(** [fit] on a table whose features can be derived: what it leaves in
    [self] and in the world, and what it returns or raises. *)
Lemma fit_run (data : loc) (self : TrainPreprocessor.t) (w : World) df df' :
  frames w !! data = Some df →
  with_derived_features df = inr df' →
  let num := numeric_cols (settings w) df' in
  let cat := categorical_cols (settings w) df' in
  ∃ w', frames w' = <[data := df']> (frames w)
    ∧ files w' = files w ∧ settings w' = settings w
    ∧ match ColumnTransformer.fit (ColumnTransformer.new num cat) df' with
      | inl e =>
          TrainPreprocessor.fit data self w
          = (TrainPreprocessor.mk (TrainPreprocessor.fitted self)
               (Some (ColumnTransformer.new num cat))
               (TrainPreprocessor.feature_names self), w', inl e)
      | inr ct =>
          match ColumnTransformer.cat_feature_names_out ct cat with
          | inl e =>
              TrainPreprocessor.fit data self w
              = (TrainPreprocessor.mk (TrainPreprocessor.fitted self) (Some ct)
                   (TrainPreprocessor.feature_names self), w', inl e)
          | inr names =>
              TrainPreprocessor.fit data self w
              = (TrainPreprocessor.mk true (Some ct) (Some (num ++ names)), w', inr tt)
          end
      end.
Proof.
  intros Hdf Hd num cat. unfold with_derived_features in Hd.
  destruct (set_BMI df) as [e|df1] eqn:Hbmi; [done|]. simpl in Hd.
  unfold TrainPreprocessor.fit. simpl.
  rewrite (assign_BMI_run _ _ _ df) by done. rewrite Hbmi. simpl.
  rewrite (assign_Age_Group_run _ _ _ df1) by by eapply frames_insert_lookup.
  rewrite Hd. simpl. rewrite set_frames_insert_insert.
  rewrite (deref_run _ _ _ df') by by eapply frames_insert_lookup.
  simpl. subst num cat. unfold numeric_cols, categorical_cols.
  erewrite (pipeline_fit_run _ _ _ _ df');
    [|reflexivity|by apply list_lookup_insert_eq; eapply lookup_lt_Some].
  destruct (ColumnTransformer.fit _ df') as [e|ct]; simpl.
  { eexists. split_and!; [| | |reflexivity]; done. }
  destruct (ColumnTransformer.cat_feature_names_out ct _) as [e|names].
  { eexists. split_and!; [| | |reflexivity]; done. }
  eexists. split_and!; [| | |reflexivity]; done.
Qed.

(** [transform] of a fitted preprocessor on a table whose features can be
    derived: the table is updated in place, and the encoded table, when
    there is one, is a new object. *)
Lemma train_transform_run (data : loc) (self : TrainPreprocessor.t) (w : World) df df' ct :
  TrainPreprocessor.fitted self = true →
  TrainPreprocessor.pipeline self = Some ct →
  frames w !! data = Some df →
  with_derived_features df = inr df' →
  ∃ w', files w' = files w ∧ settings w' = settings w
    ∧ match rbind (ColumnTransformer.transform ct df')
              (λ arr, pd_DataFrame arr (TrainPreprocessor.feature_names self)) with
      | inl e =>
          TrainPreprocessor.transform data self w = (self, w', inl e)
          ∧ frames w' = <[data := df']> (frames w)
      | inr out =>
          TrainPreprocessor.transform data self w = (self, w', inr (length (frames w)))
          ∧ frames w' = <[data := df']> (frames w) ++ [out]
      end.
Proof.
  intros Hf Hp Hdf Hd. unfold TrainPreprocessor.transform.
  simpl; rewrite (check_fitted_true _ _ _ Hf); simpl.
  unfold with_derived_features in Hd.
  destruct (set_BMI df) as [e|df1] eqn:Hbmi; [done|]. simpl in Hd.
  rewrite (assign_BMI_run _ _ _ df) by done. rewrite Hbmi. simpl.
  rewrite (assign_Age_Group_run _ _ _ df1) by (by eapply frames_insert_lookup).
  rewrite Hd. simpl. rewrite set_frames_insert_insert.
  erewrite pipeline_transform_run; [|exact Hp|by eapply frames_insert_lookup].
  destruct (ColumnTransformer.transform ct df') as [e|arr]; simpl.
  { eexists; split_and!; [| |reflexivity|]; done. }
  rewrite new_DataFrame_run.
  destruct (pd_DataFrame arr _) as [e|out]; simpl.
  { eexists; split_and!; [| |reflexivity|]; done. }
  rewrite (deref_run _ _ _ out) by (simpl; apply list_lookup_middle; done).
  simpl. rewrite length_insert.
  eexists; split_and!; [| |reflexivity|]; done.
Qed.

Lemma inference_transform_run (data : loc) (self : InferencePreprocessor.t) (w : World) df df' ct :
  InferencePreprocessor.fitted self = true →
  InferencePreprocessor.pipeline self = Some ct →
  frames w !! data = Some df →
  with_derived_features df = inr df' →
  ∃ w', files w' = files w ∧ settings w' = settings w
    ∧ match rbind (ColumnTransformer.transform ct df')
              (λ arr, pd_DataFrame arr (None)) with
      | inl e =>
          InferencePreprocessor.transform data self w = (self, w', inl e)
          ∧ frames w' = <[data := df']> (frames w)
      | inr out =>
          InferencePreprocessor.transform data self w = (self, w', inr (length (frames w)))
          ∧ frames w' = <[data := df']> (frames w) ++ [out]
      end.
Proof.
  intros Hf Hp Hdf Hd. unfold InferencePreprocessor.transform.
  simpl; rewrite (check_fitted_true _ _ _ Hf); simpl.
  unfold with_derived_features in Hd.
  destruct (set_BMI df) as [e|df1] eqn:Hbmi; [done|]. simpl in Hd.
  rewrite (assign_BMI_run _ _ _ df) by done. rewrite Hbmi. simpl.
  rewrite (assign_Age_Group_run _ _ _ df1) by (by eapply frames_insert_lookup).
  rewrite Hd. simpl. rewrite set_frames_insert_insert.
  erewrite pipeline_transform_run; [|exact Hp|by eapply frames_insert_lookup].
  destruct (ColumnTransformer.transform ct df') as [e|arr]; simpl.
  { eexists; split_and!; [| |reflexivity|]; done. }
  erewrite deref_run by (simpl; apply list_lookup_middle; done).
  simpl. rewrite length_insert.
  eexists; split_and!; [| |reflexivity|]; done.
Qed.

(** ** Column schemas *)

Lemma same_schema_refl A : same_schema A A.
Proof. unfold same_schema. induction A; by constructor. Qed.

Lemma same_schema_sym A B : same_schema A B → same_schema B A.
Proof.
  unfold same_schema. induction 1 as [|a b A B [??] _ IH]; by constructor.
Qed.

Lemma same_schema_trans A B C : same_schema A B → same_schema B C → same_schema A C.
Proof.
  unfold same_schema. intros HAB. revert C.
  induction HAB as [|a b A B [??] _ IH]; intros C HBC; inversion HBC as [|?? ?? [??]]; subst;
    constructor; [split; congruence|by apply IH].
Qed.

Lemma same_schema_columns A B : same_schema A B → columns A = columns B.
Proof.
  unfold same_schema, columns. induction 1 as [|a b A B [??] _ IH]; simpl; congruence.
Qed.

Lemma same_schema_lookup A B k :
  same_schema A B →
  match assoc_lookup A k, assoc_lookup B k with
  | Some a, Some b => dtype_of a = dtype_of b
  | None, None => True
  | _, _ => False
  end.
Proof.
  unfold same_schema. induction 1 as [|[ka a] [kb b] A B [Hk Hd] _ IH]; simpl in *; [done|].
  subst kb. by destruct (decide (ka = k)).
Qed.

Lemma same_schema_set A B k a b :
  same_schema A B → dtype_of a = dtype_of b →
  same_schema (assoc_set A k a) (assoc_set B k b).
Proof.
  unfold same_schema. intros HAB Hab.
  induction HAB as [|[ka a0] [kb b0] A B [Hk Hd] HAB IH]; simpl in *.
  - by repeat constructor.
  - subst kb. destruct (decide (ka = k)); by constructor.
Qed.

Lemma is_number_dtype a b : dtype_of a = dtype_of b → is_number a = is_number b.
Proof. by destruct a, b. Qed.

Lemma same_schema_select_number A B :
  same_schema A B →
  select_number A = select_number B ∧ select_not_number A = select_not_number B.
Proof.
  unfold same_schema, select_number, select_not_number, columns.
  induction 1 as [|[ka a] [kb b] A B [Hk Hd] _ [IH1 IH2]]; [done|].
  simpl in Hk, Hd. subst kb. rewrite !filter_cons. simpl.
  rewrite (is_number_dtype a b Hd).
  split; repeat case_decide; simpl; congruence.
Qed.

(** Whether the two feature-deriving statements succeed depends on the
    schema only, and so does the schema they leave. *)
Lemma getitem_same_schema A B key b :
  same_schema A B → df_getitem B key = inr b →
  ∃ a, df_getitem A key = inr a ∧ dtype_of a = dtype_of b.
Proof.
  intros HAB. unfold df_getitem.
  pose proof (same_schema_lookup A B (LStr key) HAB) as Hl.
  destruct (assoc_lookup A (LStr key)), (assoc_lookup B (LStr key)); try done.
  intros [= <-]. eauto.
Qed.

Lemma set_BMI_same_schema A B B1 :
  same_schema A B → set_BMI B = inr B1 →
  ∃ A1, set_BMI A = inr A1 ∧ same_schema A1 B1.
Proof.
  intros HAB. unfold set_BMI.
  destruct (df_getitem B "Weight") as [?|wb] eqn:Hw; [done|].
  destruct (df_getitem B "Height") as [?|hb] eqn:Hh; [done|].
  destruct (getitem_same_schema A B _ _ HAB Hw) as (wa & -> & Hdw).
  destruct (getitem_same_schema A B _ _ HAB Hh) as (ha & -> & Hdh).
  simpl.
  destruct hb, ha; try done; simpl;
    destruct wb, wa; try done; simpl; intros [= <-]; eexists; (split; [done|]);
    by apply same_schema_set.
Qed.

Lemma set_Age_Group_same_schema A B B1 :
  same_schema A B → set_Age_Group B = inr B1 →
  ∃ A1, set_Age_Group A = inr A1 ∧ same_schema A1 B1.
Proof.
  intros HAB. unfold set_Age_Group.
  destruct (df_getitem B "Age") as [?|ab] eqn:Ha; [done|].
  destruct (getitem_same_schema A B _ _ HAB Ha) as (aa & -> & Hda).
  simpl.
  destruct ab, aa; try done; simpl; intros [= <-]; eexists; (split; [done|]);
    by apply same_schema_set.
Qed.

Lemma derived_same_schema A B B' :
  same_schema A B → with_derived_features B = inr B' →
  ∃ A', with_derived_features A = inr A' ∧ same_schema A' B'.
Proof.
  intros HAB. unfold with_derived_features.
  destruct (set_BMI B) as [?|B1] eqn:HB1; [done|]. simpl. intros HB'.
  destruct (set_BMI_same_schema A B B1 HAB HB1) as (A1 & -> & HA1). simpl.
  by eapply set_Age_Group_same_schema.
Qed.

(** Deriving the features of a table that has them already changes
    nothing. *)
Lemma with_derived_features_idem B B' :
  with_derived_features B = inr B' → with_derived_features B' = inr B'.
Proof.
  unfold with_derived_features, set_BMI, set_Age_Group, df_getitem, df_setitem.
  destruct (assoc_lookup B (LStr "Weight")) as [wt|] eqn:Hw; [|done]. simpl.
  destruct (assoc_lookup B (LStr "Height")) as [ht|] eqn:Hh; [|done]. simpl.
  destruct (series_pow2 ht) as [?|h2] eqn:Hp; [done|]. simpl.
  destruct (series_truediv wt h2) as [?|bmi] eqn:Hb; [done|]. simpl.
  rewrite assoc_lookup_set_ne by done.
  destruct (assoc_lookup B (LStr "Age")) as [age|] eqn:Ha; [|done]. simpl.
  destruct (pd_cut age) as [?|grp] eqn:Hg; [done|]. simpl. intros [= <-].
  rewrite !assoc_lookup_set_ne by done. rewrite Hw, Hh. simpl. rewrite Hp. simpl.
  rewrite Hb. simpl.
  rewrite (assoc_set_id _ (LStr "BMI") bmi);
    [|by rewrite assoc_lookup_set_ne, assoc_lookup_set_eq].
  rewrite !assoc_lookup_set_ne by done. rewrite Ha. simpl. rewrite Hg. simpl.
  by rewrite (assoc_set_id _ (LStr "Age_Group") grp) by apply assoc_lookup_set_eq.
Qed.

(** ** The transformers of the pipeline *)

Lemma select_spec df cols xs :
  ColumnTransformer.select df cols = inr xs →
  Forall2 (λ c s, assoc_lookup df c = Some s) cols xs.
Proof.
  revert xs. induction cols as [|c cols IH]; simpl; intros xs.
  - intros [= <-]. constructor.
  - destruct (assoc_lookup df c) as [s|] eqn:Hc; [|done].
    destruct (ColumnTransformer.select df cols) as [?|ss]; [done|].
    simpl. intros [= <-]. constructor; [done|by apply IH].
Qed.

Lemma select_same_schema A B cols xb :
  same_schema A B → ColumnTransformer.select B cols = inr xb →
  ∃ xa, ColumnTransformer.select A cols = inr xa
        ∧ Forall2 (λ a b, dtype_of a = dtype_of b) xa xb.
Proof.
  intros HAB. revert xb. induction cols as [|c cols IH]; simpl; intros xb.
  - intros [= <-]. eexists. split; [done|constructor].
  - pose proof (same_schema_lookup A B c HAB) as Hl.
    destruct (assoc_lookup B c) as [b|]; [|done].
    destruct (assoc_lookup A c) as [a|]; [|done].
    destruct (ColumnTransformer.select B cols) as [?|bs]; [done|].
    simpl. intros [= <-].
    destruct (IH bs eq_refl) as (xa & -> & Hxa). simpl.
    eexists. split; [done|]. by constructor.
Qed.

Lemma select_elem df cols xs (P : Series → Prop) :
  ColumnTransformer.select df cols = inr xs →
  Forall (λ c, P c.2) df → Forall P xs.
Proof.
  intros Hs Hdf. apply select_spec in Hs.
  induction Hs as [|c s cols xs Hc _ IH]; constructor; [|done].
  apply assoc_lookup_Some_elem in Hc.
  by apply (proj1 (Forall_forall _ _) Hdf (c, s)).
Qed.

Section scaler.
Import StandardScaler.

Lemma scaler_check_array_inv cols xss :
  check_array cols = inr xss →
  Forall2 (λ s xs, to_floats s = Some xs ∧ existsb is_inf xs = false) cols xss.
Proof.
  revert xss. induction cols as [|s cols IH]; simpl; intros xss.
  - intros [= <-]. constructor.
  - unfold check_column. destruct (to_floats s) as [xs|] eqn:Hs; [|done].
    destruct (existsb is_inf xs) eqn:Hinf; [done|]. simpl.
    destruct (check_array cols) as [?|xss']; [done|]. simpl. intros [= <-].
    constructor; [done|by apply IH].
Qed.

Lemma scaler_check_array_ok cols :
  Forall (λ s, is_number s = true ∧ has_infinity s = false) cols →
  ∃ xss, check_array cols = inr xss
         ∧ Forall2 (λ s xs, to_floats s = Some xs) cols xss.
Proof.
  induction 1 as [|s cols [Hn Hinf] _ (xss & IH & HF)]; simpl.
  - eexists. split; [done|constructor].
  - unfold check_column. unfold has_infinity in Hinf.
    destruct (to_floats s) as [xs|] eqn:Hs; [|by destruct s].
    rewrite Hinf, IH. simpl. eexists. split; [done|]. by constructor.
Qed.

Lemma scaler_fit_inv cols sc :
  fit cols = inr sc →
  Forall (λ s, is_number s = true) cols
  ∧ length (mean_ sc) = length cols ∧ length (scale_ sc) = length cols.
Proof.
  unfold fit. destruct (check_array cols) as [?|xss] eqn:Hc; [done|]. simpl.
  destruct (check_samples xss); [done|]. simpl. intros [= <-]. simpl.
  apply scaler_check_array_inv in Hc.
  rewrite !length_map. split_and!.
  - induction Hc as [|s xs cols xss [Hs _] _ IH]; constructor; [|done].
    by destruct s.
  - symmetry. by eapply Forall2_length.
  - symmetry. by eapply Forall2_length.
Qed.

Lemma scaler_transform_ok sc cols :
  Forall (λ s, is_number s = true ∧ has_infinity s = false ∧ series_len s ≠ 0) cols →
  length cols = length (mean_ sc) →
  length (scale_ sc) = length (mean_ sc) →
  ∃ xss, Forall2 (λ s xs, to_floats s = Some xs) cols xss
    ∧ transform sc cols = inr (zip_with scale_column xss (zip (mean_ sc) (scale_ sc)))
    ∧ length (zip_with scale_column xss (zip (mean_ sc) (scale_ sc))) = length cols.
Proof.
  intros Hcols Hlen Hlen'.
  destruct (scaler_check_array_ok cols) as (xss & Hc & HF).
  { eapply Forall_impl; [exact Hcols|]. by intros ? (? & ? & ?). }
  exists xss. split; [done|].
  assert (length xss = length cols) as Hl by (symmetry; by eapply Forall2_length).
  unfold transform. rewrite Hc. simpl.
  assert (check_samples xss = inr tt) as ->.
  { destruct HF as [|s xs cols' xss' Hs _]; [done|]. simpl.
    apply Forall_cons in Hcols as [(_ & _ & Hne) _].
    rewrite decide_False; [done|].
    destruct s; simpl in Hs, Hne; try done; injection Hs as <-;
      by rewrite ?length_map. }
  simpl. rewrite decide_True by congruence. split; [done|].
  rewrite length_zip_with, length_zip. lia.
Qed.
End scaler.

Section encoder.
Import OneHotEncoder.

Lemma encoder_check_array_inv cols xss :
  check_array cols = inr xss →
  xss = map str_values cols ∧ Forall (λ s, is_number s = false) cols.
Proof.
  revert xss. induction cols as [|s cols IH]; simpl; intros xss.
  - by intros [= <-].
  - destruct (check_column s) as [?|xs] eqn:Hs; [done|]. simpl.
    destruct (check_array cols) as [?|xss']; [done|]. simpl. intros [= <-].
    destruct (IH _ eq_refl) as [-> HF].
    unfold check_column in Hs.
    destruct s; try done; simpl in *; case_decide; simplify_eq; by split; [|constructor].
Qed.

Lemma encoder_check_array_ok cols :
  Forall (λ s, is_number s = false ∧ series_len s ≠ 0) cols →
  check_array cols = inr (map str_values cols).
Proof.
  induction 1 as [|s cols [Hn Hne] _ IH]; simpl; [done|].
  rewrite IH. destruct s; try done; simpl in *; by rewrite decide_False.
Qed.

Lemma encoder_fit_inv names cols enc :
  fit names cols = inr enc →
  enc = mk names (map unique (map str_values cols))
  ∧ Forall (λ s, is_number s = false) cols.
Proof.
  unfold fit. destruct (check_array cols) as [?|xss] eqn:Hc; [done|]. simpl.
  intros [= <-]. by destruct (encoder_check_array_inv _ _ Hc) as [-> ?].
Qed.

Lemma encoder_transform_ok enc cols :
  Forall (λ s, is_number s = false ∧ series_len s ≠ 0) cols →
  length cols = length (categories_ enc) →
  transform enc cols
  = inr (concat (zip_with encode_column (map str_values cols) (categories_ enc))).
Proof.
  intros Hcols Hlen. unfold transform.
  rewrite (encoder_check_array_ok _ Hcols). simpl.
  by rewrite decide_True by by rewrite length_map.
Qed.

Lemma encode_column_length xs cats : length (encode_column xs cats) = length cats.
Proof. unfold encode_column. by rewrite length_map. Qed.

Lemma encoded_length xss catss :
  length xss = length catss →
  length (concat (zip_with encode_column xss catss)) = length (concat catss).
Proof.
  revert catss. induction xss as [|xs xss IH]; intros [|cats catss]; simpl; try done.
  intros [= Hl]. rewrite !length_app, encode_column_length. by rewrite IH.
Qed.

Lemma feature_names_out_input enc input names :
  get_feature_names_out enc input = inr names →
  input = map LStr (feature_names_in_ enc).
Proof. unfold get_feature_names_out. by case_decide. Qed.

Lemma feature_names_out_length enc input names :
  get_feature_names_out enc input = inr names →
  length (feature_names_in_ enc) = length (categories_ enc) →
  length names = length (concat (categories_ enc)).
Proof.
  unfold get_feature_names_out. case_decide as Hin; [|done].
  intros [= <-] Hlen. clear Hin.
  destruct enc as [ns catss]. simpl in *. revert catss Hlen.
  induction ns as [|n ns IH]; intros [|cats catss]; simpl; try done.
  intros [= Hl]. rewrite !length_app, length_map. by rewrite IH.
Qed.
End encoder.

Lemma omap_to_floats cols xss :
  Forall2 (λ s xs, to_floats s = Some xs) cols xss → omap to_floats cols = xss.
Proof. induction 1 as [|s xs cols xss Hs _ IH]; csimpl; [done|]. by rewrite Hs, IH. Qed.

Lemma ct_fit_inv num cat df ct :
  ColumnTransformer.fit (ColumnTransformer.new num cat) df = inr ct →
  ∃ xnum xcat numf catf,
    returns (feature_names_in df)
    ∧ ColumnTransformer.select df num = inr xnum
    ∧ ColumnTransformer.select df cat = inr xcat
    ∧ ct = ColumnTransformer.mk num cat (Some (numf, catf))
    ∧ match numf with
      | None => num = []
      | Some sc => StandardScaler.fit xnum = inr sc
      end
    ∧ match catf with
      | None => cat = []
      | Some enc => OneHotEncoder.fit (omap str_label cat) xcat = inr enc
      end.
Proof.
  unfold ColumnTransformer.fit. simpl.
  destruct (feature_names_in df) as [?|fnames]; [done|]. simpl.
  destruct (ColumnTransformer.select df num) as [?|xnum]; [done|]. simpl.
  destruct (ColumnTransformer.select df cat) as [?|xcat]; [done|]. simpl.
  intros Hfit. exists xnum, xcat.
  assert (returns (inr fnames : result (list string))) as Hret by by eexists.
  destruct num as [|n num].
  - simpl in Hfit. destruct cat as [|c cat].
    + simpl in Hfit. injection Hfit as <-. by exists None, None.
    + simpl in Hfit.
      destruct (OneHotEncoder.fit _ xcat) as [?|enc]; [done|].
      simpl in Hfit. injection Hfit as <-. by exists None, (Some enc).
  - simpl in Hfit. destruct (StandardScaler.fit xnum) as [?|sc]; [done|].
    simpl in Hfit. destruct cat as [|c cat].
    + simpl in Hfit. injection Hfit as <-. by exists (Some sc), None.
    + simpl in Hfit.
      destruct (OneHotEncoder.fit _ xcat) as [?|enc]; [done|].
      simpl in Hfit. injection Hfit as <-. by exists (Some sc), (Some enc).
Qed.

Lemma Forall2_dtype_number xa xb b :
  Forall2 (λ a b, dtype_of a = dtype_of b) xa xb →
  Forall (λ s, is_number s = b) xb → Forall (λ s, is_number s = b) xa.
Proof.
  induction 1 as [|a0 b0 xa xb Hd _ IH]; [done|].
  intros [Hb ?]%Forall_cons. constructor; [|by apply IH].
  by rewrite (is_number_dtype a0 b0 Hd).
Qed.

Lemma feature_names_in_same_schema A B :
  same_schema A B → feature_names_in A = feature_names_in B.
Proof. intros H. unfold feature_names_in. by rewrite (same_schema_columns A B H). Qed.

(** A pipeline fitted on [D] accepts every table that has the schema of [D]
    and whose selected columns have a row and no infinity; it encodes the
    table into as many columns as [fit] gave names. *)
Lemma ct_transform_selected num cat D ct names A :
  ColumnTransformer.fit (ColumnTransformer.new num cat) D = inr ct →
  ColumnTransformer.cat_feature_names_out ct cat = inr names →
  same_schema A D →
  (∀ xnum, ColumnTransformer.select A num = inr xnum →
           Forall (λ s, has_infinity s = false ∧ series_len s ≠ 0) xnum) →
  (∀ xcat, ColumnTransformer.select A cat = inr xcat →
           Forall (λ s, series_len s ≠ 0) xcat) →
  ∃ xnum xcat numf enc,
    ct = ColumnTransformer.mk num cat (Some (numf, Some enc))
    ∧ length (OneHotEncoder.categories_ enc) = length cat
    ∧ ColumnTransformer.select A num = inr xnum
    ∧ ColumnTransformer.select A cat = inr xcat
    ∧ ColumnTransformer.transform ct A
      = inr (scaled_columns numf xnum ++ concat (encoded_blocks (Some enc) xcat))
    ∧ length (scaled_columns numf xnum ++ concat (encoded_blocks (Some enc) xcat))
      = length (num ++ names).
Proof.
  intros Hfit Hnames HAD Hnum Hcat'.
  destruct (ct_fit_inv _ _ _ _ Hfit)
    as (xnumD & xcatD & numf & catf & [fnames HfD] & HsnD & HscD & -> & Hnumf & Hcatf).
  unfold ColumnTransformer.cat_feature_names_out in Hnames. simpl in Hnames.
  destruct catf as [enc|]; [|done].
  destruct (encoder_fit_inv _ _ _ Hcatf) as [Henc HcatD].
  destruct (select_same_schema A D num xnumD HAD HsnD) as (xnum & Hsn & Hdn).
  destruct (select_same_schema A D cat xcatD HAD HscD) as (xcat & Hsc & Hdc).
  pose proof (feature_names_out_input _ _ _ Hnames) as Hcat.
  assert (length xcatD = length cat) as HlcD
    by (symmetry; eapply Forall2_length, select_spec; done).
  assert (length xcat = length cat) as Hlc
    by (symmetry; eapply Forall2_length, select_spec; done).
  assert (length xnum = length num) as Hln
    by (symmetry; eapply Forall2_length, select_spec; done).
  assert (length xnumD = length num) as HlnD
    by (symmetry; eapply Forall2_length, select_spec; done).
  assert (length (OneHotEncoder.categories_ enc) = length cat) as Hlcats.
  { rewrite Henc. simpl. by rewrite !length_map. }
  assert (length (OneHotEncoder.feature_names_in_ enc) = length cat) as Hlnames.
  { transitivity (length (map LStr (OneHotEncoder.feature_names_in_ enc)));
      [by rewrite length_map|by rewrite <- Hcat]. }
  exists xnum, xcat, numf, enc. split; [done|]. split; [done|].
  split; [done|]. split; [done|].
  assert (Forall (λ s, is_number s = false ∧ series_len s ≠ 0) xcat) as Hxcat.
  { apply Forall_and. split.
    - by eapply Forall2_dtype_number.
    - by apply Hcat'. }
  assert (length (scaled_columns numf xnum) = length num
          ∧ match numf with
            | None => inr []
            | Some sc => StandardScaler.transform sc xnum
            end = inr (scaled_columns numf xnum)) as [Hlscaled Hscaled].
  { destruct numf as [sc|]; [|by subst num].
    destruct (scaler_fit_inv _ _ Hnumf) as (HnumD & Hlm & Hls).
    destruct (scaler_transform_ok sc xnum) as (xss & HF & Ht & Hl).
    - apply Forall_and. split; [by eapply Forall2_dtype_number|].
      eapply Forall_impl; [by apply Hnum|]. by intros ? [??].
    - congruence.
    - congruence.
    - simpl. rewrite (omap_to_floats _ _ HF). split; [congruence|done]. }
  split.
  - unfold ColumnTransformer.transform. simpl.
    rewrite (feature_names_in_same_schema A D HAD), HfD. simpl.
    rewrite Hsn, Hsc. simpl. rewrite Hscaled. simpl.
    rewrite (encoder_transform_ok enc xcat Hxcat) by congruence. done.
  - rewrite !length_app, Hlscaled. f_equal. simpl.
    rewrite encoded_length by (rewrite length_map; congruence).
    symmetry. eapply feature_names_out_length; [done|congruence].
Qed.


(** ** Row counts *)

Lemma to_floats_length s xs : to_floats s = Some xs → length xs = series_len s.
Proof. destruct s; simpl; intros [= <-]; by rewrite ?length_map. Qed.

Lemma series_pow2_len s s' : series_pow2 s = inr s' → series_len s' = series_len s.
Proof. destruct s; simpl; intros [= <-]; simpl; by rewrite length_map. Qed.

Lemma assoc_set_Forall {K V} `{EqDecision K} (P : K * V → Prop) (l : list (K * V)) k v :
  Forall P l → P (k, v) → Forall P (assoc_set l k v).
Proof.
  intros Hl Hv. apply Forall_forall. intros c Hc.
  destruct (assoc_set_elem _ _ _ _ Hc) as [Hin| ->]; [|done].
  by apply (proj1 (Forall_forall _ _) Hl).
Qed.

Lemma getitem_elem (P : Series → Prop) df key s :
  Forall (λ c, P c.2) df → df_getitem df key = inr s → P s.
Proof.
  intros Hdf. unfold df_getitem.
  destruct (assoc_lookup df (LStr key)) as [s'|] eqn:Hl; [|done]. intros [= <-].
  apply assoc_lookup_Some_elem in Hl.
  by apply (proj1 (Forall_forall _ _) Hdf (LStr key, s')).
Qed.

Lemma derived_lengths A A' n :
  Forall (λ c, series_len c.2 = n) A →
  with_derived_features A = inr A' →
  Forall (λ c, series_len c.2 = n) A'.
Proof.
  intros HA. unfold with_derived_features, set_BMI, set_Age_Group.
  destruct (df_getitem A "Weight") as [?|wt] eqn:Hw; [done|]. simpl.
  destruct (df_getitem A "Height") as [?|ht] eqn:Hh; [done|]. simpl.
  destruct (series_pow2 ht) as [?|h2] eqn:Hp; [done|]. simpl.
  unfold series_truediv.
  destruct (to_floats wt) as [xs|] eqn:Hxs; [|done].
  destruct (to_floats h2) as [ys|] eqn:Hys; [|done]. simpl.
  pose proof (getitem_elem (λ s, series_len s = n) _ _ _ HA Hw) as Hlw.
  pose proof (getitem_elem (λ s, series_len s = n) _ _ _ HA Hh) as Hlh.
  simpl in Hlw, Hlh.
  assert (Forall (λ c, series_len c.2 = n)
            (df_setitem A (LStr "BMI") (SFloat (zip_with fdiv xs ys)))) as HA1.
  { apply assoc_set_Forall; [done|]. simpl. rewrite length_zip_with.
    rewrite (to_floats_length _ _ Hxs), (to_floats_length _ _ Hys).
    rewrite (series_pow2_len _ _ Hp). lia. }
  destruct (df_getitem _ "Age") as [?|age] eqn:Ha; [done|]. simpl.
  unfold pd_cut. destruct (to_floats age) as [zs|] eqn:Hzs; [|done]. simpl.
  intros [= <-]. apply assoc_set_Forall; [done|]. simpl.
  rewrite length_map, (to_floats_length _ _ Hzs).
  by apply (getitem_elem (λ s, series_len s = n) _ _ _ HA1 Ha).
Qed.

Lemma finite_table_derived A A' :
  finite_table A → with_derived_features A = inr A' →
  no_infinity A' ∧ Forall (λ c, series_len c.2 ≠ 0) A'.
Proof.
  intros ([_ Hlen] & Hrows & Hinf) HA'. rewrite HA' in Hinf. split; [done|].
  eapply Forall_impl; [by eapply derived_lengths|]. simpl. intros c Hc. lia.
Qed.

(** The table a pipeline was fitted on is one it accepts. *)
Lemma fit_selected_ok num cat D ct n :
  ColumnTransformer.fit (ColumnTransformer.new num cat) D = inr ct →
  Forall (λ c, series_len c.2 = n) D →
  (∀ xnum, ColumnTransformer.select D num = inr xnum →
           Forall (λ s, has_infinity s = false ∧ series_len s ≠ 0) xnum)
  ∧ (∀ xcat, ColumnTransformer.select D cat = inr xcat →
             Forall (λ s, series_len s ≠ 0) xcat).
Proof.
  intros Hfit Hlen.
  destruct (ct_fit_inv _ _ _ _ Hfit)
    as (xnumD & xcatD & numf & catf & _ & HsnD & HscD & -> & Hnumf & Hcatf).
  split.
  - intros xnum Hs. rewrite HsnD in Hs. injection Hs as <-.
    destruct numf as [sc|]; simpl in Hnumf;
      [|subst num; simpl in HsnD; by injection HsnD as <-].
    unfold StandardScaler.fit in Hnumf.
    destruct (StandardScaler.check_array xnumD) as [?|xss] eqn:Hc; [done|].
    simpl in Hnumf.
    destruct (StandardScaler.check_samples xss) eqn:Hsamples; [done|].
    apply scaler_check_array_inv in Hc.
    pose proof (select_elem D num _ (λ s, series_len s = n) HsnD Hlen) as Hall.
    assert (xnumD = [] ∨ n ≠ 0) as [->|Hn]; [|constructor|].
    { destruct Hc as [|s xs cols xss' [Hs _] _]; [by left|right].
      simpl in Hsamples. case_decide as Hl; [done|].
      rewrite (to_floats_length _ _ Hs) in Hl.
      apply Forall_cons in Hall as [<- _]. done. }
    clear Hsamples Hnumf HsnD.
    induction Hc as [|s xs cols xss' [Hs Hinf] _ IH]; [constructor|].
    apply Forall_cons in Hall as [Hls Hall].
    constructor; [|by apply IH].
    unfold has_infinity. rewrite Hs. split; [done|congruence].
  - intros xcat Hs. rewrite HscD in Hs. injection Hs as <-.
    destruct catf as [enc|]; simpl in Hcatf;
      [|subst cat; simpl in HscD; by injection HscD as <-].
    unfold OneHotEncoder.fit in Hcatf.
    destruct (OneHotEncoder.check_array xcatD) as [?|xss] eqn:Hc; [done|].
    clear Hcatf HscD. revert xss Hc.
    induction xcatD as [|s cols IH]; intros xss Hc; [constructor|].
    simpl in Hc. unfold OneHotEncoder.check_column in Hc at 1.
    destruct s as [| |xs|xs]; try done; case_decide as Hl; try done; simpl in Hc;
      (destruct (OneHotEncoder.check_array cols) as [?|xss'] eqn:Hc'; [done|]);
      (constructor; [done|by eapply IH]).
Qed.

(** ** What a successful [fit] leaves *)

Lemma fit_raises_derive (data : loc) (self : TrainPreprocessor.t) (w : World) df e :
  frames w !! data = Some df →
  with_derived_features df = inl e →
  ∃ w', TrainPreprocessor.fit data self w = (self, w', inl e)
        ∧ files w' = files w ∧ settings w' = settings w.
Proof.
  intros Hdf Hd. unfold with_derived_features in Hd.
  unfold TrainPreprocessor.fit. simpl.
  rewrite (assign_BMI_run _ _ _ df) by done.
  destruct (set_BMI df) as [e'|df1] eqn:Hbmi; simpl in Hd.
  { injection Hd as ->. eexists. split; [reflexivity|done]. }
  simpl.
  rewrite (assign_Age_Group_run _ _ _ df1) by by eapply frames_insert_lookup.
  rewrite Hd. eexists. split; [reflexivity|done].
Qed.

Lemma fit_success_inv (data : loc) (self st : TrainPreprocessor.t) (w w1 : World) D :
  frames w !! data = Some D →
  TrainPreprocessor.fit data self w = (st, w1, inr tt) →
  ∃ D' ct names,
    with_derived_features D = inr D'
    ∧ frames w1 = <[data := D']> (frames w)
    ∧ files w1 = files w ∧ settings w1 = settings w
    ∧ ColumnTransformer.fit
        (ColumnTransformer.new (numeric_cols (settings w) D') (categorical_cols (settings w) D'))
        D' = inr ct
    ∧ ColumnTransformer.cat_feature_names_out ct (categorical_cols (settings w) D') = inr names
    ∧ st = TrainPreprocessor.mk true (Some ct) (Some (numeric_cols (settings w) D' ++ names)).
Proof.
  intros HD Hfit.
  destruct (with_derived_features D) as [e|D'] eqn:Hd.
  { destruct (fit_raises_derive data self w D e HD Hd) as (w' & Hr & _). congruence. }
  destruct (fit_run data self w D D' HD Hd) as (w' & Hfr & Hfi & Hse & Hrun).
  exists D'.
  destruct (ColumnTransformer.fit _ D') as [e|ct] eqn:Hct; [congruence|].
  destruct (ColumnTransformer.cat_feature_names_out ct _) as [e|names] eqn:Hn; [congruence|].
  exists ct, names. rewrite Hfit in Hrun. injection Hrun as -> ->. done.
Qed.

(** ** The fitted flag after [fit] and [load] *)

Lemma fit_raises_keeps_fitted (data : loc) (self : TrainPreprocessor.t) (w : World) df e :
  frames w !! data = Some df →
  (TrainPreprocessor.fit data self w).2 = inl e →
  TrainPreprocessor.fitted (TrainPreprocessor.fit data self w).1.1
  = TrainPreprocessor.fitted self.
Proof.
  intros Hdf Hraise.
  destruct (with_derived_features df) as [e'|df'] eqn:Hd.
  - destruct (fit_raises_derive data self w df e' Hdf Hd) as (w' & Hfit & _).
    by rewrite Hfit.
  - destruct (fit_run data self w df df' Hdf Hd) as (w' & _ & _ & _ & Hrun).
    destruct (ColumnTransformer.fit _ df'); [by rewrite Hrun|].
    destruct (ColumnTransformer.cat_feature_names_out _ _); [by rewrite Hrun|].
    by rewrite Hrun in Hraise.
Qed.

Lemma train_load_raises (path : string) (self : TrainPreprocessor.t) (w : World) e :
  (TrainPreprocessor.load path self w).2 = inl e →
  (TrainPreprocessor.load path self w).1.1 = self.
Proof.
  unfold TrainPreprocessor.load, joblib_load. simpl. by destruct (files w !! path).
Qed.

Lemma inference_load_raises path (self : InferencePreprocessor.t) (w : World) e :
  (InferencePreprocessor.load path self w).2 = inl e →
  (InferencePreprocessor.load path self w).1.1 = self.
Proof.
  unfold InferencePreprocessor.load, joblib_load. simpl. by destruct (files w !! _).
Qed.

(** C3 (amended): a preprocessor whose [fitted] flag is false, as [__init__]
    leaves it, raises [RuntimeError] from [transform] on every table, before
    it reads or changes the table, the files or itself; this holds for the
    training and for the inference preprocessor.  The flag is still false
    after a [fit] or a [load] that raised. *)
Theorem transform_unfitted_raises
    (train : TrainPreprocessor.t) (infer : InferencePreprocessor.t) (data : loc) (w : World) :
  TrainPreprocessor.fitted train = false →
  InferencePreprocessor.fitted infer = false →
  (∃ w', TrainPreprocessor.transform data train w
         = (train, w', inl (RuntimeError "Preprocessor must be fitted before calling transform()."))
         ∧ frames w' = frames w ∧ files w' = files w)
  ∧ (∃ w', InferencePreprocessor.transform data infer w
           = (infer, w', inl (RuntimeError "Preprocessor must be fitted before calling transform()."))
           ∧ frames w' = frames w ∧ files w' = files w)
  ∧ (∀ df e, frames w !! data = Some df →
       (TrainPreprocessor.fit data train w).2 = inl e →
       TrainPreprocessor.fitted (TrainPreprocessor.fit data train w).1.1 = false)
  ∧ (∀ path e, (TrainPreprocessor.load path train w).2 = inl e →
       TrainPreprocessor.fitted (TrainPreprocessor.load path train w).1.1 = false)
  ∧ InferencePreprocessor.fitted (InferencePreprocessor.fit data infer w).1.1 = false
  ∧ (∀ path e, (InferencePreprocessor.load path infer w).2 = inl e →
       InferencePreprocessor.fitted (InferencePreprocessor.load path infer w).1.1 = false).
Proof.
  intros Ht Hi. split_and!.
  - eexists. split.
    + unfold TrainPreprocessor.transform. simpl.
      by rewrite (check_fitted_false _ _ _ Ht).
    + done.
  - eexists. split.
    + unfold InferencePreprocessor.transform. simpl.
      by rewrite (check_fitted_false _ _ _ Hi).
    + done.
  - intros df e Hdf Hraise. by rewrite (fit_raises_keeps_fitted _ _ _ _ _ Hdf Hraise).
  - intros path e Hraise. by rewrite (train_load_raises _ _ _ _ Hraise).
  - done.
  - intros path e Hraise. by rewrite (inference_load_raises _ _ _ _ Hraise).
Qed.

Lemma transform_unfitted_raises_witness :
  (∃ w', TrainPreprocessor.transform 0 TrainPreprocessor.__init__ (world_of [test_table])
         = (TrainPreprocessor.__init__, w',
            inl (RuntimeError "Preprocessor must be fitted before calling transform()."))
         ∧ frames w' = [test_table] ∧ files w' = ∅)
  ∧ (∃ w', InferencePreprocessor.transform 0 (InferencePreprocessor.__init__ "prep.joblib")
             (world_of [test_table])
           = (InferencePreprocessor.__init__ "prep.joblib", w',
              inl (RuntimeError "Preprocessor must be fitted before calling transform()."))
           ∧ frames w' = [test_table] ∧ files w' = ∅)
  ∧ (∀ df e, [test_table] !! 0 = Some df →
       (TrainPreprocessor.fit 0 TrainPreprocessor.__init__ (world_of [test_table])).2 = inl e →
       TrainPreprocessor.fitted
         (TrainPreprocessor.fit 0 TrainPreprocessor.__init__ (world_of [test_table])).1.1
       = false)
  ∧ (∀ path e,
       (TrainPreprocessor.load path TrainPreprocessor.__init__ (world_of [test_table])).2
       = inl e →
       TrainPreprocessor.fitted
         (TrainPreprocessor.load path TrainPreprocessor.__init__ (world_of [test_table])).1.1
       = false)
  ∧ InferencePreprocessor.fitted
      (InferencePreprocessor.fit 0 (InferencePreprocessor.__init__ "prep.joblib")
         (world_of [test_table])).1.1 = false
  ∧ (∀ path e,
       (InferencePreprocessor.load path (InferencePreprocessor.__init__ "prep.joblib")
          (world_of [test_table])).2 = inl e →
       InferencePreprocessor.fitted
         (InferencePreprocessor.load path (InferencePreprocessor.__init__ "prep.joblib")
            (world_of [test_table])).1.1
       = false).
Proof.
  apply (transform_unfitted_raises TrainPreprocessor.__init__
           (InferencePreprocessor.__init__ "prep.joblib") 0 (world_of [test_table]));
    reflexivity.
Defined.

(** ** [transform] after [fit] *)

Lemma names_of_fit num cat D ct names :
  ColumnTransformer.fit (ColumnTransformer.new num cat) D = inr ct →
  ColumnTransformer.cat_feature_names_out ct cat = inr names →
  ∃ xcat, ColumnTransformer.select D cat = inr xcat
    ∧ names = onehot_names (omap str_label cat)
                (map OneHotEncoder.unique (map str_values xcat)).
Proof.
  intros Hfit Hnames.
  destruct (ct_fit_inv _ _ _ _ Hfit)
    as (xnum & xcat & numf & catf & _ & _ & Hsc & -> & _ & Hcatf).
  unfold ColumnTransformer.cat_feature_names_out in Hnames. simpl in Hnames.
  destruct catf as [enc|]; [|done].
  destruct (encoder_fit_inv _ _ _ Hcatf) as [-> _].
  exists xcat. split; [done|].
  unfold OneHotEncoder.get_feature_names_out in Hnames. simpl in Hnames.
  case_decide; [|done]. by injection Hnames as <-.
Qed.

Lemma pd_DataFrame_names (arr : ndarray) (names : list label) :
  length names = length arr →
  pd_DataFrame arr (Some names) = inr (zip names (map SFloat arr))
  ∧ columns (zip names (map SFloat arr)) = names.
Proof.
  intros Hlen. unfold pd_DataFrame. rewrite decide_True by done. split; [done|].
  unfold columns. apply fst_zip. rewrite length_map. lia.
Qed.

(** The encoded table of a preprocessor fitted by [fit], for a table whose
    derived form has the fit-time schema. *)
Lemma train_transform_ok num cat D ct names (l : loc) (w : World) A A' :
  ColumnTransformer.fit (ColumnTransformer.new num cat) D = inr ct →
  ColumnTransformer.cat_feature_names_out ct cat = inr names →
  frames w !! l = Some A →
  with_derived_features A = inr A' →
  same_schema A' D →
  (∀ xnum, ColumnTransformer.select A' num = inr xnum →
           Forall (λ s, has_infinity s = false ∧ series_len s ≠ 0) xnum) →
  (∀ xcat, ColumnTransformer.select A' cat = inr xcat →
           Forall (λ s, series_len s ≠ 0) xcat) →
  ∀ feature_names,
  ∃ w' xnum xcat numf enc,
    ct = ColumnTransformer.mk num cat (Some (numf, Some enc))
    ∧ length (OneHotEncoder.categories_ enc) = length cat
    ∧ ColumnTransformer.select A' num = inr xnum
    ∧ ColumnTransformer.select A' cat = inr xcat
    ∧ length (scaled_columns numf xnum ++ concat (encoded_blocks (Some enc) xcat))
      = length (num ++ names)
    ∧ files w' = files w ∧ settings w' = settings w
    ∧ match pd_DataFrame (scaled_columns numf xnum ++ concat (encoded_blocks (Some enc) xcat))
              feature_names with
      | inl e =>
          TrainPreprocessor.transform l
            (TrainPreprocessor.mk true (Some ct) feature_names) w
          = (TrainPreprocessor.mk true (Some ct) feature_names, w', inl e)
          ∧ frames w' = <[l := A']> (frames w)
      | inr out =>
          TrainPreprocessor.transform l
            (TrainPreprocessor.mk true (Some ct) feature_names) w
          = (TrainPreprocessor.mk true (Some ct) feature_names, w', inr (length (frames w)))
          ∧ frames w' = <[l := A']> (frames w) ++ [out]
      end.
Proof.
  intros Hfit Hnames HA HA' Hsch Hnum Hcat feature_names.
  destruct (ct_transform_selected _ _ _ _ _ _ Hfit Hnames Hsch Hnum Hcat)
    as (xnum & xcat & numf & enc & Hct & Hlcats & Hsn & Hsc & Ht & Hlen).
  destruct (train_transform_run l (TrainPreprocessor.mk true (Some ct) feature_names)
              w A A' ct eq_refl eq_refl HA HA') as (w' & Hfi & Hse & Hrun).
  rewrite Ht in Hrun. simpl in Hrun.
  exists w', xnum, xcat, numf, enc. by split_and!.
Qed.

Lemma schema_after_fit D D' A :
  with_derived_features D = inr D' →
  same_schema A D ∨ same_schema A D' →
  ∃ A', with_derived_features A = inr A' ∧ same_schema A' D'.
Proof.
  intros HD [HA|HA].
  - by eapply derived_same_schema.
  - eapply derived_same_schema; [done|]. exact (with_derived_features_idem D D' HD).
Qed.

Lemma pd_DataFrame_labels (arr : ndarray) (feature_names : option (list label)) n :
  n = length arr →
  (∀ names, feature_names = Some names → length names = n) →
  pd_DataFrame arr feature_names = inr (zip (output_labels feature_names n) (map SFloat arr))
  ∧ columns (zip (output_labels feature_names n) (map SFloat arr))
    = output_labels feature_names n.
Proof.
  intros -> Hnames. unfold pd_DataFrame, output_labels, columns.
  destruct feature_names as [names|].
  - rewrite decide_True by by apply Hnames. split; [done|].
    apply fst_zip. rewrite length_map, (Hnames names eq_refl). lia.
  - split; [done|]. apply fst_zip.
    unfold range_labels. by rewrite !length_map, length_seq.
Qed.

Ltac solve_finite_table :=
  unfold finite_table, wf_frame; split_and!;
  [ by apply (bool_decide_unpack _); vm_compute
  | repeat constructor
  | simpl; lia
  | cbv; repeat constructor ].

(** ** The derived features of the scenario *)

(** C8, as the specification words it, fails on the BMI values: with the
    heights 170 and 160 of the scenario, [fit] leaves a BMI column that is
    not within 0.01 of [24.22; 37.11]. *)
Lemma fit_scenario_BMI_not_24 :
  ¬ ∃ df b1 b2,
      frames scenario_world !! 0 = Some df
      ∧ df_getitem df "BMI" = inr (SFloat [Fin b1; Fin b2])
      ∧ (Qabs (b1 - 24.22) <= 0.01)%Q ∧ (Qabs (b2 - 37.11) <= 0.01)%Q.
Proof.
  intros (df & b1 & b2 & Hdf & Hbmi & Hb1 & _).
  vm_compute in Hdf. injection Hdf as <-.
  vm_compute in Hbmi. injection Hbmi as <- <-.
  vm_compute in Hb1. by apply Hb1.
Qed.

(** C8 (amended): fitting a new TrainPreprocessor on the two-row table of
    the scenario succeeds and leaves in that table a BMI column equal to
    weight / height², that is [70/170², 95/160²], about [0.002422, 0.003711],
    and an Age_Group column ["Young", "Adult"]. *)
Theorem fit_scenario_derived_features :
  scenario_fit.2 = inr tt
  ∧ frames scenario_world !! 0 = Some scenario_table_fitted
  ∧ df_getitem scenario_table_fitted "BMI"
    = inr (SFloat [Fin (70 # 28900); Fin (95 # 25600)])
  ∧ (70 # 28900 == 70 / (170 * 170))%Q ∧ (95 # 25600 == 95 / (160 * 160))%Q
  ∧ (Qabs ((70 # 28900) - 0.002422) <= 0.000001)%Q
  ∧ (Qabs ((95 # 25600) - 0.003711) <= 0.000001)%Q
  ∧ df_getitem scenario_table_fitted "Age_Group" = inr (SCat [Some "Young"; Some "Adult"]).
Proof.
  split_and!; try (vm_compute; reflexivity); vm_compute; discriminate.
Qed.

(** The BMI statement on integer columns, row by row. *)
Lemma set_BMI_int df (ws hs : list Z) :
  assoc_lookup df (LStr "Weight") = Some (SInt ws) →
  assoc_lookup df (LStr "Height") = Some (SInt hs) →
  set_BMI df
  = inr (df_setitem df (LStr "BMI")
           (SFloat (zip_with (λ wt ht, fdiv (of_int wt) (of_int (wrap64 (ht * ht)))) ws hs))).
Proof.
  intros Hw Hh. unfold set_BMI, df_getitem. rewrite Hw, Hh. simpl.
  unfold series_truediv. simpl. do 3 f_equal.
  clear Hw Hh. revert hs. induction ws as [|wt ws IH]; intros [|ht hs]; simpl; try done.
  by rewrite IH.
Qed.

(** ** [fit] on a table that lacks a raw column *)

Lemma derive_missing_column df :
  assoc_lookup df (LStr "Weight") = None
  ∨ assoc_lookup df (LStr "Height") = None
  ∨ assoc_lookup df (LStr "Age") = None →
  ∃ e, with_derived_features df = inl e
    ∧ (exn_class e = "KeyError" ∨ exn_class e = "TypeError")
    ∧ (assoc_lookup df (LStr "Weight") = None → e = KeyError "Weight")
    ∧ (assoc_lookup df (LStr "Weight") ≠ None →
       assoc_lookup df (LStr "Height") = None → e = KeyError "Height")
    ∧ (returns (set_BMI df) → e = KeyError "Age").
Proof.
  intros Hmissing. unfold with_derived_features, set_BMI, df_getitem.
  destruct (assoc_lookup df (LStr "Weight")) as [wt|] eqn:Hw; simpl.
  2:{ eexists. split; [done|]. split; [by left|]. split; [done|]. split; [done|].
      by intros [? ?]. }
  destruct (assoc_lookup df (LStr "Height")) as [ht|] eqn:Hh; simpl.
  2:{ eexists. split; [done|]. split; [by left|]. split; [done|]. split; [done|].
      by intros [? ?]. }
  destruct Hmissing as [?|[?|Ha]]; [done|done|].
  destruct (series_pow2 ht) as [e|h2] eqn:Hp; simpl.
  { eexists. split; [done|]. split; [|split; [done|split; [done|by intros [? ?]]]].
    right. unfold series_pow2 in Hp. destruct ht; by simplify_eq. }
  destruct (series_truediv wt h2) as [e|bmi] eqn:Hb; simpl.
  { eexists. split; [done|]. split; [|split; [done|split; [done|by intros [? ?]]]].
    right. unfold series_truediv in Hb.
    destruct (to_floats wt), (to_floats h2); by simplify_eq. }
  unfold set_Age_Group, df_getitem, df_setitem.
  rewrite assoc_lookup_set_ne by done. rewrite Ha. simpl.
  eexists. split; [done|]. split; [by left|]. done.
Qed.

(** C6, as the specification words it, fails twice: [fit] on the table of
    the repository's test, which has no label column, returns; and on a
    table without Weight what it raises is a [KeyError], not a
    [SchemaError]. *)
Lemma fit_absent_label_or_column :
  assoc_lookup test_table (LStr (target_column default_settings)) = None
  ∧ (TrainPreprocessor.fit 0 TrainPreprocessor.__init__ (world_of [test_table])).2 = inr tt
  ∧ assoc_lookup no_weight_table (LStr "Weight") = None
  ∧ (TrainPreprocessor.fit 0 TrainPreprocessor.__init__ (world_of [no_weight_table])).2
    = inl (KeyError "Weight")
  ∧ ¬ raises (TrainPreprocessor.fit 0 TrainPreprocessor.__init__
                (world_of [no_weight_table])).2 "SchemaError".
Proof.
  split_and!; try (vm_compute; reflexivity).
  intros (e & He & Hcls). vm_compute in He. injection He as <-. discriminate Hcls.
Qed.

(** C6 (amended): when the training table lacks Weight, Height or Age, [fit]
    raises and leaves the preprocessor as it was: [KeyError] naming Weight,
    or else Height, when one of the two is missing; when only Age is
    missing, [KeyError] naming Age if BMI could be computed, and otherwise
    the [TypeError] of that computation.  (That the label column is absent
    is not an error.) *)
Theorem fit_missing_raw_column
    (data : loc) (self : TrainPreprocessor.t) (w : World) (df : DataFrame) :
  frames w !! data = Some df →
  assoc_lookup df (LStr "Weight") = None
  ∨ assoc_lookup df (LStr "Height") = None
  ∨ assoc_lookup df (LStr "Age") = None →
  ∃ e w',
    TrainPreprocessor.fit data self w = (self, w', inl e)
    ∧ (exn_class e = "KeyError" ∨ exn_class e = "TypeError")
    ∧ (assoc_lookup df (LStr "Weight") = None → e = KeyError "Weight")
    ∧ (assoc_lookup df (LStr "Weight") ≠ None →
       assoc_lookup df (LStr "Height") = None → e = KeyError "Height")
    ∧ (returns (set_BMI df) → e = KeyError "Age").
Proof.
  intros Hdf Hmissing.
  destruct (derive_missing_column df Hmissing) as (e & Hd & Hcls & Hw & Hh & Ha).
  destruct (fit_raises_derive data self w df e Hdf Hd) as (w' & Hfit & _).
  by exists e, w'.
Qed.

Lemma fit_missing_raw_column_witness :
  ∃ e w',
    TrainPreprocessor.fit 0 TrainPreprocessor.__init__ (world_of [no_weight_table])
    = (TrainPreprocessor.__init__, w', inl e)
    ∧ (exn_class e = "KeyError" ∨ exn_class e = "TypeError")
    ∧ (assoc_lookup no_weight_table (LStr "Weight") = None → e = KeyError "Weight")
    ∧ (assoc_lookup no_weight_table (LStr "Weight") ≠ None →
       assoc_lookup no_weight_table (LStr "Height") = None → e = KeyError "Height")
    ∧ (returns (set_BMI no_weight_table) → e = KeyError "Age").
Proof.
  apply (fit_missing_raw_column 0 TrainPreprocessor.__init__ (world_of [no_weight_table])
           no_weight_table).
  - reflexivity.
  - left. reflexivity.
Defined.

(** ** In-place update of the input table *)

Lemma train_transform_None (data : loc) (self : TrainPreprocessor.t) (w : World) df df' :
  TrainPreprocessor.fitted self = true →
  TrainPreprocessor.pipeline self = None →
  frames w !! data = Some df →
  with_derived_features df = inr df' →
  ∃ w', TrainPreprocessor.transform data self w
        = (self, w', inl (AttributeError "'NoneType' object has no attribute 'transform'"))
        ∧ frames w' = <[data := df']> (frames w).
Proof.
  intros Hf Hp Hdf Hd. unfold TrainPreprocessor.transform.
  simpl; rewrite (check_fitted_true _ _ _ Hf); simpl.
  unfold with_derived_features in Hd.
  destruct (set_BMI df) as [e|df1] eqn:Hbmi; [done|]. simpl in Hd.
  rewrite (assign_BMI_run _ _ _ df) by done. rewrite Hbmi. simpl.
  rewrite (assign_Age_Group_run _ _ _ df1) by (by eapply frames_insert_lookup).
  rewrite Hd. simpl. rewrite set_frames_insert_insert.
  rewrite pipeline_transform_None by done. by eexists.
Qed.

Lemma inference_transform_None (data : loc) (self : InferencePreprocessor.t) (w : World) df df' :
  InferencePreprocessor.fitted self = true →
  InferencePreprocessor.pipeline self = None →
  frames w !! data = Some df →
  with_derived_features df = inr df' →
  ∃ w', InferencePreprocessor.transform data self w
        = (self, w', inl (AttributeError "'NoneType' object has no attribute 'transform'"))
        ∧ frames w' = <[data := df']> (frames w).
Proof.
  intros Hf Hp Hdf Hd. unfold InferencePreprocessor.transform.
  simpl; rewrite (check_fitted_true _ _ _ Hf); simpl.
  unfold with_derived_features in Hd.
  destruct (set_BMI df) as [e|df1] eqn:Hbmi; [done|]. simpl in Hd.
  rewrite (assign_BMI_run _ _ _ df) by done. rewrite Hbmi. simpl.
  rewrite (assign_Age_Group_run _ _ _ df1) by (by eapply frames_insert_lookup).
  rewrite Hd. simpl. rewrite set_frames_insert_insert.
  rewrite pipeline_transform_None by done. by eexists.
Qed.

Lemma pd_DataFrame_floats (arr : ndarray) names out :
  pd_DataFrame arr names = inr out → Forall (λ c, dtype_of c.2 = float64) out.
Proof.
  unfold pd_DataFrame. intros Hout.
  assert (∀ ls : list label, Forall (λ c, dtype_of c.2 = float64) (zip ls (map SFloat arr))) as Hz.
  { intros ls. revert ls.
    clear Hout. induction arr as [|xs arr IH]; intros [|l ls]; simpl; constructor;
      [done|apply IH]. }
  destruct names as [ls|]; [case_decide; [|done]|]; injection Hout as <-; apply Hz.
Qed.

Lemma updated_in_place_intro {S} (data : loc) (w : World) df df' (s : S) w' r :
  frames w !! data = Some df →
  match r with
  | inl _ => frames w' = <[data := df']> (frames w)
  | inr out =>
      out = length (frames w)
      ∧ ∃ encoded, frames w' = <[data := df']> (frames w) ++ [encoded]
                   ∧ Forall (λ c, dtype_of c.2 = float64) encoded
  end →
  updated_in_place data w df' (s, w', r).
Proof.
  intros Hdf Hr. pose proof (lookup_lt_Some _ _ _ Hdf) as Hlt.
  unfold updated_in_place. simpl. destruct r as [e|out].
  - rewrite Hr. split; [by apply list_lookup_insert_eq|done].
  - destruct Hr as (-> & encoded & Hfr & Hfloat). rewrite Hfr. split.
    + rewrite lookup_app_l by by rewrite length_insert.
      by apply list_lookup_insert_eq.
    + split; [done|]. split; [lia|]. by exists encoded.
Qed.

(** C10, as stated, fails for the inference preprocessor: its [fit] only
    logs a warning and leaves the table without a BMI column. *)
Lemma inference_fit_leaves_table :
  frames (InferencePreprocessor.fit 0 (InferencePreprocessor.__init__ "prep.joblib")
            (world_of [test_table])).1.2 = [test_table]
  ∧ df_getitem test_table "BMI" = inl (KeyError "BMI")
  ∧ df_getitem test_table "Age_Group" = inl (KeyError "Age_Group").
Proof. by split_and!. Qed.

(** C10 (amended): on a table from which BMI and Age_Group can be derived,
    [fit] of the training preprocessor, and [transform] of a fitted
    training or inference preprocessor, update the table object they were
    handed: BMI and Age_Group are added to it, or overwritten, whether or
    not a later step raises; the encoded table that [transform] returns is a
    new object of float columns.  ([fit] of the inference preprocessor
    changes nothing.) *)
Theorem fit_transform_update_in_place
    (data : loc) (self train : TrainPreprocessor.t) (infer : InferencePreprocessor.t)
    (w : World) (df df' : DataFrame) :
  frames w !! data = Some df →
  with_derived_features df = inr df' →
  TrainPreprocessor.fitted train = true →
  InferencePreprocessor.fitted infer = true →
  (∃ bmi group,
      df' = df_setitem (df_setitem df (LStr "BMI") bmi) (LStr "Age_Group") group)
  ∧ frames (TrainPreprocessor.fit data self w).1.2 = <[data := df']> (frames w)
  ∧ updated_in_place data w df' (TrainPreprocessor.transform data train w)
  ∧ updated_in_place data w df' (InferencePreprocessor.transform data infer w)
  ∧ frames (InferencePreprocessor.fit data infer w).1.2 = frames w.
Proof.
  intros Hdf Hd Ht Hi. split_and!.
  - unfold with_derived_features, set_BMI, set_Age_Group in Hd.
    destruct (df_getitem df "Weight"); [done|]. simpl in Hd.
    destruct (df_getitem df "Height") as [?|ht]; [done|]. simpl in Hd.
    destruct (series_pow2 ht); [done|]. simpl in Hd.
    destruct (series_truediv _ _) as [?|bmi]; [done|]. simpl in Hd.
    destruct (df_getitem _ "Age") as [?|age]; [done|]. simpl in Hd.
    destruct (pd_cut age) as [?|group]; [done|]. simpl in Hd.
    injection Hd as <-. by exists bmi, group.
  - destruct (fit_run data self w df df' Hdf Hd) as (w' & Hfr & _ & _ & Hrun).
    destruct (ColumnTransformer.fit _ df'); [by rewrite Hrun|].
    destruct (ColumnTransformer.cat_feature_names_out _ _); by rewrite Hrun.
  - destruct (TrainPreprocessor.pipeline train) as [ct|] eqn:Hp.
    + destruct (train_transform_run data train w df df' ct Ht Hp Hdf Hd)
        as (w' & _ & _ & Hrun).
      destruct (rbind _ _) as [e|out] eqn:Hout; destruct Hrun as [-> Hfr].
      * by eapply updated_in_place_intro.
      * eapply updated_in_place_intro; [done|]. split; [done|]. exists out.
        split; [done|].
        destruct (ColumnTransformer.transform ct df'); [done|].
        by eapply pd_DataFrame_floats.
    + destruct (train_transform_None data train w df df' Ht Hp Hdf Hd) as (w' & -> & Hfr).
      by eapply updated_in_place_intro.
  - destruct (InferencePreprocessor.pipeline infer) as [ct|] eqn:Hp.
    + destruct (inference_transform_run data infer w df df' ct Hi Hp Hdf Hd)
        as (w' & _ & _ & Hrun).
      destruct (rbind _ _) as [e|out] eqn:Hout; destruct Hrun as [-> Hfr].
      * by eapply updated_in_place_intro.
      * eapply updated_in_place_intro; [done|]. split; [done|]. exists out.
        split; [done|].
        destruct (ColumnTransformer.transform ct df') as [?|arr]; [done|].
        by apply (pd_DataFrame_floats arr None).
    + destruct (inference_transform_None data infer w df df' Hi Hp Hdf Hd)
        as (w' & -> & Hfr).
      by eapply updated_in_place_intro.
  - done.
Qed.

Lemma fit_transform_update_in_place_witness :
  (∃ bmi group,
      scenario_table_fitted
      = df_setitem (df_setitem scenario_table (LStr "BMI") bmi) (LStr "Age_Group") group)
  ∧ frames (TrainPreprocessor.fit 0 TrainPreprocessor.__init__
              (world_of [scenario_table])).1.2
    = <[0 := scenario_table_fitted]> [scenario_table]
  ∧ updated_in_place 0 (world_of [scenario_table]) scenario_table_fitted
      (TrainPreprocessor.transform 0 scenario_preprocessor (world_of [scenario_table]))
  ∧ updated_in_place 0 (world_of [scenario_table]) scenario_table_fitted
      (InferencePreprocessor.transform 0
         (InferencePreprocessor.mk true (TrainPreprocessor.pipeline scenario_preprocessor)
            "prep.joblib")
         (world_of [scenario_table]))
  ∧ frames (InferencePreprocessor.fit 0
              (InferencePreprocessor.mk true (TrainPreprocessor.pipeline scenario_preprocessor)
                 "prep.joblib")
              (world_of [scenario_table])).1.2
    = [scenario_table].
Proof.
  apply (fit_transform_update_in_place 0 TrainPreprocessor.__init__ scenario_preprocessor
           (InferencePreprocessor.mk true (TrainPreprocessor.pipeline scenario_preprocessor)
              "prep.joblib")
           (world_of [scenario_table]) scenario_table scenario_table_fitted).
  - reflexivity.
  - vm_compute. reflexivity.
  - vm_compute. reflexivity.
  - reflexivity.
Defined.

(** ** The categories of a column *)

Lemma insert_unique_elem (s x : string) (l : list string) :
  x ∈ OneHotEncoder.insert_unique s l ↔ x = s ∨ x ∈ l.
Proof.
  induction l as [|y l IH]; simpl.
  - rewrite list_elem_of_singleton. set_solver.
  - destruct (String.eqb s y) eqn:Heq.
    + apply String.eqb_eq in Heq as ->. set_solver.
    + destruct (String.ltb s y); [set_solver|].
      rewrite !elem_of_cons, IH. naive_solver.
Qed.

Lemma sorted_unique_elem (x : string) (l : list string) :
  x ∈ foldr OneHotEncoder.insert_unique [] l ↔ x ∈ l.
Proof.
  induction l as [|y l IH]; simpl; [done|].
  rewrite insert_unique_elem, IH. set_solver.
Qed.

(** The categories of a column are the values met in it. *)
Lemma unique_elem (v : option string) (xs : list (option string)) :
  v ∈ OneHotEncoder.unique xs ↔ v ∈ xs.
Proof.
  unfold OneHotEncoder.unique. rewrite elem_of_app, list_elem_of_fmap. split.
  - intros [(s & -> & Hs)|Hnone].
    + apply sorted_unique_elem, list_elem_of_omap in Hs as (o & Ho & Hid).
      simpl in Hid. by subst o.
    + destruct (existsb _ xs) eqn:Hex; [|by apply elem_of_nil in Hnone].
      apply list_elem_of_singleton in Hnone as ->.
      apply existsb_exists in Hex as (o & Ho & Hb).
      apply bool_decide_eq_true in Hb as ->. by apply list_elem_of_In.
  - intros Hv. destruct v as [s|].
    + left. exists s. split; [done|].
      apply sorted_unique_elem, list_elem_of_omap. by exists (Some s).
    + right. assert (existsb (λ x, bool_decide (x = None)) xs = true) as ->.
      { apply existsb_exists. exists None. split; [by apply list_elem_of_In|].
        by apply bool_decide_eq_true. }
      by apply list_elem_of_singleton.
Qed.

Lemma select_lookup df cols xs j c s :
  ColumnTransformer.select df cols = inr xs →
  cols !! j = Some c → assoc_lookup df c = Some s → xs !! j = Some s.
Proof.
  intros Hsel Hc Hs. apply select_spec in Hsel.
  destruct (Forall2_lookup_l _ _ _ _ _ Hsel Hc) as (s' & Hs' & Hl). congruence.
Qed.

(** ** [save] and [load] *)

Lemma save_run (path : string) (self : TrainPreprocessor.t) (w : World) :
  ∃ w', TrainPreprocessor.save path self w = (self, w', inr tt)
        ∧ files w' = <[path := TrainPreprocessor.pipeline self]> (files w)
        ∧ frames w' = frames w ∧ settings w' = settings w.
Proof. eexists. by split; [reflexivity|]. Qed.

Lemma load_run (path : string) (self : TrainPreprocessor.t) (w : World) p :
  files w !! path = Some p →
  ∃ w', TrainPreprocessor.load path self w
        = (TrainPreprocessor.mk true p (TrainPreprocessor.feature_names self), w', inr tt)
        ∧ files w' = files w ∧ frames w' = frames w ∧ settings w' = settings w.
Proof.
  intros Hp. unfold TrainPreprocessor.load, joblib_load. simpl. rewrite Hp. simpl.
  eexists. by split; [reflexivity|].
Qed.

Lemma load_missing (path : string) (self : TrainPreprocessor.t) (w : World) :
  files w !! path = None →
  TrainPreprocessor.load path self w = (self, w, inl (FileNotFoundError path)).
Proof. intros Hp. unfold TrainPreprocessor.load, joblib_load. simpl. by rewrite Hp. Qed.

(** C2, as the specification words it, fails on the columns: in the
    scenario, the table the reloaded preprocessor returns is labelled with
    positions, the one the fitted preprocessor returns with the feature
    names; what [load] restores holds no column order. *)
Lemma save_load_loses_columns :
  ∃ out out',
    scenario_transform.2 = inr 1
    ∧ frames scenario_transform.1.2 !! 1 = Some out
    ∧ scenario_transform_loaded.2 = inr 2
    ∧ frames scenario_transform_loaded.1.2 !! 2 = Some out'
    ∧ out' ≠ out
    ∧ columns out
      = map LStr ["Age"; "Height"; "Weight"; "BMI"; "Gender_Female"; "Gender_Male";
                  "Age_Group_Adult"; "Age_Group_Young"]
    ∧ columns out' = map LInt [0; 1; 2; 3; 4; 5; 6; 7]
    ∧ TrainPreprocessor.feature_names scenario_load.1.1 = None.
Proof.
  eexists _, _. split_and!; try (vm_compute; reflexivity).
  intros Heq. apply (f_equal columns) in Heq. vm_compute in Heq. discriminate Heq.
Qed.

(** C2 (amended): a preprocessor fitted on a well-formed table [D], saved to
    a path and loaded from it by a new preprocessor, comes back with the
    same pipeline (scaling parameters and category vocabularies) and the
    fitted flag, but without feature names; on [D], the fitted and the
    reloaded preprocessor return tables with the same values in the same
    order and as many columns, the first labelled with the feature names,
    the second with the positions 0 .. n-1. *)
Theorem save_load_transform
    (data : loc) (self st : TrainPreprocessor.t) (w w1 : World) (D : DataFrame)
    (path : string) :
  frames w !! data = Some D →
  wf_frame D →
  TrainPreprocessor.fit data self w = (st, w1, inr tt) →
  ∃ w2 w3 st' w4 w5 out out',
    TrainPreprocessor.save path st w1 = (st, w2, inr tt)
    ∧ TrainPreprocessor.load path TrainPreprocessor.__init__ w2 = (st', w3, inr tt)
    ∧ TrainPreprocessor.pipeline st' = TrainPreprocessor.pipeline st
    ∧ TrainPreprocessor.fitted st' = true
    ∧ TrainPreprocessor.feature_names st' = None
    ∧ TrainPreprocessor.transform data st w3 = (st, w4, inr (length (frames w3)))
    ∧ frames w4 !! length (frames w3) = Some out
    ∧ TrainPreprocessor.transform data st' w4 = (st', w5, inr (length (frames w4)))
    ∧ frames w5 !! length (frames w4) = Some out'
    ∧ map snd out' = map snd out
    ∧ length out' = length out
    ∧ TrainPreprocessor.feature_names st = Some (columns out)
    ∧ columns out' = range_labels (length out).
Proof.
  intros HD [_ Hwf] Hfit.
  destruct (fit_success_inv _ _ _ _ _ _ HD Hfit)
    as (D' & ct & names & Hd & Hfr & _ & _ & Hct & Hnames & ->).
  set (num := numeric_cols (settings w) D') in *.
  set (cat := categorical_cols (settings w) D') in *.
  assert (frames w1 !! data = Some D') as HD'.
  { rewrite Hfr. apply list_lookup_insert_eq. by eapply lookup_lt_Some. }
  pose proof (with_derived_features_idem D D' Hd) as Hidem.
  destruct (fit_selected_ok _ _ _ _ _ Hct (derived_lengths _ _ _ Hwf Hd)) as [Hnum Hcat].
  destruct (save_run path (TrainPreprocessor.mk true (Some ct) (Some (num ++ names))) w1)
    as (w2 & Hsave & Hfi2 & Hfr2 & _).
  destruct (load_run path TrainPreprocessor.__init__ w2 (Some ct)) as (w3 & Hload & _ & Hfr3 & _).
  { rewrite Hfi2. apply lookup_insert_eq. }
  simpl in Hload.
  assert (frames w3 !! data = Some D') as HD3 by (rewrite Hfr3, Hfr2; done).
  destruct (train_transform_ok _ _ _ _ _ data w3 D' D' Hct Hnames HD3 Hidem
              (same_schema_refl D') Hnum Hcat (Some (num ++ names)))
    as (w4 & xnum & xcat & numf & enc & Hcteq & _ & Hsn & Hsc & Hlen & _ & _ & Hrun).
  destruct (pd_DataFrame_names _ _ (eq_sym Hlen)) as [Hdf Hcols].
  rewrite Hdf in Hrun. destruct Hrun as [Hrun Hfr4].
  assert (frames w4 !! data = Some D') as HD4.
  { rewrite Hfr4, lookup_app_l by (rewrite length_insert; by eapply lookup_lt_Some).
    apply list_lookup_insert_eq. by eapply lookup_lt_Some. }
  destruct (train_transform_ok _ _ _ _ _ data w4 D' D' Hct Hnames HD4 Hidem
              (same_schema_refl D') Hnum Hcat None)
    as (w5 & xnum' & xcat' & numf' & enc' & Hcteq' & _ & Hsn' & Hsc' & _ & _ & _ & Hrun').
  assert (xnum' = xnum) as -> by congruence.
  assert (xcat' = xcat) as -> by congruence.
  rewrite Hcteq in Hcteq'. injection Hcteq' as <- <-.
  simpl in Hrun'. destruct Hrun' as [Hrun' Hfr5].
  set (arr := scaled_columns numf xnum ++ concat (encoded_blocks (Some enc) xcat)) in *.
  assert (length (range_labels (length arr)) = length arr) as Hlr
    by (unfold range_labels; by rewrite length_map, length_seq).
  exists w2, w3, (TrainPreprocessor.mk true (Some ct) None), w4, w5,
    (zip (num ++ names) (map SFloat arr)), (zip (range_labels (length arr)) (map SFloat arr)).
  split_and!; try done.
  - rewrite Hfr4. apply list_lookup_middle. by rewrite length_insert.
  - rewrite Hfr5. apply list_lookup_middle. by rewrite length_insert.
  - rewrite !snd_zip; [done|rewrite length_map; lia|rewrite length_map; lia].
  - rewrite !length_zip, !length_map. lia.
  - simpl. by rewrite Hcols.
  - unfold columns. rewrite fst_zip by (rewrite length_map; lia).
    by rewrite length_zip, length_map, <- Hlen, Nat.min_id.
Qed.

Lemma save_load_transform_witness :
  ∃ w2 w3 st' w4 w5 out out',
    TrainPreprocessor.save scenario_path scenario_preprocessor scenario_world
    = (scenario_preprocessor, w2, inr tt)
    ∧ TrainPreprocessor.load scenario_path TrainPreprocessor.__init__ w2 = (st', w3, inr tt)
    ∧ TrainPreprocessor.pipeline st' = TrainPreprocessor.pipeline scenario_preprocessor
    ∧ TrainPreprocessor.fitted st' = true
    ∧ TrainPreprocessor.feature_names st' = None
    ∧ TrainPreprocessor.transform 0 scenario_preprocessor w3
      = (scenario_preprocessor, w4, inr (length (frames w3)))
    ∧ frames w4 !! length (frames w3) = Some out
    ∧ TrainPreprocessor.transform 0 st' w4 = (st', w5, inr (length (frames w4)))
    ∧ frames w5 !! length (frames w4) = Some out'
    ∧ map snd out' = map snd out
    ∧ length out' = length out
    ∧ TrainPreprocessor.feature_names scenario_preprocessor = Some (columns out)
    ∧ columns out' = range_labels (length out).
Proof.
  apply (save_load_transform 0 TrainPreprocessor.__init__ scenario_preprocessor
           (world_of [scenario_table]) scenario_world scenario_table scenario_path).
  - reflexivity.
  - split; [by apply (bool_decide_unpack _); vm_compute|repeat constructor].
  - vm_compute. reflexivity.
Defined.

(** ** The evaluator *)

Lemma accuracy_score_returns y_true y_pred :
  length y_true = length y_pred → ∃ acc, metrics.accuracy_score y_true y_pred = inr acc.
Proof.
  intros Hlen. unfold metrics.accuracy_score, metrics.check_consistent_length.
  rewrite decide_True by done. simpl. destruct (zip y_true y_pred); by eexists.
Qed.

Lemma weighted_returns score y_true y_pred :
  length y_true = length y_pred → ∃ q, metrics.weighted score y_true y_pred = inr (Fin q).
Proof.
  intros Hlen. unfold metrics.weighted, metrics.check_consistent_length.
  rewrite decide_True by done. simpl. by eexists.
Qed.

Lemma confusion_matrix_returns y_true y_pred :
  length y_true = length y_pred → ∃ cm, metrics.confusion_matrix y_true y_pred = inr cm.
Proof.
  intros Hlen. unfold metrics.confusion_matrix, metrics.check_consistent_length.
  rewrite decide_True by done. simpl. by eexists.
Qed.

Lemma metrics_dict_length y_true y_pred m :
  metrics_dict y_true y_pred = inr m → length y_true = length y_pred.
Proof.
  unfold metrics_dict, metrics.accuracy_score, metrics.check_consistent_length.
  by case_decide.
Qed.

Lemma metrics_dict_shape y_true y_pred m :
  metrics_dict y_true y_pred = inr m →
  ∃ acc prec rec f1,
    m = [ ("accuracy", PFloat acc); ("precision", PFloat (Fin prec));
          ("recall", PFloat (Fin rec)); ("f1_score", PFloat (Fin f1)) ]
    ∧ metrics.accuracy_score y_true y_pred = inr acc
    ∧ metrics.precision_score y_true y_pred = inr (Fin prec)
    ∧ metrics.recall_score y_true y_pred = inr (Fin rec)
    ∧ metrics.f1_score y_true y_pred = inr (Fin f1).
Proof.
  intros Hm. pose proof (metrics_dict_length _ _ _ Hm) as Hlen. unfold metrics_dict in Hm.
  destruct (accuracy_score_returns _ _ Hlen) as (acc & Hacc).
  destruct (weighted_returns metrics.class_precision _ _ Hlen) as (prec & Hprec).
  destruct (weighted_returns metrics.class_recall _ _ Hlen) as (rec & Hrec).
  destruct (weighted_returns metrics.class_f1 _ _ Hlen) as (f1 & Hf1).
  unfold metrics.precision_score, metrics.recall_score, metrics.f1_score in *.
  rewrite Hacc, Hprec, Hrec, Hf1 in Hm. simpl in Hm. injection Hm as <-.
  by exists acc, prec, rec, f1.
Qed.

Lemma evaluate_run y_true y_pred (s : ModelEvaluator.t) (w : World) m :
  metrics_dict y_true y_pred = inr m →
  ∃ cm,
    metrics.confusion_matrix y_true y_pred = inr cm
    ∧ ModelEvaluator.evaluate y_true y_pred s w
      = (s,
         add_log (Log "INFO" "[Evaluator] Confusion Matrix:\n{}" [PMatrix cm])
           (add_log (Log "INFO" "[Evaluator] Metrics: {}" [PDict m]) w),
         inr m).
Proof.
  intros Hm. pose proof (metrics_dict_length _ _ _ Hm) as Hlen.
  destruct (metrics_dict_shape _ _ _ Hm) as (acc & prec & rec & f1 & -> & Ha & Hp & Hr & Hf).
  destruct (confusion_matrix_returns _ _ Hlen) as (cm & Hcm).
  exists cm. split; [done|].
  unfold ModelEvaluator.evaluate. simpl. rewrite Ha, Hp, Hr, Hf, Hcm. done.
Qed.

(** C9, as the specification words it, fails on what is returned: the
    dictionary [evaluate] returns for [0,1,1] against [0,1,0] has the four
    scalar metrics as its only entries; none of them is a matrix. *)
Lemma evaluate_returns_no_matrix :
  ∃ m,
    (ModelEvaluator.evaluate [0; 1; 1]%Z [0; 1; 0]%Z ModelEvaluator.__init__ (world_of [])).2
    = inr m
    ∧ keys m = ["accuracy"; "precision"; "recall"; "f1_score"]
    ∧ ¬ ∃ k cm, (k, PMatrix cm) ∈ m.
Proof.
  eexists. split; [vm_compute; reflexivity|]. split; [reflexivity|].
  intros (k & cm & Hin).
  repeat (apply elem_of_cons in Hin as [[=]|Hin]).
  by apply elem_of_nil in Hin.
Qed.

(** C9 (amended): on label lists of the same length, [evaluate] returns a
    dictionary of exactly four scalar metrics (accuracy and the weighted
    precision, recall and F1 of scikit-learn); the confusion matrix is
    computed for the log only.  On [0,1,1] against [0,1,0] the accuracy is
    2/3 and the logged confusion matrix is [[1,0],[1,1]], 2 by 2 with one
    non-zero entry off the diagonal. *)
Theorem evaluate_result (y_true y_pred : list Z) (w : World) :
  length y_true = length y_pred →
  (∃ acc prec rec f1 cm w',
      ModelEvaluator.evaluate y_true y_pred ModelEvaluator.__init__ w
      = (ModelEvaluator.__init__, w',
         inr [ ("accuracy", PFloat acc); ("precision", PFloat (Fin prec));
               ("recall", PFloat (Fin rec)); ("f1_score", PFloat (Fin f1)) ])
      ∧ metrics.accuracy_score y_true y_pred = inr acc
      ∧ metrics.precision_score y_true y_pred = inr (Fin prec)
      ∧ metrics.recall_score y_true y_pred = inr (Fin rec)
      ∧ metrics.f1_score y_true y_pred = inr (Fin f1)
      ∧ metrics.confusion_matrix y_true y_pred = inr cm
      ∧ logs w'
        = logs w
          ++ [ Log "INFO" "[Evaluator] Metrics: {}"
                 [PDict [ ("accuracy", PFloat acc); ("precision", PFloat (Fin prec));
                          ("recall", PFloat (Fin rec)); ("f1_score", PFloat (Fin f1)) ]];
               Log "INFO" "[Evaluator] Confusion Matrix:\n{}" [PMatrix cm] ]
      ∧ frames w' = frames w ∧ files w' = files w)
  ∧ (∃ q, metrics.accuracy_score [0; 1; 1]%Z [0; 1; 0]%Z = inr (Fin q) ∧ (q == 2 # 3)%Q)
  ∧ metrics.confusion_matrix [0; 1; 1]%Z [0; 1; 0]%Z = inr [[1; 0]; [1; 1]]%Z.
Proof.
  intros Hlen. split; [|split; [by exists (2 # 3)%Q|done]].
  destruct (accuracy_score_returns _ _ Hlen) as (acc & Hacc).
  destruct (weighted_returns metrics.class_precision _ _ Hlen) as (prec & Hprec).
  destruct (weighted_returns metrics.class_recall _ _ Hlen) as (rec & Hrec).
  destruct (weighted_returns metrics.class_f1 _ _ Hlen) as (f1 & Hf1).
  assert (metrics_dict y_true y_pred
          = inr [ ("accuracy", PFloat acc); ("precision", PFloat (Fin prec));
                  ("recall", PFloat (Fin rec)); ("f1_score", PFloat (Fin f1)) ]) as Hm.
  { unfold metrics_dict, metrics.precision_score, metrics.recall_score, metrics.f1_score.
    by rewrite Hacc, Hprec, Hrec, Hf1. }
  destruct (evaluate_run y_true y_pred ModelEvaluator.__init__ w _ Hm) as (cm & Hcm & Hrun).
  exists acc, prec, rec, f1, cm. eexists. split; [exact Hrun|].
  split_and!; try done. simpl. by rewrite <- app_assoc.
Qed.

Lemma evaluate_result_witness :
  (∃ acc prec rec f1 cm w',
      ModelEvaluator.evaluate [0; 1; 1]%Z [0; 1; 0]%Z ModelEvaluator.__init__ (world_of [])
      = (ModelEvaluator.__init__, w',
         inr [ ("accuracy", PFloat acc); ("precision", PFloat (Fin prec));
               ("recall", PFloat (Fin rec)); ("f1_score", PFloat (Fin f1)) ])
      ∧ metrics.accuracy_score [0; 1; 1]%Z [0; 1; 0]%Z = inr acc
      ∧ metrics.precision_score [0; 1; 1]%Z [0; 1; 0]%Z = inr (Fin prec)
      ∧ metrics.recall_score [0; 1; 1]%Z [0; 1; 0]%Z = inr (Fin rec)
      ∧ metrics.f1_score [0; 1; 1]%Z [0; 1; 0]%Z = inr (Fin f1)
      ∧ metrics.confusion_matrix [0; 1; 1]%Z [0; 1; 0]%Z = inr cm
      ∧ logs w'
        = logs (world_of [])
          ++ [ Log "INFO" "[Evaluator] Metrics: {}"
                 [PDict [ ("accuracy", PFloat acc); ("precision", PFloat (Fin prec));
                          ("recall", PFloat (Fin rec)); ("f1_score", PFloat (Fin f1)) ]];
               Log "INFO" "[Evaluator] Confusion Matrix:\n{}" [PMatrix cm] ]
      ∧ frames w' = frames (world_of []) ∧ files w' = files (world_of []))
  ∧ (∃ q, metrics.accuracy_score [0; 1; 1]%Z [0; 1; 0]%Z = inr (Fin q) ∧ (q == 2 # 3)%Q)
  ∧ metrics.confusion_matrix [0; 1; 1]%Z [0; 1; 0]%Z = inr [[1; 0]; [1; 1]]%Z.
Proof.
  apply (evaluate_result [0; 1; 1]%Z [0; 1; 0]%Z (world_of [])). reflexivity.
Defined.

(** ** [max] with a key *)

Lemma fgt_Fin (a b : Q) : fgt (Fin a) (Fin b) = true ↔ (b < a)%Q.
Proof.
  unfold fgt, Qltb. rewrite negb_true_iff. split.
  - intros Hle. apply Qnot_le_lt. intros Hab. apply Qle_bool_iff in Hab. congruence.
  - intros Hlt. destruct (Qle_bool a b) eqn:Hle; [|done].
    apply Qle_bool_iff in Hle. lra.
Qed.

Lemma fgt_Fin_false (a b : Q) : fgt (Fin a) (Fin b) = false ↔ (a <= b)%Q.
Proof.
  unfold fgt, Qltb. rewrite negb_false_iff. apply Qle_bool_iff.
Qed.

Local Arguments fgt : simpl never.

(** The loop keeps the first of the items whose key is the greatest. *)
Lemma max_loop_spec (key : string → result pyval) (q : string → Q) rest cur :
  (∀ x, x ∈ cur :: rest → key x = inr (PFloat (Fin (q x)))) →
  ∃ b, max_loop key rest cur (PFloat (Fin (q cur))) = inr b
    ∧ ((b = cur ∧ ∀ x, x ∈ rest → (q x <= q cur)%Q)
       ∨ ∃ i, rest !! i = Some b ∧ (q cur < q b)%Q
              ∧ (∀ j x, rest !! j = Some x → (q x <= q b)%Q)
              ∧ (∀ j x, j < i → rest !! j = Some x → (q x < q b)%Q)).
Proof.
  revert cur. induction rest as [|x rest IH]; intros cur Hkey.
  - exists cur. split; [done|]. left. split; [done|]. by intros x Hx%elem_of_nil.
  - simpl. rewrite (Hkey x) by (right; by left). simpl.
    destruct (fgt (Fin (q x)) (Fin (q cur))) eqn:Hgt.
    + apply fgt_Fin in Hgt.
      destruct (IH x) as (b & Hb & Hspec).
      { intros y Hy. apply Hkey. by right. }
      exists b. split; [done|]. right.
      destruct Hspec as [[-> Hle]|(i & Hi & Hlt & Hall & Hbefore)].
      * exists 0. split; [done|]. split; [done|]. split.
        -- intros [|j] y Hy; simpl in Hy.
           ++ injection Hy as <-. lra.
           ++ apply Hle. by eapply list_elem_of_lookup_2.
        -- intros j y Hj. lia.
      * exists (S i). split; [done|]. split; [lra|]. split.
        -- intros [|j] y Hy; simpl in Hy.
           ++ injection Hy as <-. lra.
           ++ by eapply Hall.
        -- intros [|j] y Hj Hy; simpl in Hy.
           ++ by injection Hy as <-.
           ++ eapply Hbefore; [|done]. lia.
    + apply fgt_Fin_false in Hgt.
      destruct (IH cur) as (b & Hb & Hspec).
      { intros y [->|Hy]%elem_of_cons; apply Hkey; [by left|]. right. by right. }
      exists b. split; [done|].
      destruct Hspec as [[-> Hle]|(i & Hi & Hlt & Hall & Hbefore)].
      * left. split; [done|]. intros y [->|Hy]%elem_of_cons; [done|by apply Hle].
      * right. exists (S i). split; [done|]. split; [done|]. split.
        -- intros [|j] y Hy; simpl in Hy.
           ++ injection Hy as <-. lra.
           ++ by eapply Hall.
        -- intros [|j] y Hj Hy; simpl in Hy.
           ++ injection Hy as <-. lra.
           ++ eapply Hbefore; [|done]. lia.
Qed.

Lemma py_max_spec (key : string → result pyval) (q : string → Q) items :
  items ≠ [] →
  (∀ x, x ∈ items → key x = inr (PFloat (Fin (q x)))) →
  ∃ b i, py_max items key = inr b
    ∧ items !! i = Some b
    ∧ (∀ j x, items !! j = Some x → (q x <= q b)%Q)
    ∧ (∀ j x, j < i → items !! j = Some x → (q x < q b)%Q).
Proof.
  destruct items as [|cur rest]; [done|]. intros _ Hkey.
  unfold py_max. rewrite (Hkey cur) by by left. simpl.
  destruct (max_loop_spec key q rest cur Hkey) as (b & Hb & Hspec).
  exists b. destruct Hspec as [[-> Hle]|(i & Hi & Hlt & Hall & Hbefore)].
  - exists 0. split; [done|]. split; [done|]. split.
    + intros [|j] y Hy; simpl in Hy.
      * injection Hy as <-. lra.
      * apply Hle. by eapply list_elem_of_lookup_2.
    + intros j y Hj. lia.
  - exists (S i). split; [done|]. split; [done|]. split.
    + intros [|j] y Hy; simpl in Hy.
      * injection Hy as <-. lra.
      * by eapply Hall.
    + intros [|j] y Hj Hy; simpl in Hy.
      * by injection Hy as <-.
      * eapply Hbefore; [|done]. lia.
Qed.

(** ** The comparator *)

Lemma assoc_set_fresh {K V} `{EqDecision K} (l : list (K * V)) k v :
  k ∉ map fst l → assoc_set l k v = l ++ [(k, v)].
Proof.
  induction l as [|[k' v'] l IH]; simpl; [done|].
  intros Hk. apply not_elem_of_cons in Hk as [Hne Hk].
  rewrite decide_False by done. by rewrite IH.
Qed.

Lemma foldl_set_fresh {V} (d : dict V) (names : list string) (ms : list V) :
  NoDup (keys d ++ names) →
  length names = length ms →
  foldl (λ d nm, dict_setitem d nm.1 nm.2) d (zip names ms) = d ++ zip names ms.
Proof.
  revert d ms. induction names as [|n names IH]; intros d [|m ms] Hnd Hlen; simpl in *;
    try done; [by rewrite app_nil_r|].
  unfold dict_setitem at 2. simpl.
  apply NoDup_app in Hnd as (Hd & Hdisj & Hnames).
  apply NoDup_cons in Hnames as [Hn Hnames].
  rewrite assoc_set_fresh by (intros Hin; apply (Hdisj n Hin); by left).
  rewrite IH; [by rewrite <- app_assoc| |lia].
  unfold keys. rewrite map_app. simpl. rewrite <- app_assoc. simpl.
  apply NoDup_app. split; [done|]. split; [|by apply NoDup_cons].
  intros x Hx [->|Hin]%elem_of_cons; [|by apply (Hdisj x Hx); right].
  apply (Hdisj n Hx). by left.
Qed.

Lemma assoc_lookup_zip {V} (names : list string) (ms : list V) i n m :
  NoDup names → names !! i = Some n → ms !! i = Some m →
  assoc_lookup (zip names ms) n = Some m.
Proof.
  revert ms i. induction names as [|n' names IH]; intros [|m' ms] [|i] Hnd Hn Hm;
    simpl in *; try done.
  - injection Hn as ->. injection Hm as ->. by rewrite decide_True.
  - apply NoDup_cons in Hnd as [Hn' Hnd].
    rewrite decide_False; [by eapply IH|].
    intros ->. apply Hn'. by eapply list_elem_of_lookup_2.
Qed.

Lemma compare_step_run (X_train X_valid : DataFrame) (y_train y_valid : list Z)
    name t (s : ModelComparator.t) (w : World) m :
  trainer_metrics X_train X_valid y_train y_valid t = inr m →
  ∃ w', ModelComparator.compare_step X_train X_valid y_train y_valid name t s w
        = (ModelComparator.mk (ModelComparator.evaluator s)
             (dict_setitem (ModelComparator.results s) name m), w', inr tt)
        ∧ frames w' = frames w ∧ files w' = files w.
Proof.
  unfold trainer_metrics, trainer_predictions. intros Hm.
  destruct (train t (model t) X_train y_train X_valid y_valid) as [?|fitted] eqn:Htrain;
    [done|].
  simpl in Hm. destruct (predict t fitted X_valid) as [?|preds] eqn:Hpred; [done|].
  simpl in Hm.
  destruct (evaluate_run y_valid preds (ModelComparator.evaluator s)
              (add_log (Log "INFO" "[Comparator] Training model: {}" [PStr name]) w) m Hm)
    as (cm & _ & Hev).
  unfold ModelComparator.compare_step, ModelComparator.on_evaluator. simpl.
  rewrite Htrain. simpl. rewrite Hpred. simpl. rewrite Hev. simpl.
  eexists. by split; [reflexivity|].
Qed.

Lemma compare_loop_run (X_train X_valid : DataFrame) (y_train y_valid : list Z)
    (items : dict BaseTrainer) (ms : list (dict pyval)) (s : ModelComparator.t) (w : World) :
  Forall2 (λ nt m, trainer_metrics X_train X_valid y_train y_valid nt.2 = inr m) items ms →
  ∃ w', ModelComparator.compare_loop items X_train X_valid y_train y_valid s w
        = (ModelComparator.mk (ModelComparator.evaluator s)
             (foldl (λ d nm, dict_setitem d nm.1 nm.2) (ModelComparator.results s)
                (zip (keys items) ms)), w', inr tt)
        ∧ frames w' = frames w ∧ files w' = files w.
Proof.
  intros HF. revert s w.
  induction HF as [|[name t] m items ms Hm _ IH]; intros s w.
  - exists w. by destruct s.
  - simpl in Hm.
    destruct (compare_step_run X_train X_valid y_train y_valid name t s w m Hm)
      as (w1 & Hstep & Hfr1 & Hfi1).
    destruct (IH (ModelComparator.mk (ModelComparator.evaluator s)
                    (dict_setitem (ModelComparator.results s) name m)) w1)
      as (w2 & Hloop & Hfr2 & Hfi2).
    exists w2. simpl. rewrite Hstep. simpl in *. rewrite Hloop.
    split; [done|]. split; congruence.
Qed.

Lemma trainer_metrics_f1 (X_train X_valid : DataFrame) (y_train y_valid : list Z) t m :
  trainer_metrics X_train X_valid y_train y_valid t = inr m →
  dict_getitem m "f1_score" = inr (PFloat (Fin (f1_of m))).
Proof.
  unfold trainer_metrics. destruct (trainer_predictions _ _ _ _ t) as [?|preds]; [done|].
  simpl. intros Hm.
  by destruct (metrics_dict_shape _ _ _ Hm) as (acc & prec & rec & f1 & -> & _).
Qed.

(** C5 (amended): on a new comparator, which holds no result of an earlier
    call, and a non-empty mapping of trainers with distinct names, each of
    which trains, predicts and is evaluated without raising, [compare]
    returns a name of the mapping with its evaluation; no entry has a
    greater F1 score, and every entry before it in the order of the mapping
    has a smaller one: the first of the entries of maximal F1 is selected.
    For A, B and C with the scores 0.80, 0.90 and 0.90 it returns B. *)
Theorem compare_selects_first_max
    (trainers : dict BaseTrainer) (X_train X_valid : DataFrame) (y_train y_valid : list Z)
    (w : World) (ms : list (dict pyval)) :
  NoDup (keys trainers) →
  trainers ≠ [] →
  Forall2 (λ nt m, trainer_metrics X_train X_valid y_train y_valid nt.2 = inr m) trainers ms →
  ∃ w' i name t m,
    ModelComparator.compare trainers X_train X_valid y_train y_valid
      ModelComparator.__init__ w
    = (ModelComparator.mk ModelEvaluator.__init__ (zip (keys trainers) ms), w', inr (name, m))
    ∧ trainers !! i = Some (name, t)
    ∧ ms !! i = Some m
    ∧ (∀ j m', ms !! j = Some m' → (f1_of m' <= f1_of m)%Q)
    ∧ (∀ j m', j < i → ms !! j = Some m' → (f1_of m' < f1_of m)%Q)
    ∧ Forall2 Qeq (map f1_of metrics_ABC) [0.80; 0.90; 0.90]%Q
    ∧ rbind (ModelComparator.compare trainers_ABC [] [] [] y_valid_33
                 ModelComparator.__init__ (world_of [])).2
        (λ best, inr best.1)
      = inr "B".
Proof.
  intros Hnd Hne HF.
  assert (Forall2 Qeq (map f1_of metrics_ABC) [0.80; 0.90; 0.90]%Q
          ∧ rbind (ModelComparator.compare trainers_ABC [] [] [] y_valid_33
                       ModelComparator.__init__ (world_of [])).2
              (λ best, inr best.1)
            = inr "B") as Hexample.
  { split; [by repeat constructor|vm_compute; reflexivity]. }
  pose proof (Forall2_length _ _ _ HF) as Hlen.
  assert (length (keys trainers) = length ms) as Hlen'
    by (unfold keys; by rewrite length_map).
  destruct (compare_loop_run X_train X_valid y_train y_valid trainers ms
              ModelComparator.__init__ w HF) as (w1 & Hloop & _ & _).
  simpl in Hloop. rewrite foldl_set_fresh in Hloop by done. simpl in Hloop.
  set (res := zip (keys trainers) ms) in *.
  set (self := ModelComparator.mk ModelEvaluator.__init__ res).
  assert (keys res = keys trainers) as Hkeys.
  { unfold res, keys at 1. apply fst_zip. lia. }
  set (q := λ name, f1_of (default [] (assoc_lookup res name))).
  assert (∀ j name m', keys trainers !! j = Some name → ms !! j = Some m' →
            assoc_lookup res name = Some m'
            ∧ ModelComparator.f1_key self name = inr (PFloat (Fin (q name)))
            ∧ q name = f1_of m') as Hentry.
  { intros j name m' Hname Hm'.
    pose proof (assoc_lookup_zip _ _ _ _ _ Hnd Hname Hm') as Hl.
    change (assoc_lookup res name = Some m') in Hl.
    split; [done|]. unfold ModelComparator.f1_key, dict_getitem at 1, q. simpl.
    rewrite Hl. simpl.
    unfold keys in Hname. rewrite list_lookup_fmap in Hname.
    destruct (trainers !! j) as [[n t]|] eqn:Ht; [|done].
    destruct (Forall2_lookup_l _ _ _ _ _ HF Ht) as (m'' & Hm'' & Hmet).
    assert (m'' = m') as -> by congruence. simpl in Hmet.
    by rewrite (trainer_metrics_f1 _ _ _ _ _ _ Hmet). }
  destruct (py_max_spec (ModelComparator.f1_key self) q (keys res))
    as (b & i & Hmax & Hi & Hall & Hbefore).
  { rewrite Hkeys. destruct trainers; [done|]. done. }
  { intros x Hx. rewrite Hkeys in Hx.
    apply list_elem_of_lookup in Hx as (j & Hj).
    destruct (lookup_lt_is_Some_2 ms j) as (m' & Hm').
    { rewrite <- Hlen'. by eapply lookup_lt_Some. }
    by destruct (Hentry j x m' Hj Hm') as (_ & ? & _). }
  rewrite Hkeys in Hi, Hall, Hbefore.
  destruct (lookup_lt_is_Some_2 ms i) as (m & Hm).
  { rewrite <- Hlen'. by eapply lookup_lt_Some. }
  destruct (Hentry i b m Hi Hm) as (Hlb & _ & Hqb).
  assert (∃ t, trainers !! i = Some (b, t)) as (t & Ht).
  { unfold keys in Hi. rewrite list_lookup_fmap in Hi.
    destruct (trainers !! i) as [[n t]|]; [|done]. injection Hi as ->. by exists t. }
  assert (dict_getitem m "f1_score" = inr (PFloat (Fin (f1_of m)))) as Hf1.
  { destruct (Forall2_lookup_l _ _ _ _ _ HF Ht) as (m'' & Hm'' & Hmet).
    assert (m'' = m) as -> by congruence. by eapply trainer_metrics_f1. }
  destruct Hexample as [Hf1s HB].
  eexists _, i, b, t, m. split_and!; [| | | | |exact Hf1s|exact HB].
  - unfold ModelComparator.compare. simpl. rewrite Hloop. simpl.
    fold self. rewrite Hmax. simpl. unfold dict_getitem at 1. fold res. rewrite Hlb.
    simpl. rewrite Hf1. simpl. reflexivity.
  - done.
  - done.
  - intros j m' Hm'.
    destruct (lookup_lt_is_Some_2 (keys trainers) j) as (x & Hx).
    { rewrite Hlen'. by eapply lookup_lt_Some. }
    destruct (Hentry j x m' Hx Hm') as (_ & _ & <-). rewrite <- Hqb. by eapply Hall.
  - intros j m' Hj Hm'.
    destruct (lookup_lt_is_Some_2 (keys trainers) j) as (x & Hx).
    { rewrite Hlen'. by eapply lookup_lt_Some. }
    destruct (Hentry j x m' Hx Hm') as (_ & _ & <-). rewrite <- Hqb. by eapply Hbefore.
Qed.

Lemma compare_selects_first_max_witness :
  ∃ w' i name t m,
    ModelComparator.compare trainers_ABC [] [] [] y_valid_33
      ModelComparator.__init__ (world_of [])
    = (ModelComparator.mk ModelEvaluator.__init__ (zip (keys trainers_ABC) metrics_ABC),
       w', inr (name, m))
    ∧ trainers_ABC !! i = Some (name, t)
    ∧ metrics_ABC !! i = Some m
    ∧ (∀ j m', metrics_ABC !! j = Some m' → (f1_of m' <= f1_of m)%Q)
    ∧ (∀ j m', j < i → metrics_ABC !! j = Some m' → (f1_of m' < f1_of m)%Q)
    ∧ Forall2 Qeq (map f1_of metrics_ABC) [0.80; 0.90; 0.90]%Q
    ∧ rbind (ModelComparator.compare trainers_ABC [] [] [] y_valid_33
                 ModelComparator.__init__ (world_of [])).2
        (λ best, inr best.1)
      = inr "B".
Proof.
  apply (compare_selects_first_max trainers_ABC [] [] [] y_valid_33 (world_of []) metrics_ABC).
  - by apply (bool_decide_unpack _); vm_compute.
  - discriminate.
  - repeat constructor; vm_compute; reflexivity.
Defined.

(** C5, as the specification words it, fails on a comparator that has
    compared before: the results of the earlier calls stay in it, and
    [compare] selects among all of them.  After a call with a trainer Z
    that predicts every label right, the call with A, B and C returns Z,
    which is not in the mapping, and not B. *)
Lemma compare_returns_earlier_model :
  Forall2 Qeq (map f1_of metrics_ABC) [0.80; 0.90; 0.90]%Q
  ∧ ("Z" ∉ keys trainers_ABC)
  ∧ rbind (ModelComparator.compare trainers_ABC [] [] [] y_valid_33
             (ModelComparator.compare [("Z", fixed_trainer "Z" y_valid_33)] [] [] []
                y_valid_33 ModelComparator.__init__ (world_of [])).1.1
             (world_of [])).2
      (λ best, inr best.1)
    = inr "Z".
Proof.
  split_and!.
  - by repeat constructor.
  - unfold keys. simpl. rewrite !elem_of_cons, elem_of_nil. by intros [[=]|[[=]|[[=]|[]]]].
  - vm_compute. reflexivity.
Qed.

(** C7, as the specification words it, fails twice.  On a new comparator,
    [compare] with an empty mapping raises the [ValueError] of [max], not an
    [EmptyTrainerSetError]; on the comparator that has compared A, B and C,
    it raises nothing and returns B again, from the results it kept. *)
Lemma compare_empty_mapping :
  (ModelComparator.compare [] [] [] [] y_valid_33 ModelComparator.__init__ (world_of [])).2
  = inl (ValueError "max() arg is an empty sequence")
  ∧ ¬ raises (ModelComparator.compare [] [] [] [] y_valid_33 ModelComparator.__init__
                (world_of [])).2 "EmptyTrainerSetError"
  ∧ rbind (ModelComparator.compare [] [] [] [] y_valid_33
               (ModelComparator.compare trainers_ABC [] [] [] y_valid_33
                  ModelComparator.__init__ (world_of [])).1.1
               (world_of [])).2
      (λ best, inr best.1)
    = inr "B".
Proof.
  split_and!; try (vm_compute; reflexivity).
  intros (e & He & Hcls). vm_compute in He. injection He as <-. discriminate Hcls.
Qed.

(** C7 (amended): on a comparator that holds no result, as [__init__] leaves
    it, [compare] with an empty mapping raises the [ValueError] of [max] on
    an empty sequence, and changes nothing. *)
Theorem compare_empty_raises_ValueError
    (ev : ModelEvaluator.t) (X_train X_valid : DataFrame) (y_train y_valid : list Z)
    (w : World) :
  ModelComparator.compare [] X_train X_valid y_train y_valid (ModelComparator.mk ev []) w
  = (ModelComparator.mk ev [], w, inl (ValueError "max() arg is an empty sequence")).
Proof. reflexivity. Qed.

(** * Further properties of the preprocessors *)

(** ** The feature columns picked by [fit] *)

Lemma list_remove_cons (x y : label) (l : list label) :
  list_remove x (y :: l) = if decide (y = x) then l else y :: list_remove x l.
Proof. reflexivity. Qed.

Lemma list_remove_NoDup (x : label) (l : list label) :
  NoDup l → ∀ y, y ∈ list_remove x l ↔ y ≠ x ∧ y ∈ l.
Proof.
  induction 1 as [|z l Hz Hnd IH]; intros y.
  - change (list_remove x []) with (@nil label). set_solver.
  - rewrite list_remove_cons. case_decide as Hzx.
    + subst z. rewrite elem_of_cons. split.
      * intros Hy. split; [by intros ->|by right].
      * by intros [Hne [->|Hy]].
    + rewrite !elem_of_cons, IH. split.
      * intros [->|[Hne Hy]]; split; auto.
      * intros [Hne [->|Hy]]; auto.
Qed.

Lemma assoc_set_keys {K V} `{EqDecision K} (l : list (K * V)) k v :
  k ∈ map fst l → map fst (assoc_set l k v) = map fst l.
Proof.
  induction l as [|[k' v'] l IH]; simpl; [by intros ?%elem_of_nil|].
  intros Hk. case_decide as Hkk; simpl; [done|].
  f_equal. apply IH. apply elem_of_cons in Hk as [->|Hk]; done.
Qed.

Lemma assoc_set_keys_NoDup {K V} `{EqDecision K} (l : list (K * V)) k v :
  NoDup (map fst l) → NoDup (map fst (assoc_set l k v)).
Proof.
  intros Hnd. destruct (decide (k ∈ map fst l)) as [Hk|Hk].
  - by rewrite assoc_set_keys.
  - rewrite assoc_set_fresh by done. rewrite map_app. simpl.
    apply NoDup_app. split; [done|]. split; [|apply NoDup_singleton].
    intros x Hx ->%list_elem_of_singleton. done.
Qed.

Lemma derived_columns_NoDup D D' :
  with_derived_features D = inr D' → NoDup (columns D) → NoDup (columns D').
Proof.
  unfold with_derived_features, set_BMI, set_Age_Group, df_setitem, columns.
  intros Hd Hnd.
  destruct (df_getitem D "Weight"); [done|]. simpl in Hd.
  destruct (df_getitem D "Height") as [?|ht]; [done|]. simpl in Hd.
  destruct (series_pow2 ht); [done|]. simpl in Hd.
  destruct (series_truediv _ _) as [?|bmi]; [done|]. simpl in Hd.
  destruct (df_getitem _ "Age") as [?|age]; [done|]. simpl in Hd.
  destruct (pd_cut age) as [?|group]; [done|]. simpl in Hd.
  injection Hd as <-. by do 2 apply assoc_set_keys_NoDup.
Qed.

Lemma select_number_elem df c :
  c ∈ select_number df ↔ ∃ s, (c, s) ∈ df ∧ is_number s = true.
Proof.
  unfold select_number, columns. rewrite list_elem_of_fmap. split.
  - intros ([c' s] & -> & Hin%list_elem_of_filter). simpl in *. exists s. naive_solver.
  - intros (s & Hin & Hs). exists (c, s). split; [done|]. by apply list_elem_of_filter.
Qed.

Lemma select_not_number_elem df c :
  c ∈ select_not_number df ↔ ∃ s, (c, s) ∈ df ∧ is_number s = false.
Proof.
  unfold select_not_number, columns. rewrite list_elem_of_fmap. split.
  - intros ([c' s] & -> & Hin%list_elem_of_filter). simpl in *. exists s. naive_solver.
  - intros (s & Hin & Hs). exists (c, s). split; [done|]. by apply list_elem_of_filter.
Qed.

Lemma filter_columns_NoDup (P : label * Series → Prop) `{∀ c, Decision (P c)} (df : DataFrame) :
  NoDup (columns df) → NoDup (columns (filter P df)).
Proof.
  unfold columns. induction df as [|c df IH]; simpl; [done|].
  intros [Hc Hnd]%NoDup_cons. rewrite filter_cons. case_decide; simpl; [|by apply IH].
  apply NoDup_cons. split; [|by apply IH].
  intros (c' & Heq & Hin%list_elem_of_filter)%list_elem_of_fmap.
  apply Hc. apply list_elem_of_fmap. exists c'. naive_solver.
Qed.

(** X1: [fit] never takes the label column as a feature.  After a
    successful [fit] on a table whose column labels are distinct, the
    columns the pipeline scales are the numeric columns of the table as
    [fit] left it (BMI included), the label column apart, and the columns
    it encodes are the other columns (Age_Group included), the label column
    apart. *)
Theorem fit_excludes_target_column
    (data : loc) (self st : TrainPreprocessor.t) (w w1 : World) (D : DataFrame) :
  frames w !! data = Some D →
  NoDup (columns D) →
  TrainPreprocessor.fit data self w = (st, w1, inr tt) →
  ∃ ct D',
    TrainPreprocessor.pipeline st = Some ct
    ∧ frames w1 !! data = Some D'
    ∧ (∀ c, c ∈ ColumnTransformer.num_cols ct ↔
            c ≠ LStr (target_column (settings w)) ∧ ∃ s, (c, s) ∈ D' ∧ is_number s = true)
    ∧ (∀ c, c ∈ ColumnTransformer.cat_cols ct ↔
            c ≠ LStr (target_column (settings w)) ∧ ∃ s, (c, s) ∈ D' ∧ is_number s = false)
    ∧ LStr (target_column (settings w))
      ∉ ColumnTransformer.num_cols ct ++ ColumnTransformer.cat_cols ct.
Proof.
  intros HD Hnd Hfit.
  destruct (fit_success_inv _ _ _ _ _ _ HD Hfit)
    as (D' & ct & names & Hd & Hfr & _ & _ & Hct & Hnames & ->).
  destruct (ct_fit_inv _ _ _ _ Hct) as (xnum & xcat & numf & catf & _ & _ & _ & -> & _).
  pose proof (derived_columns_NoDup _ _ Hd Hnd) as Hnd'.
  assert (∀ c, c ∈ numeric_cols (settings w) D' ↔
            c ≠ LStr (target_column (settings w)) ∧ ∃ s, (c, s) ∈ D' ∧ is_number s = true)
    as Hnum.
  { intros c. unfold numeric_cols. rewrite list_remove_NoDup, select_number_elem; [done|].
    by apply filter_columns_NoDup. }
  assert (∀ c, c ∈ categorical_cols (settings w) D' ↔
            c ≠ LStr (target_column (settings w)) ∧ ∃ s, (c, s) ∈ D' ∧ is_number s = false)
    as Hcat.
  { intros c. unfold categorical_cols.
    rewrite list_remove_NoDup, select_not_number_elem; [done|].
    by apply filter_columns_NoDup. }
  exists (ColumnTransformer.mk (numeric_cols (settings w) D') (categorical_cols (settings w) D')
            (Some (numf, catf))), D'.
  split_and!; simpl; try done.
  - rewrite Hfr. apply list_lookup_insert_eq. by eapply lookup_lt_Some.
  - rewrite elem_of_app, Hnum, Hcat. naive_solver.
Qed.

Lemma fit_excludes_target_column_witness :
  ∃ ct D',
    TrainPreprocessor.pipeline scenario_preprocessor = Some ct
    ∧ frames scenario_world !! 0 = Some D'
    ∧ (∀ c, c ∈ ColumnTransformer.num_cols ct ↔
            c ≠ LStr (target_column (settings (world_of [scenario_table])))
            ∧ ∃ s, (c, s) ∈ D' ∧ is_number s = true)
    ∧ (∀ c, c ∈ ColumnTransformer.cat_cols ct ↔
            c ≠ LStr (target_column (settings (world_of [scenario_table])))
            ∧ ∃ s, (c, s) ∈ D' ∧ is_number s = false)
    ∧ LStr (target_column (settings (world_of [scenario_table])))
      ∉ ColumnTransformer.num_cols ct ++ ColumnTransformer.cat_cols ct.
Proof.
  apply (fit_excludes_target_column 0 TrainPreprocessor.__init__ scenario_preprocessor
           (world_of [scenario_table]) scenario_world scenario_table).
  - reflexivity.
  - by apply (bool_decide_unpack _); vm_compute.
  - vm_compute. reflexivity.
Defined.

(** ** Fitting again *)

(** X2: fitting is repeatable on the table it updated.  After a successful
    [fit], a second [fit] on the same table object, by whatever
    preprocessor, succeeds, learns the same pipeline and feature names,
    and leaves the table and the files as they were. *)
Theorem fit_again_same_pipeline
    (data : loc) (self self2 st : TrainPreprocessor.t) (w w1 : World) (D : DataFrame) :
  frames w !! data = Some D →
  TrainPreprocessor.fit data self w = (st, w1, inr tt) →
  ∃ w2, TrainPreprocessor.fit data self2 w1 = (st, w2, inr tt)
        ∧ frames w2 = frames w1 ∧ files w2 = files w1.
Proof.
  intros HD Hfit.
  destruct (fit_success_inv _ _ _ _ _ _ HD Hfit)
    as (D' & ct & names & Hd & Hfr & Hfi & Hse & Hct & Hnames & ->).
  assert (frames w1 !! data = Some D') as HD'.
  { rewrite Hfr. apply list_lookup_insert_eq. by eapply lookup_lt_Some. }
  pose proof (with_derived_features_idem D D' Hd) as Hidem.
  destruct (fit_run data self2 w1 D' D' HD' Hidem) as (w2 & Hfr2 & Hfi2 & _ & Hrun).
  rewrite Hse, Hct, Hnames in Hrun.
  exists w2. split; [done|]. split; [|done].
  rewrite Hfr2. by apply list_insert_id.
Qed.

Lemma fit_again_same_pipeline_witness :
  ∃ w2, TrainPreprocessor.fit 0 TrainPreprocessor.__init__ scenario_world
        = (scenario_preprocessor, w2, inr tt)
        ∧ frames w2 = frames scenario_world ∧ files w2 = files scenario_world.
Proof.
  apply (fit_again_same_pipeline 0 TrainPreprocessor.__init__ TrainPreprocessor.__init__
           scenario_preprocessor (world_of [scenario_table]) scenario_world scenario_table).
  - reflexivity.
  - vm_compute. reflexivity.
Defined.

(** ** The array [transform] computes *)

(** What [transform] computes after a successful [fit], for a table with
    the fit-time schema: the array of the scaled numeric columns followed
    by the indicator blocks, as a new table; the fitted preprocessor, one
    that loaded its pipeline and an InferencePreprocessor that loaded it
    compute the same array. *)
Lemma transform_fitted_array
    (data : loc) (self st : TrainPreprocessor.t) (w w1 : World) (D D' : DataFrame)
    (l : loc) (wa : World) (A : DataFrame) :
  frames w !! data = Some D →
  TrainPreprocessor.fit data self w = (st, w1, inr tt) →
  frames w1 !! data = Some D' →
  frames wa !! l = Some A →
  same_schema A D ∨ same_schema A D' →
  finite_table A →
  let num := numeric_cols (settings w) D' in
  let cat := categorical_cols (settings w) D' in
  ∃ A' numf enc xnum xcat xcatD names,
    let arr := scaled_columns numf xnum ++ concat (encoded_blocks (Some enc) xcat) in
    with_derived_features A = inr A'
    ∧ with_derived_features D = inr D'
    ∧ same_schema A' D'
    ∧ st = TrainPreprocessor.mk true
             (Some (ColumnTransformer.mk num cat (Some (numf, Some enc))))
             (Some (num ++ names))
    ∧ ColumnTransformer.select A' num = inr xnum
    ∧ ColumnTransformer.select A' cat = inr xcat
    ∧ ColumnTransformer.select D' cat = inr xcatD
    ∧ Forall (λ s, is_number s = false) xcat
    ∧ OneHotEncoder.categories_ enc = map OneHotEncoder.unique (map str_values xcatD)
    ∧ length (scaled_columns numf xnum) = length num
    ∧ length arr = length (num ++ names)
    ∧ (∀ fn, (∀ ls, fn = Some ls → length ls = length (num ++ names)) →
         ∃ wa',
           TrainPreprocessor.transform l
             (TrainPreprocessor.mk true (TrainPreprocessor.pipeline st) fn) wa
           = (TrainPreprocessor.mk true (TrainPreprocessor.pipeline st) fn, wa',
              inr (length (frames wa)))
           ∧ frames wa'
             = <[l := A']> (frames wa)
               ++ [zip (output_labels fn (length (num ++ names))) (map SFloat arr)]
           ∧ files wa' = files wa)
    ∧ (∀ path,
         ∃ wa',
           InferencePreprocessor.transform l
             (InferencePreprocessor.mk true (TrainPreprocessor.pipeline st) path) wa
           = (InferencePreprocessor.mk true (TrainPreprocessor.pipeline st) path, wa',
              inr (length (frames wa)))
           ∧ frames wa'
             = <[l := A']> (frames wa)
               ++ [zip (range_labels (length (num ++ names))) (map SFloat arr)]
           ∧ files wa' = files wa).
Proof.
  intros HD Hfit HD' HA Hsch Hfin num cat.
  destruct (fit_success_inv _ _ _ _ _ _ HD Hfit)
    as (D'' & ct & names & Hd & Hfr & _ & _ & Hct & Hnames & ->).
  assert (D'' = D') as ->.
  { rewrite Hfr in HD'. rewrite list_lookup_insert_eq in HD' by by eapply lookup_lt_Some.
    congruence. }
  fold num cat in Hct, Hnames |- *.
  destruct (schema_after_fit D D' A Hd Hsch) as (A' & HA' & HschA).
  destruct (finite_table_derived A A' Hfin HA') as [Hinf Hne].
  assert (∀ xnum, ColumnTransformer.select A' num = inr xnum →
            Forall (λ s, has_infinity s = false ∧ series_len s ≠ 0) xnum) as Hnum.
  { intros xnum Hs. apply Forall_and. split.
    - by eapply (select_elem A' _ xnum (λ s, has_infinity s = false)).
    - by eapply (select_elem A' _ xnum (λ s, series_len s ≠ 0)). }
  assert (∀ xcat, ColumnTransformer.select A' cat = inr xcat →
            Forall (λ s, series_len s ≠ 0) xcat) as Hcat.
  { intros xcat Hs. by eapply (select_elem A' _ xcat (λ s, series_len s ≠ 0)). }
  destruct (ct_transform_selected _ _ _ _ _ _ Hct Hnames HschA Hnum Hcat)
    as (xnum & xcat & numf & enc & Hcteq & Hlcats & Hsn & Hsc & Ht & Hlen).
  destruct (ct_fit_inv _ _ _ _ Hct)
    as (xnumD & xcatD & numf' & catf & _ & HsnD & HscD & Hcteq' & Hnumf & Hcatf).
  rewrite Hcteq in Hcteq'. injection Hcteq' as <- <-.
  destruct (encoder_fit_inv _ _ _ Hcatf) as [Henc HcatD].
  destruct (select_same_schema A' D' cat xcatD HschA HscD) as (xcat' & Hsc' & Hdc).
  assert (xcat' = xcat) as -> by congruence.
  assert (length xcat = length cat) as Hlxcat
    by (symmetry; eapply Forall2_length, select_spec; done).
  assert (length (concat (encoded_blocks (Some enc) xcat)) = length names) as Hlb.
  { unfold encoded_blocks.
    rewrite encoded_length by (rewrite length_map; congruence).
    unfold ColumnTransformer.cat_feature_names_out in Hnames. rewrite Hcteq in Hnames.
    simpl in Hnames. symmetry.
    eapply feature_names_out_length; [done|].
    pose proof (feature_names_out_input _ _ _ Hnames) as Hin.
    rewrite Hlcats.
    transitivity (length (map LStr (OneHotEncoder.feature_names_in_ enc)));
      [by rewrite length_map|by rewrite <- Hin]. }
  exists A', numf, enc, xnum, xcat, xcatD, names. simpl.
  split_and!; try done.
  - by rewrite Hcteq.
  - by eapply Forall2_dtype_number.
  - by rewrite Henc.
  - rewrite length_app in Hlen. rewrite length_app in Hlen. lia.
  - intros fn Hfn. rewrite Hcteq. simpl.
    destruct (train_transform_run l
                (TrainPreprocessor.mk true
                   (Some (ColumnTransformer.mk num cat (Some (numf, Some enc)))) fn)
                wa A A' _ eq_refl eq_refl HA HA') as (wa' & Hfi & _ & Hrun).
    rewrite <- Hcteq in Hrun. rewrite Ht in Hrun. unfold rbind in Hrun.
    cbv beta iota in Hrun. cbn [TrainPreprocessor.feature_names] in Hrun.
    destruct (pd_DataFrame_labels _ fn _ (eq_sym Hlen) Hfn) as [Hdf _].
    rewrite Hdf in Hrun. destruct Hrun as [Hrun Hfra].
    exists wa'. rewrite <- Hcteq. done.
  - intros path. rewrite Hcteq. simpl.
    destruct (inference_transform_run l
                (InferencePreprocessor.mk true
                   (Some (ColumnTransformer.mk num cat (Some (numf, Some enc)))) path)
                wa A A' _ eq_refl eq_refl HA HA') as (wa' & Hfi & _ & Hrun).
    rewrite <- Hcteq in Hrun. rewrite Ht in Hrun. unfold rbind in Hrun. cbv beta iota in Hrun.
    destruct (pd_DataFrame_labels _ None _ (eq_sym Hlen)) as [Hdf _]; [done|].
    rewrite Hdf in Hrun. destruct Hrun as [Hrun Hfra].
    exists wa'. rewrite <- Hcteq. done.
Qed.

Lemma Forall_zip_with_l {A B C} (P : A → Prop) (Q : C → Prop) (f : A → B → C)
    (l : list A) (k : list B) :
  Forall P l → (∀ x y, P x → Q (f x y)) → Forall Q (zip_with f l k).
Proof.
  intros Hl Hf. revert k. induction Hl as [|x l Hx Hl IH]; intros [|y k]; simpl;
    constructor; auto.
Qed.

Lemma scaled_columns_rows numf xnum n :
  Forall (λ s, series_len s = n) xnum →
  Forall (λ xs, length xs = n) (scaled_columns numf xnum).
Proof.
  intros Hn. destruct numf as [sc|]; simpl; [|done].
  apply (Forall_zip_with_l (λ xs, length xs = n)).
  - induction Hn as [|s xnum Hs Hn IH]; csimpl; [done|].
    destruct (to_floats s) as [xs|] eqn:Hxs; [|done].
    constructor; [|done]. rewrite (to_floats_length _ _ Hxs). done.
  - intros xs ms <-. unfold StandardScaler.scale_column. by rewrite length_map.
Qed.

Lemma encoded_blocks_rows enc xcat n :
  Forall (λ s, is_number s = false ∧ series_len s = n) xcat →
  Forall (λ ys, length ys = n) (concat (encoded_blocks (Some enc) xcat)).
Proof.
  intros Hn. apply Forall_concat. simpl.
  apply (Forall_zip_with_l (λ xs, length xs = n)).
  - apply Forall_fmap. eapply Forall_impl; [done|].
    intros s [Hs <-]. simpl. by destruct s.
  - intros xs cats <-. unfold OneHotEncoder.encode_column.
    apply Forall_fmap, Forall_forall. intros c _. simpl. by rewrite length_map.
Qed.

Lemma zip_SFloat_rows (ls : list label) (arr : ndarray) n :
  Forall (λ xs, length xs = n) arr →
  Forall (λ c : label * Series, series_len c.2 = n) (zip ls (map SFloat arr)).
Proof.
  intros Harr. revert ls. induction Harr as [|xs arr Hxs Harr IH]; intros [|l ls]; simpl;
    constructor; auto.
Qed.

(** X3: [transform] returns one row per row of its input.  After a
    successful [fit], for a table with the fit-time schema, at least one row
    and no infinite value, every column of the table that the fitted
    preprocessor returns, and of the table that an InferencePreprocessor
    holding its pipeline returns, has as many rows as the input table. *)
Theorem transform_keeps_row_count
    (data : loc) (self st : TrainPreprocessor.t) (w w1 : World) (D D' : DataFrame)
    (l : loc) (wa : World) (A : DataFrame) (path : string) :
  frames w !! data = Some D →
  TrainPreprocessor.fit data self w = (st, w1, inr tt) →
  frames w1 !! data = Some D' →
  frames wa !! l = Some A →
  same_schema A D ∨ same_schema A D' →
  finite_table A →
  ∃ wt wi out out',
    TrainPreprocessor.transform l st wa = (st, wt, inr (length (frames wa)))
    ∧ frames wt !! length (frames wa) = Some out
    ∧ Forall (λ c, series_len c.2 = n_rows A) out
    ∧ InferencePreprocessor.transform l
        (InferencePreprocessor.mk true (TrainPreprocessor.pipeline st) path) wa
      = (InferencePreprocessor.mk true (TrainPreprocessor.pipeline st) path, wi,
         inr (length (frames wa)))
    ∧ frames wi !! length (frames wa) = Some out'
    ∧ Forall (λ c, series_len c.2 = n_rows A) out'.
Proof.
  intros HD Hfit HD' HA Hsch Hfin.
  destruct (transform_fitted_array _ _ _ _ _ _ _ _ _ _ HD Hfit HD' HA Hsch Hfin)
    as (A' & numf & enc & xnum & xcat & xcatD & names & HA' & Hd & HschA & Hst & Hsn & Hsc
        & HscD & Hxcat & Hcats & Hlsc & Hlen & Htrain & Hinf).
  destruct Hfin as ([_ Hwf] & _ & _).
  pose proof (derived_lengths _ _ _ Hwf HA') as Hrows.
  assert (Forall (λ xs, length xs = n_rows A)
            (scaled_columns numf xnum ++ concat (encoded_blocks (Some enc) xcat))) as Harr.
  { apply Forall_app. split.
    - apply scaled_columns_rows.
      by eapply (select_elem A' _ xnum (λ s, series_len s = n_rows A)).
    - apply encoded_blocks_rows, Forall_and. split; [done|].
      by eapply (select_elem A' _ xcat (λ s, series_len s = n_rows A)). }
  destruct (Htrain (Some (numeric_cols (settings w) D' ++ names)))
    as (wt & Ht & Hfrt & _); [by intros ls [= <-]|].
  destruct (Hinf path) as (wi & Hi & Hfri & _).
  assert (TrainPreprocessor.mk true (TrainPreprocessor.pipeline st)
            (Some (numeric_cols (settings w) D' ++ names)) = st) as Hst'
    by (by rewrite Hst).
  rewrite Hst' in Ht.
  eexists wt, wi, _, _. split_and!.
  - exact Ht.
  - rewrite Hfrt. apply list_lookup_middle. by rewrite length_insert.
  - by apply zip_SFloat_rows.
  - exact Hi.
  - rewrite Hfri. apply list_lookup_middle. by rewrite length_insert.
  - by apply zip_SFloat_rows.
Qed.

Lemma transform_keeps_row_count_witness :
  ∃ wt wi out out',
    TrainPreprocessor.transform 0 scenario_preprocessor (world_of [single_row_table])
    = (scenario_preprocessor, wt, inr (length (frames (world_of [single_row_table]))))
    ∧ frames wt !! length (frames (world_of [single_row_table])) = Some out
    ∧ Forall (λ c, series_len c.2 = n_rows single_row_table) out
    ∧ InferencePreprocessor.transform 0
        (InferencePreprocessor.mk true (TrainPreprocessor.pipeline scenario_preprocessor)
           scenario_path)
        (world_of [single_row_table])
      = (InferencePreprocessor.mk true (TrainPreprocessor.pipeline scenario_preprocessor)
           scenario_path, wi,
         inr (length (frames (world_of [single_row_table]))))
    ∧ frames wi !! length (frames (world_of [single_row_table])) = Some out'
    ∧ Forall (λ c, series_len c.2 = n_rows single_row_table) out'.
Proof.
  apply (transform_keeps_row_count 0 TrainPreprocessor.__init__ scenario_preprocessor
           (world_of [scenario_table]) scenario_world scenario_table scenario_table_fitted
           0 (world_of [single_row_table]) single_row_table scenario_path).
  - reflexivity.
  - vm_compute. reflexivity.
  - vm_compute. reflexivity.
  - reflexivity.
  - left. repeat constructor.
  - solve_finite_table.
Defined.

(** ** The order of the categories *)

Lemma ascii_compare_refl (a : ascii) : Ascii.compare a a = Eq.
Proof. unfold Ascii.compare. apply N.compare_refl. Qed.

Lemma string_compare_refl (s : string) : String.compare s s = Eq.
Proof. induction s as [|a s IH]; simpl; [done|]. by rewrite ascii_compare_refl. Qed.

Lemma string_compare_lt_trans (s1 s2 s3 : string) :
  String.compare s1 s2 = Lt → String.compare s2 s3 = Lt → String.compare s1 s3 = Lt.
Proof.
  revert s2 s3. induction s1 as [|a s1 IH]; intros [|b s2] [|c s3]; simpl; try done.
  unfold Ascii.compare.
  destruct (N.compare_spec (N_of_ascii a) (N_of_ascii b)) as [Hab|Hab|Hab];
    destruct (N.compare_spec (N_of_ascii b) (N_of_ascii c)) as [Hbc|Hbc|Hbc];
    try done; intros H12 H23.
  - rewrite Hab, Hbc, N.compare_refl. by eapply IH.
  - rewrite Hab. by apply N.compare_lt_iff in Hbc as ->.
  - rewrite <- Hbc. by apply N.compare_lt_iff in Hab as ->.
  - assert (N_of_ascii a < N_of_ascii c)%N as Hac by lia.
    by apply N.compare_lt_iff in Hac as ->.
Qed.

Lemma string_ltb_trans (s1 s2 s3 : string) :
  String.ltb s1 s2 = true → String.ltb s2 s3 = true → String.ltb s1 s3 = true.
Proof.
  unfold String.ltb. intros H12 H23.
  destruct (String.compare s1 s2) eqn:E12; try done.
  destruct (String.compare s2 s3) eqn:E23; try done.
  by rewrite (string_compare_lt_trans _ _ _ E12 E23).
Qed.

Lemma string_ltb_irrefl (s : string) : String.ltb s s = false.
Proof. unfold String.ltb. by rewrite string_compare_refl. Qed.

Lemma string_ltb_total (s x : string) :
  String.eqb s x = false → String.ltb s x = false → String.ltb x s = true.
Proof.
  unfold String.ltb. intros Hne%String.eqb_neq Hlt. rewrite String.compare_antisym.
  destruct (String.compare s x) eqn:E; try done.
  by apply String.compare_eq_iff in E.
Qed.

Lemma insert_unique_increasing (s : string) (l : list string) :
  increasing string_lt l → increasing string_lt (OneHotEncoder.insert_unique s l).
Proof.
  induction l as [|x r IH]; simpl; [done|]. intros [Hx Hr].
  destruct (String.eqb s x) eqn:Heq; [done|].
  destruct (String.ltb s x) eqn:Hlt; simpl.
  - split; [|done]. constructor; [done|].
    eapply Forall_impl; [done|]. intros y Hy. by eapply string_ltb_trans.
  - split; [|by apply IH]. apply Forall_forall. intros y Hy.
    apply insert_unique_elem in Hy as [->|Hy].
    + by apply string_ltb_total.
    + by eapply Forall_forall in Hx.
Qed.

Lemma increasing_NoDup {A} (lt : A → A → Prop) (l : list A) :
  (∀ x, ¬ lt x x) → increasing lt l → NoDup l.
Proof.
  intros Hirr. induction l as [|x r IH]; simpl; [constructor|]. intros [Hx Hr].
  constructor; [|by apply IH]. intros Hin.
  eapply Forall_forall in Hx; [|done]. by apply Hirr in Hx.
Qed.

(** ** The encoded table, column by column *)

Lemma unique_increasing (xs : list (option string)) :
  increasing category_lt (OneHotEncoder.unique xs).
Proof.
  unfold OneHotEncoder.unique.
  assert (increasing string_lt (foldr OneHotEncoder.insert_unique [] (omap id xs))) as Hinc.
  { induction (omap id xs) as [|s l IH]; simpl; [done|]. by apply insert_unique_increasing. }
  revert Hinc. generalize (foldr OneHotEncoder.insert_unique [] (omap id xs)).
  intros l. induction l as [|x r IH]; simpl.
  - intros _. by destruct (existsb _ xs); simpl.
  - intros [Hx Hr]. split; [|by apply IH].
    apply Forall_app. split.
    + apply Forall_fmap. eapply Forall_impl; [done|]. by intros y Hy.
    + destruct (existsb _ xs); by repeat constructor.
Qed.

Lemma list_remove_sublist (x : label) (l : list label) : list_remove x l `sublist_of` l.
Proof.
  induction l as [|y l IH]; [done|]. rewrite list_remove_cons.
  case_decide; [by apply sublist_cons|by apply sublist_skip].
Qed.

Lemma filter_columns_sublist (P : label * Series → Prop) `{∀ c, Decision (P c)}
    (df : DataFrame) :
  columns (filter P df) `sublist_of` columns df.
Proof. unfold columns. apply fmap_sublist, sublist_filter. Qed.

Lemma feature_columns_numeric cfg D' :
  NoDup (columns D') →
  feature_columns (target_column cfg) D' true (numeric_cols cfg D').
Proof.
  intros Hnd. split.
  - unfold numeric_cols, select_number.
    etrans; [apply list_remove_sublist|apply filter_columns_sublist].
  - intros c. unfold numeric_cols. rewrite list_remove_NoDup, select_number_elem; [done|].
    by apply filter_columns_NoDup.
Qed.

Lemma feature_columns_categorical cfg D' :
  NoDup (columns D') →
  feature_columns (target_column cfg) D' false (categorical_cols cfg D').
Proof.
  intros Hnd. split.
  - unfold categorical_cols, select_not_number.
    etrans; [apply list_remove_sublist|apply filter_columns_sublist].
  - intros c. unfold categorical_cols.
    rewrite list_remove_NoDup, select_not_number_elem; [done|].
    by apply filter_columns_NoDup.
Qed.

Lemma encoded_blocks_lookup (xss catss : list (list (option string))) j xs cs k v :
  xss !! j = Some xs → catss !! j = Some cs → cs !! k = Some v →
  concat (zip_with OneHotEncoder.encode_column xss catss)
    !! (length (concat (take j catss)) + k)
  = Some (map (λ x, if decide (x = v) then Fin 1 else Fin 0) xs).
Proof.
  revert catss j. induction xss as [|xs0 xss IH]; intros [|cs0 catss] [|j]; simpl; try done.
  - intros [= ->] [= ->] Hk. rewrite lookup_app_l.
    + unfold OneHotEncoder.encode_column. by rewrite list_lookup_fmap, Hk.
    + rewrite encode_column_length. by eapply lookup_lt_Some.
  - intros Hxs Hcs Hk. rewrite lookup_app_r; rewrite encode_column_length, length_app.
    + replace (length cs0 + length (concat (take j catss)) + k - length cs0)
        with (length (concat (take j catss)) + k) by lia.
      by apply IH.
    + lia.
Qed.

Lemma encoder_fit_nonempty names cols enc :
  OneHotEncoder.fit names cols = inr enc → Forall (λ s, str_values s ≠ []) cols.
Proof.
  unfold OneHotEncoder.fit.
  destruct (OneHotEncoder.check_array cols) as [?|xss] eqn:Hc; [done|]. intros _.
  revert xss Hc. induction cols as [|s cols IH]; intros xss Hc; [constructor|].
  simpl in Hc. destruct (OneHotEncoder.check_column s) as [?|xs] eqn:Hs; [done|].
  simpl in Hc. destruct (OneHotEncoder.check_array cols) as [?|xss'] eqn:Hc'; [done|].
  constructor; [|by eapply IH].
  unfold OneHotEncoder.check_column in Hs.
  destruct s as [| |ys|ys]; try done; simpl; case_decide; try done; by destruct ys.
Qed.

Lemma to_floats_numeric (cols : list Series) :
  Forall (λ s, is_number s = true) cols →
  ∃ xss, Forall2 (λ s xs, to_floats s = Some xs) cols xss.
Proof.
  induction 1 as [|s cols Hs _ [xss IH]]; [by exists []|].
  destruct (to_floats s) as [xs|] eqn:Hxs; [|by destruct s].
  exists (xs :: xss). by constructor.
Qed.

Lemma unique_nonempty (xs : list (option string)) : xs ≠ [] → OneHotEncoder.unique xs ≠ [].
Proof.
  destruct xs as [|x xs]; [done|]. intros _ Hu.
  assert (x ∈ OneHotEncoder.unique (x :: xs)) as Hx by (apply unique_elem; left).
  rewrite Hu in Hx. by apply elem_of_nil in Hx.
Qed.

(** What [transform] returns after a successful [fit], for a table with the
    fit-time schema, a row and no infinite value: the pipeline [fit] left,
    its columns and categories, and the encoded table column by column. *)
Lemma transform_encodes
    (data : loc) (self st : TrainPreprocessor.t) (w w1 : World) (D D' : DataFrame)
    (l : loc) (wa : World) (A : DataFrame) :
  frames w !! data = Some D →
  TrainPreprocessor.fit data self w = (st, w1, inr tt) →
  frames w1 !! data = Some D' →
  frames wa !! l = Some A →
  same_schema A D ∨ same_schema A D' →
  finite_table A →
  ∃ ct cats A' xcatD,
    st = TrainPreprocessor.mk true (Some ct) (TrainPreprocessor.feature_names st)
    ∧ ColumnTransformer.select D' (ColumnTransformer.cat_cols ct) = inr xcatD
    ∧ cats = map OneHotEncoder.unique (map str_values xcatD)
    ∧ NoDup (columns D')
    ∧ feature_columns (target_column (settings w)) D' true (ColumnTransformer.num_cols ct)
    ∧ feature_columns (target_column (settings w)) D' false (ColumnTransformer.cat_cols ct)
    ∧ Forall (λ c, ∃ s, c = LStr s) (ColumnTransformer.cat_cols ct)
    ∧ Forall2 (fit_categories D') (ColumnTransformer.cat_cols ct) cats
    ∧ Forall (λ cs, cs ≠ []) cats
    ∧ TrainPreprocessor.feature_names st
      = Some (ColumnTransformer.num_cols ct
              ++ onehot_names (omap str_label (ColumnTransformer.cat_cols ct)) cats)
    ∧ with_derived_features A = inr A'
    ∧ ∀ fn, fn = TrainPreprocessor.feature_names st ∨ fn = None →
        ∃ wa' out,
          TrainPreprocessor.transform l (TrainPreprocessor.mk true (Some ct) fn) wa
          = (TrainPreprocessor.mk true (Some ct) fn, wa', inr (length (frames wa)))
          ∧ frames wa' !! length (frames wa) = Some out
          ∧ columns out
            = output_labels fn
                (length (ColumnTransformer.num_cols ct) + length (concat cats))
          ∧ encodes ct cats A' (map snd out).
Proof.
  intros HD Hfit HD' HA Hsch Hfin.
  destruct (transform_fitted_array _ _ _ _ _ _ _ _ _ _ HD Hfit HD' HA Hsch Hfin)
    as (A' & numf & enc & xnum & xcat & xcatD & names & HA' & Hd & HschA & Hst & Hsn & Hsc
        & HscD & Hxcat & Hcats & Hlsc & Hlen & Htrain & _).
  set (num := numeric_cols (settings w) D') in *.
  set (cat := categorical_cols (settings w) D') in *.
  set (ct := ColumnTransformer.mk num cat (Some (numf, Some enc))) in *.
  set (cats := map OneHotEncoder.unique (map str_values xcatD)) in *.
  destruct (fit_success_inv _ _ _ _ _ _ HD Hfit)
    as (D'' & ct0 & names0 & Hd0 & _ & _ & _ & Hct & Hnames & Hst0).
  assert (D'' = D') as -> by congruence.
  rewrite Hst in Hst0. injection Hst0 as <- Hn0. apply app_inv_head in Hn0 as <-.
  fold num cat in Hct, Hnames.
  destruct (ct_fit_inv _ _ _ _ Hct)
    as (xnumD & xcatD' & numf' & catf & Hret & HsnD & HscD' & Hcteq & Hnumf & Hcatf).
  assert (xcatD' = xcatD) as -> by congruence.
  injection Hcteq as <- <-.
  destruct (names_of_fit _ _ _ _ _ Hct Hnames) as (xcatD' & HscD'' & Hnamesq).
  assert (xcatD' = xcatD) as -> by congruence. fold cats in Hnamesq.
  assert (NoDup (columns D')) as Hnd.
  { destruct Hfin as ([HndA _] & _ & _). destruct Hsch as [Hs|Hs].
    - eapply derived_columns_NoDup; [done|]. by rewrite <- (same_schema_columns A D Hs).
    - by rewrite <- (same_schema_columns A D' Hs). }
  assert (length xnum = length num) as Hlxnum
    by (symmetry; eapply Forall2_length, select_spec; done).
  assert (length xnumD = length num) as HlxnumD
    by (symmetry; eapply Forall2_length, select_spec; done).
  assert (length xcat = length cat) as Hlxcat
    by (symmetry; eapply Forall2_length, select_spec; done).
  assert (length xcatD = length cat) as HlxcatD
    by (symmetry; eapply Forall2_length, select_spec; done).
  assert (length cats = length cat) as Hlcats by (unfold cats; by rewrite !length_map).
  set (arr := scaled_columns numf xnum ++ concat (encoded_blocks (Some enc) xcat)) in *.
  assert (length (concat (encoded_blocks (Some enc) xcat)) = length (concat cats)) as Hlblocks.
  { unfold encoded_blocks. rewrite Hcats. apply encoded_length. rewrite length_map. lia. }
  assert (length arr = length num + length (concat cats)) as Hlarr.
  { unfold arr. rewrite length_app. lia. }
  assert (encodes ct cats A' (map SFloat arr)) as Henc.
  { split_and!.
    - by rewrite length_map.
    - intros j c Hj. simpl in Hj.
      destruct numf as [sc|]; [|simpl in Hnumf; rewrite Hnumf in Hj; done].
      simpl in Hnumf. destruct (scaler_fit_inv _ _ Hnumf) as (HnumD & Hlm & Hls).
      assert (j < length num) as Hjlt by by eapply lookup_lt_Some.
      destruct (lookup_lt_is_Some_2 (StandardScaler.mean_ sc) j) as (m & Hm); [lia|].
      destruct (lookup_lt_is_Some_2 (StandardScaler.scale_ sc) j) as (sd & Hsd); [lia|].
      destruct (Forall2_lookup_l _ _ _ _ _ (select_spec _ _ _ Hsn) Hj) as (col & Hcol & Hlook).
      destruct (select_same_schema A' D' num xnumD HschA HsnD) as (xnum' & Hsn' & Hdn).
      assert (xnum' = xnum) as -> by congruence.
      pose proof (Forall2_dtype_number _ _ _ Hdn HnumD) as Hnumeric.
      destruct (to_floats_numeric _ Hnumeric) as (xss & Hxss).
      destruct (Forall2_lookup_l _ _ _ _ _ Hxss Hcol) as (xs & Hxs & Hfl).
      exists sc, (Some enc), m, sd, col, xs. split_and!; try done.
      rewrite list_lookup_fmap. unfold arr. rewrite lookup_app_l by lia.
      simpl. rewrite (omap_to_floats _ _ Hxss).
      rewrite lookup_zip_with, Hxs. simpl.
      assert (zip (StandardScaler.mean_ sc) (StandardScaler.scale_ sc) !! j = Some (m, sd))
        as -> by (by apply lookup_zip_Some).
      done.
    - intros j c cs k v Hj Hcs Hk. simpl in Hj.
      destruct (Forall2_lookup_l _ _ _ _ _ (select_spec _ _ _ Hsc) Hj) as (col & Hcol & Hlook).
      exists col. split; [done|]. split.
      { by eapply (proj1 (Forall_forall _ _) Hxcat), list_elem_of_lookup_2. }
      rewrite list_lookup_fmap. unfold arr. rewrite lookup_app_r by (simpl; lia).
      replace (length (ColumnTransformer.num_cols ct) + length (concat (take j cats)) + k
               - length (scaled_columns numf xnum))
        with (length (concat (take j cats)) + k) by (simpl; lia).
      unfold encoded_blocks. rewrite Hcats. fold cats.
      erewrite encoded_blocks_lookup; [done| |done|done].
      by rewrite list_lookup_fmap, Hcol. }
  exists ct, cats, A', xcatD. split_and!.
  - by rewrite Hst.
  - done.
  - done.
  - done.
  - by apply feature_columns_numeric.
  - by apply feature_columns_categorical.
  - destruct Hret as [fnames Hfn]. unfold feature_names_in in Hfn.
    destruct (mapM str_label (columns D')) as [ns|] eqn:HmapM; [|done].
    assert (Forall (is_Some ∘ str_label) (columns D')) as Hall
      by (apply mapM_is_Some; by eexists).
    apply Forall_forall. intros c Hc. simpl in Hc.
    assert (c ∈ columns D') as Hin.
    { eapply elem_of_sublist; [done|].
      by apply (feature_columns_categorical (settings w) D' Hnd). }
    apply (proj1 (Forall_forall _ _) Hall) in Hin as [s Hs].
    exists s. destruct c; simpl in Hs; by simplify_eq.
  - simpl. unfold cats. rewrite <- list_fmap_compose. apply Forall2_fmap_r.
    eapply Forall2_impl; [by apply select_spec|].
    intros c s Hs. exists s. split; [done|]. split; [apply unique_increasing|].
    intros v. apply unique_elem.
  - unfold cats. rewrite <- list_fmap_compose. apply Forall_fmap.
    eapply Forall_impl; [by eapply encoder_fit_nonempty|].
    intros s Hs. by apply unique_nonempty.
  - rewrite Hst. simpl. by rewrite Hnamesq.
  - done.
  - intros fn Hfn.
    destruct (Htrain fn) as (wa' & Hrun & Hfr & _).
    { intros ls ->. destruct Hfn as [Hfn|Hfn]; [|done].
      rewrite Hst in Hfn. simpl in Hfn. by injection Hfn as ->. }
    rewrite Hst in Hrun. simpl in Hrun. fold ct in Hrun.
    eexists wa', _. split; [exact Hrun|]. split.
    { rewrite Hfr. apply list_lookup_middle. by rewrite length_insert. }
    assert (length (output_labels fn (length (num ++ names))) = length arr) as Hlab.
    { destruct Hfn as [-> | ->].
      - rewrite Hst. simpl. lia.
      - simpl. unfold range_labels. rewrite length_map, length_seq. lia. }
    split.
    + unfold columns. rewrite fst_zip by (rewrite length_map; fold arr; lia).
      destruct Hfn as [-> | ->].
      * by rewrite Hst.
      * simpl. f_equal. fold arr in Hlen. lia.
    + rewrite snd_zip by (rewrite length_map; fold arr; lia). exact Henc.
Qed.




Lemma category_lt_irrefl (x : option string) : ¬ category_lt x x.
Proof. destruct x as [s|]; simpl; [|by intros []]. by rewrite string_ltb_irrefl. Qed.

(** The place of a categorical column among those of the pipeline, and the
    cells of its indicator columns in the encoded table. *)
Lemma indicator_cells (target : string) (ct : ColumnTransformer.t) cats D' A' cols
    c fit_col col i v :
  feature_columns target D' false (ColumnTransformer.cat_cols ct) →
  Forall2 (fit_categories D') (ColumnTransformer.cat_cols ct) cats →
  encodes ct cats A' cols →
  c ≠ LStr target →
  assoc_lookup D' c = Some fit_col →
  is_number fit_col = false →
  assoc_lookup A' c = Some col →
  str_values col !! i = Some v →
  ∃ j cs,
    ColumnTransformer.cat_cols ct !! j = Some c
    ∧ cats !! j = Some cs
    ∧ NoDup cs
    ∧ (∀ x, x ∈ cs ↔ x ∈ str_values fit_col)
    ∧ ∀ k x, cs !! k = Some x →
        ∃ ys, cols !! (length (ColumnTransformer.num_cols ct)
                       + length (concat (take j cats)) + k) = Some (SFloat ys)
              ∧ ys !! i = Some (if decide (v = x) then Fin 1 else Fin 0).
Proof.
  intros [_ Hcat] Hfc (_ & _ & Henc) Hne Hfit Hobj Hcol Hv.
  assert (c ∈ ColumnTransformer.cat_cols ct) as Hc.
  { apply Hcat. split; [done|]. exists fit_col. split; [|done].
    by apply assoc_lookup_Some_elem. }
  apply list_elem_of_lookup in Hc as (j & Hj).
  destruct (Forall2_lookup_l _ _ _ _ _ Hfc Hj) as (cs & Hcs & fit_col' & Hfit' & Hinc & Hmem).
  assert (fit_col' = fit_col) as -> by congruence.
  exists j, cs. split_and!; try done.
  - eapply increasing_NoDup; [apply category_lt_irrefl|done].
  - intros k x Hk.
    destruct (Henc j c cs k x Hj Hcs Hk) as (col' & Hcol' & _ & Hlook).
    assert (col' = col) as -> by congruence.
    eexists. split; [exact Hlook|]. by rewrite list_lookup_fmap, Hv.
Qed.




(** X4: a value met at fit time sets exactly one indicator.  After a
    successful [fit], in the table [transform] returns for a table with the
    fit-time schema, a row and no infinite value, a row whose value in a
    categorical feature column was among the fit-time values of that
    column has a 1 in the indicator column of that value and a 0 in every
    other indicator column of that column; the indicator columns of the
    [j]-th categorical column stand, in the order of its categories, after
    the numeric columns and the indicator columns of the categorical
    columns before it. *)
Theorem known_category_sets_one_indicator
    (data : loc) (self st : TrainPreprocessor.t) (w w1 : World) (D D' : DataFrame)
    (l : loc) (wa : World) (A A' : DataFrame)
    (c : label) (fit_col col : Series) (i : nat) (v : option string) :
  frames w !! data = Some D →
  TrainPreprocessor.fit data self w = (st, w1, inr tt) →
  frames w1 !! data = Some D' →
  frames wa !! l = Some A →
  same_schema A D ∨ same_schema A D' →
  finite_table A →
  with_derived_features A = inr A' →
  c ≠ LStr (target_column (settings w)) →
  assoc_lookup D' c = Some fit_col →
  is_number fit_col = false →
  assoc_lookup A' c = Some col →
  str_values col !! i = Some v →
  v ∈ str_values fit_col →
  ∃ ct cats wa' out j cs k,
    TrainPreprocessor.pipeline st = Some ct
    ∧ Forall2 (fit_categories D') (ColumnTransformer.cat_cols ct) cats
    ∧ TrainPreprocessor.transform l st wa = (st, wa', inr (length (frames wa)))
    ∧ frames wa' !! length (frames wa) = Some out
    ∧ length out = length (ColumnTransformer.num_cols ct) + length (concat cats)
    ∧ ColumnTransformer.cat_cols ct !! j = Some c
    ∧ cats !! j = Some cs
    ∧ cs !! k = Some v
    ∧ ∀ k', k' < length cs →
        ∃ ys, map snd out !! (length (ColumnTransformer.num_cols ct)
                              + length (concat (take j cats)) + k') = Some (SFloat ys)
              ∧ ys !! i = Some (if decide (k' = k) then Fin 1 else Fin 0).
Proof.
  intros HD Hfit HD' HA Hsch Hfin HA' Hne Hfc Hobj Hcol Hv Hseen.
  destruct (transform_encodes _ _ _ _ _ _ _ _ _ _ HD Hfit HD' HA Hsch Hfin)
    as (ct & cats & A'' & xcatD & Hst & _ & _ & _ & _ & Hcat & _ & Hcats & _ & _
        & HA'' & Hrun).
  assert (A'' = A') as -> by congruence.
  destruct (Hrun (TrainPreprocessor.feature_names st)) as (wa' & out & Ht & Hout & _ & Henc);
    [by left|].
  rewrite <- Hst in Ht.
  destruct (indicator_cells _ ct cats D' A' (map snd out) c fit_col col i v
              Hcat Hcats Henc Hne Hfc Hobj Hcol Hv)
    as (j & cs & Hj & Hcs & Hnd & Hmem & Hcells).
  assert (v ∈ cs) as Hvcs by by apply Hmem.
  apply list_elem_of_lookup in Hvcs as (k & Hk).
  exists ct, cats, wa', out, j, cs, k. split_and!; try done.
  - by rewrite Hst.
  - destruct Henc as (Hlen & _). by rewrite length_map in Hlen.
  - intros k' Hk'. destruct (lookup_lt_is_Some_2 cs k' Hk') as (x & Hx).
    destruct (Hcells k' x Hx) as (ys & Hys & Hcell).
    exists ys. split; [done|]. rewrite Hcell. f_equal.
    destruct (decide (k' = k)) as [->|Hkk].
    + rewrite decide_True; [done|congruence].
    + rewrite decide_False; [done|]. intros ->.
      apply Hkk. by eapply NoDup_lookup.
Qed.

Lemma known_category_sets_one_indicator_witness :
  ∃ ct cats wa' out j cs k,
    TrainPreprocessor.pipeline scenario_preprocessor = Some ct
    ∧ Forall2 (fit_categories scenario_table_fitted) (ColumnTransformer.cat_cols ct) cats
    ∧ TrainPreprocessor.transform 0 scenario_preprocessor (world_of [single_row_table])
      = (scenario_preprocessor, wa', inr (length (frames (world_of [single_row_table]))))
    ∧ frames wa' !! length (frames (world_of [single_row_table])) = Some out
    ∧ length out = length (ColumnTransformer.num_cols ct) + length (concat cats)
    ∧ ColumnTransformer.cat_cols ct !! j = Some (LStr "Gender")
    ∧ cats !! j = Some cs
    ∧ cs !! k = Some (Some "Male")
    ∧ ∀ k', k' < length cs →
        ∃ ys, map snd out !! (length (ColumnTransformer.num_cols ct)
                              + length (concat (take j cats)) + k') = Some (SFloat ys)
              ∧ ys !! 0 = Some (if decide (k' = k) then Fin 1 else Fin 0).
Proof.
  apply (known_category_sets_one_indicator 0 TrainPreprocessor.__init__
           scenario_preprocessor (world_of [scenario_table]) scenario_world
           scenario_table scenario_table_fitted
           0 (world_of [single_row_table]) single_row_table
           (single_row_table
            ++ [ (LStr "BMI", SFloat [Fin (80 # 30625)]);
                 (LStr "Age_Group", SCat [Some "Young"]) ])
           (LStr "Gender") (SObj [Some "Male"; Some "Female"]) (SObj [Some "Male"])
           0 (Some "Male")).
  - reflexivity.
  - vm_compute. reflexivity.
  - vm_compute. reflexivity.
  - reflexivity.
  - left. repeat constructor.
  - solve_finite_table.
  - vm_compute. reflexivity.
  - discriminate.
  - reflexivity.
  - reflexivity.
  - reflexivity.
  - reflexivity.
  - simpl. set_solver.
Defined.

(** ** From the training preprocessor to the inference preprocessor *)

Lemma inference_load_run (path : option string) (self : InferencePreprocessor.t) (w : World)
    (file : string) (p : Pickle) :
  file = match path with
         | Some f => if decide (f = "") then InferencePreprocessor.preprocessor_path self else f
         | None => InferencePreprocessor.preprocessor_path self
         end →
  files w !! file = Some p →
  ∃ w', InferencePreprocessor.load path self w
        = (InferencePreprocessor.mk true p (InferencePreprocessor.preprocessor_path self),
           w', inr tt)
        ∧ files w' = files w ∧ frames w' = frames w ∧ settings w' = settings w.
Proof.
  intros -> Hp. unfold InferencePreprocessor.load, joblib_load. simpl. rewrite Hp. simpl.
  eexists. by split; [reflexivity|].
Qed.

(** X5: the file a TrainPreprocessor saves serves an InferencePreprocessor.
    After a successful [fit], [save] to a path followed by [load] of an
    InferencePreprocessor constructed with that path gives a fitted
    preprocessor holding the same pipeline; on every table with the
    fit-time schema, at least one row and no infinite value (the tables
    that [transform] encodes), it returns the values the TrainPreprocessor
    returns, in the same order, with columns labelled by their positions
    where the TrainPreprocessor labels them with its feature names. *)
Theorem inference_load_transform
    (data : loc) (self st : TrainPreprocessor.t) (w w1 : World) (D D' : DataFrame)
    (path : string) (l : loc) (wa : World) (A : DataFrame) :
  frames w !! data = Some D →
  TrainPreprocessor.fit data self w = (st, w1, inr tt) →
  frames w1 !! data = Some D' →
  frames wa !! l = Some A →
  same_schema A D ∨ same_schema A D' →
  finite_table A →
  ∃ w2 w3 inf wt wi out out',
    TrainPreprocessor.save path st w1 = (st, w2, inr tt)
    ∧ InferencePreprocessor.load None (InferencePreprocessor.__init__ path) w2
      = (inf, w3, inr tt)
    ∧ inf = InferencePreprocessor.mk true (TrainPreprocessor.pipeline st) path
    ∧ TrainPreprocessor.transform l st wa = (st, wt, inr (length (frames wa)))
    ∧ frames wt !! length (frames wa) = Some out
    ∧ InferencePreprocessor.transform l inf wa = (inf, wi, inr (length (frames wa)))
    ∧ frames wi !! length (frames wa) = Some out'
    ∧ map snd out' = map snd out
    ∧ TrainPreprocessor.feature_names st = Some (columns out)
    ∧ columns out' = range_labels (length out).
Proof.
  intros HD Hfit HD' HA Hsch Hfin.
  destruct (transform_fitted_array _ _ _ _ _ _ _ _ _ _ HD Hfit HD' HA Hsch Hfin)
    as (A' & numf & enc & xnum & xcat & xcatD & names & HA' & Hd & HschA & Hst & Hsn & Hsc
        & HscD & Hxcat & Hcats & Hlsc & Hlen & Htrain & Hinf).
  set (num := numeric_cols (settings w) D') in *.
  set (arr := scaled_columns numf xnum ++ concat (encoded_blocks (Some enc) xcat)) in *.
  destruct (save_run path st w1) as (w2 & Hsave & Hfi2 & _ & _).
  destruct (inference_load_run None (InferencePreprocessor.__init__ path) w2 path
              (TrainPreprocessor.pipeline st) eq_refl) as (w3 & Hload & _).
  { rewrite Hfi2. apply lookup_insert_eq. }
  destruct (Htrain (Some (num ++ names))) as (wt & Ht & Hfrt & _); [by intros ls [= <-]|].
  destruct (Hinf path) as (wi & Hi & Hfri & _).
  assert (TrainPreprocessor.mk true (TrainPreprocessor.pipeline st) (Some (num ++ names)) = st)
    as Hst' by (by rewrite Hst).
  rewrite Hst' in Ht.
  assert (length (range_labels (length (num ++ names))) = length arr) as Hlr
    by (unfold range_labels; by rewrite length_map, length_seq).
  eexists w2, w3, _, wt, wi, _, _. split_and!.
  - exact Hsave.
  - exact Hload.
  - reflexivity.
  - exact Ht.
  - rewrite Hfrt. apply list_lookup_middle. by rewrite length_insert.
  - exact Hi.
  - rewrite Hfri. apply list_lookup_middle. by rewrite length_insert.
  - rewrite !snd_zip; [done|rewrite length_map; unfold output_labels; lia
                      |rewrite length_map; lia].
  - rewrite Hst. simpl. f_equal. unfold columns. symmetry. apply fst_zip.
    rewrite length_map. fold num arr. lia.
  - unfold columns. rewrite fst_zip by (rewrite length_map; lia).
    f_equal. rewrite length_zip, length_map. unfold output_labels. lia.
Qed.

Lemma inference_load_transform_witness :
  ∃ w2 w3 inf wt wi out out',
    TrainPreprocessor.save scenario_path scenario_preprocessor scenario_world
    = (scenario_preprocessor, w2, inr tt)
    ∧ InferencePreprocessor.load None (InferencePreprocessor.__init__ scenario_path) w2
      = (inf, w3, inr tt)
    ∧ inf = InferencePreprocessor.mk true (TrainPreprocessor.pipeline scenario_preprocessor)
              scenario_path
    ∧ TrainPreprocessor.transform 0 scenario_preprocessor (world_of [single_row_table])
      = (scenario_preprocessor, wt, inr (length (frames (world_of [single_row_table]))))
    ∧ frames wt !! length (frames (world_of [single_row_table])) = Some out
    ∧ InferencePreprocessor.transform 0 inf (world_of [single_row_table])
      = (inf, wi, inr (length (frames (world_of [single_row_table]))))
    ∧ frames wi !! length (frames (world_of [single_row_table])) = Some out'
    ∧ map snd out' = map snd out
    ∧ TrainPreprocessor.feature_names scenario_preprocessor = Some (columns out)
    ∧ columns out' = range_labels (length out).
Proof.
  apply (inference_load_transform 0 TrainPreprocessor.__init__ scenario_preprocessor
           (world_of [scenario_table]) scenario_world scenario_table scenario_table_fitted
           scenario_path 0 (world_of [single_row_table]) single_row_table).
  - reflexivity.
  - vm_compute. reflexivity.
  - vm_compute. reflexivity.
  - reflexivity.
  - left. repeat constructor.
  - solve_finite_table.
Defined.

(** ** Loading what is not there, saving what is not fitted *)

Lemma inference_load_missing (path : option string) (self : InferencePreprocessor.t)
    (w : World) (file : string) :
  file = match path with
         | Some f => if decide (f = "") then InferencePreprocessor.preprocessor_path self else f
         | None => InferencePreprocessor.preprocessor_path self
         end →
  files w !! file = None →
  InferencePreprocessor.load path self w = (self, w, inl (FileNotFoundError file)).
Proof.
  intros -> Hp. unfold InferencePreprocessor.load, joblib_load. simpl. by rewrite Hp.
Qed.

Lemma inference_load_file (path path' : option string) (self : InferencePreprocessor.t)
    (w : World) :
  match path with
  | Some f => if decide (f = "") then InferencePreprocessor.preprocessor_path self else f
  | None => InferencePreprocessor.preprocessor_path self
  end
  = match path' with
    | Some f => if decide (f = "") then InferencePreprocessor.preprocessor_path self else f
    | None => InferencePreprocessor.preprocessor_path self
    end →
  InferencePreprocessor.load path self w = InferencePreprocessor.load path' self w.
Proof.
  intros Heq. unfold InferencePreprocessor.load. simpl. by rewrite Heq.
Qed.

(** X6: [load] of a missing file raises [FileNotFoundError] and changes
    nothing.  For the InferencePreprocessor the file looked up is the path
    given to [load], unless it is [None] or the empty string, in which case
    it is the path given to [__init__]; the three calls [load()],
    [load("")] and [load(self.preprocessor_path)] are the same call. *)
Theorem load_missing_file
    (train : TrainPreprocessor.t) (infer : InferencePreprocessor.t) (w : World)
    (path : string) :
  files w !! path = None →
  path ≠ "" →
  TrainPreprocessor.load path train w = (train, w, inl (FileNotFoundError path))
  ∧ InferencePreprocessor.load (Some path) infer w = (infer, w, inl (FileNotFoundError path))
  ∧ (InferencePreprocessor.preprocessor_path infer = path →
     InferencePreprocessor.load None infer w = (infer, w, inl (FileNotFoundError path)))
  ∧ InferencePreprocessor.load (Some "") infer w = InferencePreprocessor.load None infer w
  ∧ InferencePreprocessor.load (Some (InferencePreprocessor.preprocessor_path infer)) infer w
    = InferencePreprocessor.load None infer w.
Proof.
  intros Hp Hne. split_and!.
  - unfold TrainPreprocessor.load, joblib_load. simpl. by rewrite Hp.
  - apply inference_load_missing; [by rewrite decide_False|done].
  - intros Hpath. apply inference_load_missing; done.
  - apply inference_load_file. by rewrite decide_True.
  - apply inference_load_file. by case_decide.
Qed.

Lemma load_missing_file_witness :
  TrainPreprocessor.load "prep.joblib" TrainPreprocessor.__init__ (world_of [])
  = (TrainPreprocessor.__init__, world_of [], inl (FileNotFoundError "prep.joblib"))
  ∧ InferencePreprocessor.load (Some "prep.joblib") (InferencePreprocessor.__init__ "prep.joblib")
      (world_of [])
    = (InferencePreprocessor.__init__ "prep.joblib", world_of [],
       inl (FileNotFoundError "prep.joblib"))
  ∧ (InferencePreprocessor.preprocessor_path (InferencePreprocessor.__init__ "prep.joblib")
     = "prep.joblib" →
     InferencePreprocessor.load None (InferencePreprocessor.__init__ "prep.joblib") (world_of [])
     = (InferencePreprocessor.__init__ "prep.joblib", world_of [],
        inl (FileNotFoundError "prep.joblib")))
  ∧ InferencePreprocessor.load (Some "") (InferencePreprocessor.__init__ "prep.joblib")
      (world_of [])
    = InferencePreprocessor.load None (InferencePreprocessor.__init__ "prep.joblib")
        (world_of [])
  ∧ InferencePreprocessor.load
      (Some (InferencePreprocessor.preprocessor_path
               (InferencePreprocessor.__init__ "prep.joblib")))
      (InferencePreprocessor.__init__ "prep.joblib") (world_of [])
    = InferencePreprocessor.load None (InferencePreprocessor.__init__ "prep.joblib")
        (world_of []).
Proof.
  apply (load_missing_file TrainPreprocessor.__init__
           (InferencePreprocessor.__init__ "prep.joblib") (world_of []) "prep.joblib").
  - reflexivity.
  - discriminate.
Defined.

Lemma train_transform_raises_derive (data : loc) (self : TrainPreprocessor.t) (w : World)
    df e :
  TrainPreprocessor.fitted self = true →
  frames w !! data = Some df →
  with_derived_features df = inl e →
  ∃ w', TrainPreprocessor.transform data self w = (self, w', inl e)
        ∧ files w' = files w ∧ settings w' = settings w.
Proof.
  intros Hf Hdf Hd. unfold with_derived_features in Hd.
  unfold TrainPreprocessor.transform.
  simpl; rewrite (check_fitted_true _ _ _ Hf); simpl.
  rewrite (assign_BMI_run _ _ _ df) by done.
  destruct (set_BMI df) as [e'|df1] eqn:Hbmi; simpl in Hd.
  { injection Hd as ->. eexists. split; [reflexivity|done]. }
  simpl.
  rewrite (assign_Age_Group_run _ _ _ df1) by by eapply frames_insert_lookup.
  rewrite Hd. eexists. split; [reflexivity|done].
Qed.

Lemma inference_transform_raises_derive (data : loc) (self : InferencePreprocessor.t)
    (w : World) df e :
  InferencePreprocessor.fitted self = true →
  frames w !! data = Some df →
  with_derived_features df = inl e →
  ∃ w', InferencePreprocessor.transform data self w = (self, w', inl e)
        ∧ files w' = files w ∧ settings w' = settings w.
Proof.
  intros Hf Hdf Hd. unfold with_derived_features in Hd.
  unfold InferencePreprocessor.transform.
  simpl; rewrite (check_fitted_true _ _ _ Hf); simpl.
  rewrite (assign_BMI_run _ _ _ df) by done.
  destruct (set_BMI df) as [e'|df1] eqn:Hbmi; simpl in Hd.
  { injection Hd as ->. eexists. split; [reflexivity|done]. }
  simpl.
  rewrite (assign_Age_Group_run _ _ _ df1) by by eapply frames_insert_lookup.
  rewrite Hd. eexists. split; [reflexivity|done].
Qed.

(** Deriving the features raises [KeyError] (a raw column is missing) or
    [TypeError] (a raw column is not numeric), nothing else. *)
Lemma derive_error_class df e :
  with_derived_features df = inl e →
  exn_class e = "KeyError" ∨ exn_class e = "TypeError".
Proof.
  unfold with_derived_features, set_BMI, set_Age_Group, df_getitem.
  destruct (assoc_lookup df (LStr "Weight")) as [wt|]; simpl; [|intros [= <-]; by left].
  destruct (assoc_lookup df (LStr "Height")) as [ht|]; simpl; [|intros [= <-]; by left].
  destruct (series_pow2 ht) as [e'|h2] eqn:Hp; simpl.
  { intros [= <-]. right. unfold series_pow2 in Hp. destruct ht; by simplify_eq. }
  destruct (series_truediv wt h2) as [e'|bmi] eqn:Hb; simpl.
  { intros [= <-]. right. unfold series_truediv in Hb.
    destruct (to_floats wt), (to_floats h2); by simplify_eq. }
  destruct (assoc_lookup _ (LStr "Age")) as [age|]; simpl; [|intros [= <-]; by left].
  destruct (pd_cut age) as [e'|g] eqn:Hc; simpl; [|done].
  intros [= <-]. right. unfold pd_cut in Hc. destruct (to_floats age); by simplify_eq.
Qed.

(** X7: [load] marks the preprocessor fitted whatever the file holds.  A
    TrainPreprocessor saved before any [fit] writes its empty pipeline;
    a preprocessor that loads this file has [fitted] set, and its
    [transform] raises, on every table: [AttributeError], once BMI and
    Age_Group have been written to the table, when they can be derived,
    and never the [RuntimeError] of an unfitted preprocessor. *)
Theorem load_unfitted_pipeline
    (path : string) (self : TrainPreprocessor.t) (w : World)
    (l : loc) (wa : World) (A A' : DataFrame) :
  frames wa !! l = Some A →
  with_derived_features A = inr A' →
  ∃ w1 w2 st wa',
    TrainPreprocessor.save path TrainPreprocessor.__init__ w
    = (TrainPreprocessor.__init__, w1, inr tt)
    ∧ TrainPreprocessor.load path self w1 = (st, w2, inr tt)
    ∧ TrainPreprocessor.fitted st = true
    ∧ TrainPreprocessor.pipeline st = None
    ∧ TrainPreprocessor.transform l st wa
      = (st, wa', inl (AttributeError "'NoneType' object has no attribute 'transform'"))
    ∧ frames wa' = <[l := A']> (frames wa)
    ∧ (∀ l' wb B, frames wb !! l' = Some B →
         ∃ e, (TrainPreprocessor.transform l' st wb).2 = inl e
              ∧ exn_class e ≠ "RuntimeError").
Proof.
  intros HA HA'.
  destruct (save_run path TrainPreprocessor.__init__ w) as (w1 & Hsave & Hfi1 & _ & _).
  destruct (load_run path self w1 None) as (w2 & Hload & _).
  { rewrite Hfi1. apply lookup_insert_eq. }
  set (st := TrainPreprocessor.mk true None (TrainPreprocessor.feature_names self)) in *.
  destruct (train_transform_None l st wa A A' eq_refl eq_refl HA HA') as (wa' & Hrun & Hfr).
  exists w1, w2, st, wa'. split_and!; try done.
  intros l' wb B HB.
  destruct (with_derived_features B) as [e|B'] eqn:HB'.
  - destruct (train_transform_raises_derive l' st wb B e eq_refl HB HB') as (wb' & -> & _).
    exists e. split; [done|]. by destruct (derive_error_class _ _ HB') as [-> | ->].
  - destruct (train_transform_None l' st wb B B' eq_refl eq_refl HB HB') as (wb' & -> & _).
    by eexists.
Qed.

Lemma load_unfitted_pipeline_witness :
  ∃ w1 w2 st wa',
    TrainPreprocessor.save scenario_path TrainPreprocessor.__init__ (world_of [])
    = (TrainPreprocessor.__init__, w1, inr tt)
    ∧ TrainPreprocessor.load scenario_path TrainPreprocessor.__init__ w1 = (st, w2, inr tt)
    ∧ TrainPreprocessor.fitted st = true
    ∧ TrainPreprocessor.pipeline st = None
    ∧ TrainPreprocessor.transform 0 st (world_of [test_table])
      = (st, wa', inl (AttributeError "'NoneType' object has no attribute 'transform'"))
    ∧ frames wa'
      = <[0 := test_table
               ++ [ (LStr "BMI", SFloat [Fin (70 # 28900); Fin (90 # 32400)]);
                    (LStr "Age_Group", SCat [Some "Young"; Some "Adult"]) ]]>
          (frames (world_of [test_table]))
    ∧ (∀ l' wb B, frames wb !! l' = Some B →
         ∃ e, (TrainPreprocessor.transform l' st wb).2 = inl e
              ∧ exn_class e ≠ "RuntimeError").
Proof.
  apply (load_unfitted_pipeline scenario_path TrainPreprocessor.__init__ (world_of [])
           0 (world_of [test_table]) test_table).
  - reflexivity.
  - vm_compute. reflexivity.
Defined.

(** ** When the pipeline cannot be fitted *)

Lemma assoc_lookup_is_Some {K V} `{EqDecision K} (l : list (K * V)) k :
  k ∈ map fst l → is_Some (assoc_lookup l k).
Proof.
  induction l as [|[k' v'] l IH]; simpl; [by intros ?%elem_of_nil|].
  intros [->|Hk]%elem_of_cons; case_decide; eauto. done.
Qed.

Lemma select_ok df cols :
  Forall (λ c, c ∈ columns df) cols → ∃ xs, ColumnTransformer.select df cols = inr xs.
Proof.
  induction 1 as [|c cols Hc _ [xs IH]]; simpl; [by eexists|].
  destruct (assoc_lookup_is_Some df c Hc) as [s ->]. rewrite IH. simpl. by eexists.
Qed.

Lemma list_remove_subset (x y : label) (l : list label) : y ∈ list_remove x l → y ∈ l.
Proof.
  induction l as [|z l IH]; [done|]. rewrite list_remove_cons.
  case_decide; rewrite !elem_of_cons; naive_solver.
Qed.

Lemma list_remove_keeps (x y : label) (l : list label) :
  y ≠ x → y ∈ l → y ∈ list_remove x l.
Proof.
  intros Hne. induction l as [|z l IH]; [done|]. rewrite list_remove_cons.
  case_decide; rewrite !elem_of_cons; naive_solver.
Qed.

Lemma numeric_cols_columns cfg df c : c ∈ numeric_cols cfg df → c ∈ columns df.
Proof.
  intros Hc%list_remove_subset. apply select_number_elem in Hc as (s & Hin & _).
  unfold columns. apply list_elem_of_fmap. by exists (c, s).
Qed.

Lemma categorical_cols_columns cfg df c : c ∈ categorical_cols cfg df → c ∈ columns df.
Proof.
  intros Hc%list_remove_subset. apply select_not_number_elem in Hc as (s & Hin & _).
  unfold columns. apply list_elem_of_fmap. by exists (c, s).
Qed.

Lemma scaler_check_array_error cols e :
  StandardScaler.check_array cols = inl e → exn_class e = "ValueError".
Proof.
  induction cols as [|s cols IH]; simpl; [done|].
  unfold StandardScaler.check_column at 1.
  destruct (to_floats s) as [xs|]; simpl; [|by intros [= <-]].
  destruct (existsb is_inf xs); simpl; [by intros [= <-]|].
  destruct (StandardScaler.check_array cols); simpl; [|done].
  intros [= <-]. by apply IH.
Qed.

Lemma scaler_fit_error cols e :
  StandardScaler.fit cols = inl e → exn_class e = "ValueError".
Proof.
  unfold StandardScaler.fit.
  destruct (StandardScaler.check_array cols) as [e'|xss] eqn:Hc; simpl.
  { intros [= <-]. by eapply scaler_check_array_error. }
  unfold StandardScaler.check_samples. destruct xss as [|xs xss]; simpl; [done|].
  case_decide; simpl; [|done]. by intros [= <-].
Qed.

Lemma scaler_check_array_infinity cols s :
  s ∈ cols → has_infinity s = true → ∃ e, StandardScaler.check_array cols = inl e.
Proof.
  intros Hin Hinf. induction cols as [|s' cols IH]; [by apply elem_of_nil in Hin|].
  simpl. apply elem_of_cons in Hin as [<-|Hin].
  - unfold StandardScaler.check_column, has_infinity in *.
    destruct (to_floats s); [|by eexists]. rewrite Hinf. by eexists.
  - destruct (StandardScaler.check_column s'); simpl; [by eexists|].
    destruct (IH Hin) as [e ->]. by eexists.
Qed.

Lemma scaler_fit_no_row cols :
  cols ≠ [] → Forall (λ s, series_len s = 0) cols → ∃ e, StandardScaler.fit cols = inl e.
Proof.
  intros Hne Hrows. unfold StandardScaler.fit.
  destruct (StandardScaler.check_array cols) as [e'|xss] eqn:Hc; simpl; [by eexists|].
  apply scaler_check_array_inv in Hc.
  destruct Hc as [|s' xs cols xss [Hs _] _]; [done|].
  apply Forall_cons in Hrows as [Hrow _]. simpl.
  rewrite (to_floats_length _ _ Hs), Hrow. rewrite decide_True by done. by eexists.
Qed.

Lemma ct_fit_scaler_raises num cat df xnum e :
  returns (feature_names_in df) →
  ColumnTransformer.select df num = inr xnum →
  returns (ColumnTransformer.select df cat) →
  num ≠ [] →
  StandardScaler.fit xnum = inl e →
  ColumnTransformer.fit (ColumnTransformer.new num cat) df = inl e.
Proof.
  intros [names Hn] Hsn [xcat Hsc] Hne Hfit. unfold ColumnTransformer.fit. simpl.
  rewrite Hn. simpl. rewrite Hsn. simpl. rewrite Hsc. simpl.
  destruct num; [done|]. by rewrite Hfit.
Qed.

Lemma derived_elem D D' c :
  with_derived_features D = inr D' →
  c ∈ D' → c ∈ D ∨ c.1 = LStr "BMI" ∨ c.1 = LStr "Age_Group".
Proof.
  unfold with_derived_features, set_BMI, set_Age_Group, df_setitem.
  intros Hd Hc.
  destruct (df_getitem D "Weight"); [done|]. simpl in Hd.
  destruct (df_getitem D "Height") as [?|ht]; [done|]. simpl in Hd.
  destruct (series_pow2 ht); [done|]. simpl in Hd.
  destruct (series_truediv _ _) as [?|bmi]; [done|]. simpl in Hd.
  destruct (df_getitem _ "Age") as [?|age]; [done|]. simpl in Hd.
  destruct (pd_cut age) as [?|group]; [done|]. simpl in Hd.
  injection Hd as <-.
  apply assoc_set_elem in Hc as [Hc| ->]; [|by right; right].
  apply assoc_set_elem in Hc as [Hc| ->]; [by left|by right; left].
Qed.

Lemma derived_feature_names D D' :
  with_derived_features D = inr D' →
  returns (feature_names_in D) → returns (feature_names_in D').
Proof.
  unfold feature_names_in, returns. intros Hd [names Hn].
  destruct (mapM str_label (columns D)) as [ns|] eqn:HD; [|done].
  assert (is_Some (mapM str_label (columns D'))) as [ns' ->]; [|by eexists].
  apply mapM_is_Some. apply Forall_forall. intros c Hc.
  apply list_elem_of_fmap in Hc as ([c' s] & -> & Hin). simpl.
  destruct (derived_elem _ _ _ Hd Hin) as [HinD|[Heq|Heq]]; simpl in *.
  - assert (is_Some (mapM str_label (columns D))) as HS by (by rewrite HD).
    apply mapM_is_Some in HS. eapply Forall_forall in HS; [done|].
    apply list_elem_of_fmap. by exists (c', s).
  - by rewrite Heq.
  - by rewrite Heq.
Qed.

(** The pipeline stage of [fit]: when the ColumnTransformer cannot be
    fitted on the table with its derived columns, [fit] raises what it
    raised; the table keeps its derived columns, the preprocessor its flag
    and feature names, and [self.pipeline] is the new, unfitted
    ColumnTransformer. *)
Lemma fit_pipeline_raises (data : loc) (self : TrainPreprocessor.t) (w : World) D D' e :
  frames w !! data = Some D →
  with_derived_features D = inr D' →
  ColumnTransformer.fit
    (ColumnTransformer.new (numeric_cols (settings w) D') (categorical_cols (settings w) D'))
    D' = inl e →
  ∃ w',
    TrainPreprocessor.fit data self w
    = (TrainPreprocessor.mk (TrainPreprocessor.fitted self)
         (Some (ColumnTransformer.new (numeric_cols (settings w) D')
                  (categorical_cols (settings w) D')))
         (TrainPreprocessor.feature_names self), w', inl e)
    ∧ frames w' = <[data := D']> (frames w) ∧ files w' = files w.
Proof.
  intros HD Hd Hct.
  destruct (fit_run data self w D D' HD Hd) as (w' & Hfr & Hfi & _ & Hrun).
  rewrite Hct in Hrun. by exists w'.
Qed.

(** The numeric feature columns can be selected from the table and are as
    long as it. *)
Lemma numeric_cols_select cfg df :
  ∃ xnum, ColumnTransformer.select df (numeric_cols cfg df) = inr xnum.
Proof. apply select_ok, Forall_forall. intros c. apply numeric_cols_columns. Qed.

Lemma categorical_cols_select cfg df :
  ∃ xcat, ColumnTransformer.select df (categorical_cols cfg df) = inr xcat.
Proof. apply select_ok, Forall_forall. intros c. apply categorical_cols_columns. Qed.

Lemma derived_inv D D' :
  with_derived_features D = inr D' →
  ∃ wt ht h2 bmi age group,
    df_getitem D "Weight" = inr wt ∧ df_getitem D "Height" = inr ht
    ∧ series_pow2 ht = inr h2 ∧ series_truediv wt h2 = inr bmi
    ∧ df_getitem (df_setitem D (LStr "BMI") bmi) "Age" = inr age
    ∧ pd_cut age = inr group
    ∧ D' = df_setitem (df_setitem D (LStr "BMI") bmi) (LStr "Age_Group") group.
Proof.
  unfold with_derived_features, set_BMI, set_Age_Group. intros Hd.
  destruct (df_getitem D "Weight") as [?|wt] eqn:Hw; [done|]. simpl in Hd.
  destruct (df_getitem D "Height") as [?|ht] eqn:Hh; [done|]. simpl in Hd.
  destruct (series_pow2 ht) as [?|h2] eqn:Hp; [done|]. simpl in Hd.
  destruct (series_truediv _ _) as [?|bmi] eqn:Hb; [done|]. simpl in Hd.
  destruct (df_getitem _ "Age") as [?|age] eqn:Ha; [done|]. simpl in Hd.
  destruct (pd_cut age) as [?|group] eqn:Hc; [done|]. simpl in Hd.
  injection Hd as <-. exists wt, ht, h2, bmi, age, group. by split_and!.
Qed.

Lemma series_truediv_number a b c : series_truediv a b = inr c → is_number a = true.
Proof. unfold series_truediv. by destruct a. Qed.

Lemma series_pow2_number a b : series_pow2 a = inr b → is_number a = true.
Proof. by destruct a. Qed.

Lemma df_getitem_lookup df key s : df_getitem df key = inr s ↔ assoc_lookup df (LStr key) = Some s.
Proof. unfold df_getitem. destruct (assoc_lookup df _); naive_solver. Qed.

(** After the derivation, Weight, Height and BMI are numeric columns of the
    table and Age_Group is a category column. *)
Lemma derived_columns D D' :
  with_derived_features D = inr D' →
  ∃ wt ht bmi group,
    assoc_lookup D' (LStr "Weight") = Some wt ∧ is_number wt = true
    ∧ assoc_lookup D' (LStr "Height") = Some ht ∧ is_number ht = true
    ∧ assoc_lookup D' (LStr "BMI") = Some (SFloat bmi)
    ∧ assoc_lookup D' (LStr "Age_Group") = Some (SCat group)
    ∧ set_BMI D = inr (df_setitem D (LStr "BMI") (SFloat bmi)).
Proof.
  intros Hd.
  destruct (derived_inv _ _ Hd) as (wt & ht & h2 & bmi & age & group
                                     & Hw & Hh & Hp & Hb & Ha & Hc & ->).
  assert (∃ xs, bmi = SFloat xs) as [xs ->].
  { unfold series_truediv in Hb. destruct (to_floats wt), (to_floats h2); simplify_eq.
    by eexists. }
  assert (∃ g, group = SCat g) as [g ->].
  { unfold pd_cut in Hc. destruct (to_floats age); simplify_eq. by eexists. }
  exists wt, ht, xs, g. unfold df_setitem.
  apply df_getitem_lookup in Hw, Hh.
  split_and!.
  - by rewrite !assoc_lookup_set_ne.
  - by eapply series_truediv_number.
  - by rewrite !assoc_lookup_set_ne.
  - by eapply series_pow2_number.
  - rewrite assoc_lookup_set_ne by done. apply assoc_lookup_set_eq.
  - apply assoc_lookup_set_eq.
  - unfold set_BMI. apply df_getitem_lookup in Hw, Hh. rewrite Hw, Hh. simpl.
    rewrite Hp. simpl. by rewrite Hb.
Qed.

Lemma numeric_cols_intro cfg df c s :
  assoc_lookup df c = Some s → is_number s = true → c ≠ LStr (target_column cfg) →
  c ∈ numeric_cols cfg df.
Proof.
  intros Hc Hs Hne. apply list_remove_keeps; [done|].
  apply select_number_elem. exists s. split; [|done]. by apply assoc_lookup_Some_elem.
Qed.

Lemma categorical_cols_intro cfg df c s :
  assoc_lookup df c = Some s → is_number s = false → c ≠ LStr (target_column cfg) →
  c ∈ categorical_cols cfg df.
Proof.
  intros Hc Hs Hne. apply list_remove_keeps; [done|].
  apply select_not_number_elem. exists s. split; [|done]. by apply assoc_lookup_Some_elem.
Qed.

Lemma select_elem_of df cols xs c s :
  ColumnTransformer.select df cols = inr xs →
  c ∈ cols → assoc_lookup df c = Some s → s ∈ xs.
Proof.
  intros Hsel Hc Hs. apply list_elem_of_lookup in Hc as (j & Hj).
  eapply list_elem_of_lookup_2. by eapply select_lookup.
Qed.

(** The cell of BMI for a height of zero and a weight that is not. *)
Lemma bmi_zero_height (wt ht h2 : Series) (ws hs bmi : list float) (i : nat) (q h : Q) :
  to_floats wt = Some ws → to_floats ht = Some hs →
  series_pow2 ht = inr h2 → series_truediv wt h2 = inr (SFloat bmi) →
  ws !! i = Some (Fin q) → hs !! i = Some (Fin h) →
  ¬ (q == 0)%Q → (h == 0)%Q →
  bmi !! i = Some (Inf (fneg_sign q)).
Proof.
  intros Hws Hhs Hp Hb Hq Hh Hq0 Hh0.
  assert (∃ hs2 h', to_floats h2 = Some hs2 ∧ hs2 !! i = Some (Fin h') ∧ (h' == 0)%Q)
    as (hs2 & h' & Hhs2 & Hh' & Hh'0).
  { destruct ht as [zs|xs| |]; unfold series_pow2 in Hp; simpl in Hhs; simplify_eq.
    - rewrite list_lookup_fmap in Hh.
      destruct (zs !! i) as [z|] eqn:Hz; simpl in Hh; [|done].
      injection Hh as <-.
      assert (z = 0%Z) as ->.
      { unfold Qeq in Hh0. simpl in Hh0. lia. }
      eexists _, _. split; [reflexivity|]. rewrite !list_lookup_fmap, Hz. simpl. done.
    - eexists _, _. split; [reflexivity|]. rewrite list_lookup_fmap, Hh. simpl.
      split; [done|]. rewrite Hh0. reflexivity. }
  unfold series_truediv in Hb. rewrite Hws, Hhs2 in Hb. injection Hb as <-.
  rewrite lookup_zip_with, Hq, Hh'. simpl. f_equal.
  assert (Qeq_bool h' 0 = true) as -> by by apply Qeq_bool_iff.
  assert (Qeq_bool q 0 = false) as ->; [|done].
  apply not_true_is_false. by intros ?%Qeq_bool_iff.
Qed.

(** X8: a height of zero makes [fit] fail, with [ValueError] and not with
    [ZeroDivisionError].  On a table whose labels are strings and from
    which the features can be derived, when a row has a zero Height and a
    non-zero Weight, BMI is an infinity in that row, and [fit] raises the
    [ValueError] of the scaler; the table keeps its derived columns and the
    [fitted] flag is as before.  (The label column is assumed not to be
    BMI.) *)
Theorem fit_zero_height_raises
    (data : loc) (self : TrainPreprocessor.t) (w : World) (D D' : DataFrame)
    (weight height : Series) (ws hs : list float) (i : nat) (q h : Q) :
  frames w !! data = Some D →
  returns (feature_names_in D) →
  target_column (settings w) ≠ "BMI" →
  with_derived_features D = inr D' →
  df_getitem D "Weight" = inr weight → to_floats weight = Some ws →
  df_getitem D "Height" = inr height → to_floats height = Some hs →
  ws !! i = Some (Fin q) → hs !! i = Some (Fin h) →
  ¬ (q == 0)%Q → (h == 0)%Q →
  ∃ e w' st bmi,
    TrainPreprocessor.fit data self w = (st, w', inl e)
    ∧ exn_class e = "ValueError"
    ∧ TrainPreprocessor.fitted st = TrainPreprocessor.fitted self
    ∧ frames w' !! data = Some D'
    ∧ df_getitem D' "BMI" = inr (SFloat bmi)
    ∧ bmi !! i = Some (Inf (fneg_sign q)).
Proof.
  intros HD Hlabels Htarget Hd Hw Hws Hh Hhs Hq Hhi Hq0 Hh0.
  destruct (derived_inv _ _ Hd) as (wt & ht & h2 & bmi0 & age & group
                                     & Hw' & Hh' & Hp & Hb & _).
  assert (wt = weight) as -> by congruence. assert (ht = height) as -> by congruence.
  destruct (derived_columns _ _ Hd) as (wt' & ht' & bmi & g & _ & _ & _ & _ & Hbmi & _ & Hset).
  assert (bmi0 = SFloat bmi) as ->.
  { unfold set_BMI in Hset. rewrite Hw, Hh in Hset. simpl in Hset. rewrite Hp in Hset.
    simpl in Hset. rewrite Hb in Hset. simpl in Hset.
    injection Hset as Hset. unfold df_setitem in Hset.
    pose proof (assoc_lookup_set_eq D (LStr "BMI") bmi0) as H1.
    rewrite Hset, assoc_lookup_set_eq in H1. congruence. }
  pose proof (bmi_zero_height _ _ _ _ _ _ _ _ _ Hws Hhs Hp Hb Hq Hhi Hq0 Hh0) as Hcell.
  set (num := numeric_cols (settings w) D').
  set (cat := categorical_cols (settings w) D').
  assert (LStr "BMI" ∈ num) as Hin.
  { eapply numeric_cols_intro; [done|done|]. by intros [= Heq]. }
  destruct (numeric_cols_select (settings w) D') as [xnum Hsn]. fold num in Hsn.
  pose proof (select_elem_of _ _ _ _ _ Hsn Hin Hbmi) as Hx.
  destruct (scaler_check_array_infinity xnum (SFloat bmi) Hx) as [e He].
  { unfold has_infinity. simpl. apply existsb_exists. exists (Inf (fneg_sign q)).
    split; [|done]. apply list_elem_of_In. by eapply list_elem_of_lookup_2. }
  assert (StandardScaler.fit xnum = inl e) as Hfit.
  { unfold StandardScaler.fit. by rewrite He. }
  assert (ColumnTransformer.fit (ColumnTransformer.new num cat) D' = inl e) as Hct.
  { eapply ct_fit_scaler_raises; [by eapply derived_feature_names|done| | |done].
    - destruct (categorical_cols_select (settings w) D') as [xcat Hsc]. by exists xcat.
    - intros Hnil. rewrite Hnil in Hin. by apply elem_of_nil in Hin. }
  destruct (fit_pipeline_raises data self w D D' e HD Hd Hct) as (w' & Hrun & Hfr & _).
  eexists e, w', _, bmi. split_and!.
  - exact Hrun.
  - by eapply scaler_fit_error.
  - done.
  - rewrite Hfr. apply list_lookup_insert_eq. by eapply lookup_lt_Some.
  - by apply df_getitem_lookup.
  - done.
Qed.

Lemma fit_zero_height_raises_witness :
  ∃ e w' st bmi,
    TrainPreprocessor.fit 0 scenario_preprocessor (world_of [zero_height_table])
    = (st, w', inl e)
    ∧ exn_class e = "ValueError"
    ∧ TrainPreprocessor.fitted st = TrainPreprocessor.fitted scenario_preprocessor
    ∧ frames w' !! 0
      = Some (zero_height_table
              ++ [ (LStr "BMI", SFloat [Fin (70 # 28900); Inf false]);
                   (LStr "Age_Group", SCat [Some "Young"; Some "Adult"]) ])
    ∧ df_getitem (zero_height_table
                  ++ [ (LStr "BMI", SFloat [Fin (70 # 28900); Inf false]);
                       (LStr "Age_Group", SCat [Some "Young"; Some "Adult"]) ]) "BMI"
      = inr (SFloat bmi)
    ∧ bmi !! 1 = Some (Inf (fneg_sign 90)).
Proof.
  apply (fit_zero_height_raises 0 scenario_preprocessor (world_of [zero_height_table])
           zero_height_table
           (zero_height_table
            ++ [ (LStr "BMI", SFloat [Fin (70 # 28900); Inf false]);
                 (LStr "Age_Group", SCat [Some "Young"; Some "Adult"]) ])
           (SInt [70; 90]%Z) (SInt [170; 0]%Z)
           [of_int 70; of_int 90] [of_int 170; of_int 0] 1 90 0).
  - reflexivity.
  - by eexists.
  - discriminate.
  - vm_compute. reflexivity.
  - reflexivity.
  - reflexivity.
  - reflexivity.
  - reflexivity.
  - reflexivity.
  - reflexivity.
  - discriminate.
  - reflexivity.
Defined.

(** X9: a table with no row makes [fit] fail.  On a well-formed table
    whose labels are strings, with the raw columns but no row, [fit] raises
    the [ValueError] of the scaler (it needs one sample at least); the
    table has gained its two, empty, derived columns, and the preprocessor
    keeps its [fitted] flag and its feature names. *)
Theorem fit_no_row_raises
    (data : loc) (self : TrainPreprocessor.t) (w : World) (D D' : DataFrame) :
  frames w !! data = Some D →
  returns (feature_names_in D) →
  wf_frame D →
  n_rows D = 0 →
  with_derived_features D = inr D' →
  ∃ e w' st,
    TrainPreprocessor.fit data self w = (st, w', inl e)
    ∧ exn_class e = "ValueError"
    ∧ TrainPreprocessor.fitted st = TrainPreprocessor.fitted self
    ∧ TrainPreprocessor.feature_names st = TrainPreprocessor.feature_names self
    ∧ frames w' !! data = Some D'
    ∧ Forall (λ c, series_len c.2 = 0) D'.
Proof.
  intros HD Hlabels [_ Hwf] Hrows Hd. rewrite Hrows in Hwf.
  pose proof (derived_lengths _ _ _ Hwf Hd) as Hrows'.
  destruct (derived_columns _ _ Hd) as (wt & ht & bmi & g & Hw & Hwn & Hh & Hhn & _).
  set (num := numeric_cols (settings w) D').
  set (cat := categorical_cols (settings w) D').
  assert (num ≠ []) as Hne.
  { destruct (decide (LStr "Weight" = LStr (target_column (settings w)))) as [Heq|Hneq].
    - assert (LStr "Height" ∈ num) as Hin.
      { eapply numeric_cols_intro; [done|done|]. rewrite <- Heq. done. }
      intros Hnil. rewrite Hnil in Hin. by apply elem_of_nil in Hin.
    - assert (LStr "Weight" ∈ num) as Hin by (by eapply numeric_cols_intro).
      intros Hnil. rewrite Hnil in Hin. by apply elem_of_nil in Hin. }
  destruct (numeric_cols_select (settings w) D') as [xnum Hsn]. fold num in Hsn.
  assert (xnum ≠ []) as Hxne.
  { apply select_spec, Forall2_length in Hsn. destruct xnum, num; done. }
  destruct (scaler_fit_no_row xnum Hxne) as [e Hfit].
  { by eapply (select_elem D' _ xnum (λ s, series_len s = 0)). }
  assert (ColumnTransformer.fit (ColumnTransformer.new num cat) D' = inl e) as Hct.
  { eapply ct_fit_scaler_raises; [by eapply derived_feature_names|done| |done|done].
    destruct (categorical_cols_select (settings w) D') as [xcat Hsc]. by exists xcat. }
  destruct (fit_pipeline_raises data self w D D' e HD Hd Hct) as (w' & Hrun & Hfr & _).
  eexists e, w', _. split_and!.
  - exact Hrun.
  - by eapply scaler_fit_error.
  - done.
  - done.
  - rewrite Hfr. apply list_lookup_insert_eq. by eapply lookup_lt_Some.
  - done.
Qed.

Lemma fit_no_row_raises_witness :
  ∃ e w' st,
    TrainPreprocessor.fit 0 TrainPreprocessor.__init__ (world_of [no_row_table])
    = (st, w', inl e)
    ∧ exn_class e = "ValueError"
    ∧ TrainPreprocessor.fitted st = TrainPreprocessor.fitted TrainPreprocessor.__init__
    ∧ TrainPreprocessor.feature_names st
      = TrainPreprocessor.feature_names TrainPreprocessor.__init__
    ∧ frames w' !! 0
      = Some (no_row_table ++ [ (LStr "BMI", SFloat []); (LStr "Age_Group", SCat []) ])
    ∧ Forall (λ c, series_len c.2 = 0)
        (no_row_table ++ [ (LStr "BMI", SFloat []); (LStr "Age_Group", SCat []) ]).
Proof.
  apply (fit_no_row_raises 0 TrainPreprocessor.__init__ (world_of [no_row_table])
           no_row_table
           (no_row_table ++ [ (LStr "BMI", SFloat []); (LStr "Age_Group", SCat []) ])).
  - reflexivity.
  - by eexists.
  - split; [by apply (bool_decide_unpack _); vm_compute|repeat constructor].
  - reflexivity.
  - vm_compute. reflexivity.
Defined.

Lemma map_LStr_str_label (cols : list label) :
  Forall (λ c, is_Some (str_label c)) cols → map LStr (omap str_label cols) = cols.
Proof.
  induction 1 as [|c cols [s Hs] _ IH]; [done|].
  destruct c as [s'|n]; [|done]. csimpl. by rewrite IH.
Qed.

(** When the ColumnTransformer was fitted with a categorical column, the
    names of the indicator columns can be read from it. *)
Lemma cat_feature_names_ok num cat df ct :
  ColumnTransformer.fit (ColumnTransformer.new num cat) df = inr ct →
  cat ≠ [] →
  returns (ColumnTransformer.cat_feature_names_out ct cat).
Proof.
  intros Hfit Hne.
  destruct (ct_fit_inv _ _ _ _ Hfit)
    as (xnum & xcat & numf & catf & [names Hn] & _ & Hsc & -> & _ & Hcatf).
  destruct catf as [enc|]; [|done].
  destruct (encoder_fit_inv _ _ _ Hcatf) as [-> _].
  unfold ColumnTransformer.cat_feature_names_out, OneHotEncoder.get_feature_names_out. simpl.
  rewrite decide_True; [by eexists|].
  symmetry. apply map_LStr_str_label.
  unfold feature_names_in in Hn.
  destruct (mapM str_label (columns df)) as [ns|] eqn:Hm; [|done].
  assert (is_Some (mapM str_label (columns df))) as HS by (by rewrite Hm).
  apply mapM_is_Some in HS.
  apply select_spec in Hsc. apply Forall_forall. intros c Hc.
  apply list_elem_of_lookup in Hc as (j & Hj).
  destruct (Forall2_lookup_l _ _ _ _ _ Hsc Hj) as (s & _ & Hs).
  eapply Forall_forall in HS; [done|].
  unfold columns. apply list_elem_of_fmap. exists (c, s). split; [done|].
  by apply assoc_lookup_Some_elem.
Qed.

(** X10: a [fit] that fails in the pipeline leaves a fitted preprocessor
    unusable.  When the features can be derived and [fit] raises all the
    same, [self.pipeline] is by then a new ColumnTransformer that was never
    fitted, while [fitted] and the feature names are those of before: a
    preprocessor that was fitted keeps its flag, and its [transform] raises
    on every table.  (The label column is assumed not to be Age_Group.) *)
Theorem failed_fit_breaks_fitted_preprocessor
    (data : loc) (self : TrainPreprocessor.t) (w : World) (D D' : DataFrame) (e : exn) :
  frames w !! data = Some D →
  with_derived_features D = inr D' →
  target_column (settings w) ≠ "Age_Group" →
  TrainPreprocessor.fitted self = true →
  (TrainPreprocessor.fit data self w).2 = inl e →
  ∃ st w',
    TrainPreprocessor.fit data self w = (st, w', inl e)
    ∧ TrainPreprocessor.fitted st = true
    ∧ TrainPreprocessor.feature_names st = TrainPreprocessor.feature_names self
    ∧ TrainPreprocessor.pipeline st
      = Some (ColumnTransformer.new (numeric_cols (settings w) D')
                (categorical_cols (settings w) D'))
    ∧ frames w' !! data = Some D'
    ∧ (∀ l wa A, frames wa !! l = Some A →
         ∃ e' wa', TrainPreprocessor.transform l st wa = (st, wa', inl e')).
Proof.
  intros HD Hd Htarget Hf Hraise.
  destruct (derived_columns _ _ Hd) as (wt & ht & bmi & g & _ & _ & _ & _ & _ & Hg & _).
  set (num := numeric_cols (settings w) D').
  set (cat := categorical_cols (settings w) D').
  assert (cat ≠ []) as Hne.
  { assert (LStr "Age_Group" ∈ cat) as Hin.
    { eapply categorical_cols_intro; [done|done|]. by intros [= Heq]. }
    intros Hnil. rewrite Hnil in Hin. by apply elem_of_nil in Hin. }
  destruct (fit_run data self w D D' HD Hd) as (w' & Hfr & _ & _ & Hrun).
  fold num cat in Hrun.
  destruct (ColumnTransformer.fit (ColumnTransformer.new num cat) D') as [e'|ct] eqn:Hct.
  2:{ destruct (cat_feature_names_ok _ _ _ _ Hct Hne) as [names Hnames].
      rewrite Hnames in Hrun. by rewrite Hrun in Hraise. }
  rewrite Hrun in Hraise. injection Hraise as ->.
  eexists _, w'. split; [exact Hrun|]. rewrite Hf. split_and!; try done.
  - rewrite Hfr. apply list_lookup_insert_eq. by eapply lookup_lt_Some.
  - intros l wa A HA.
    set (st := TrainPreprocessor.mk true (Some (ColumnTransformer.new num cat))
                 (TrainPreprocessor.feature_names self)).
    destruct (with_derived_features A) as [e'|A'] eqn:HA'.
    + destruct (train_transform_raises_derive l st wa A e' eq_refl HA HA') as (wa' & Ht & _).
      by exists e', wa'.
    + destruct (train_transform_run l st wa A A' _ eq_refl eq_refl HA HA')
        as (wa' & _ & _ & Ht).
      unfold ColumnTransformer.transform in Ht. simpl in Ht.
      destruct Ht as [Ht _]. by eexists _, wa'.
Qed.

Lemma failed_fit_breaks_fitted_preprocessor_witness :
  ∃ st w',
    TrainPreprocessor.fit 0 scenario_preprocessor (world_of [zero_height_table])
    = (st, w',
       inl (ValueError
              "Input X contains infinity or a value too large for dtype('float64')."))
    ∧ TrainPreprocessor.fitted st = true
    ∧ TrainPreprocessor.feature_names st
      = TrainPreprocessor.feature_names scenario_preprocessor
    ∧ TrainPreprocessor.pipeline st
      = Some (ColumnTransformer.new
                (numeric_cols (settings (world_of [zero_height_table]))
                   (zero_height_table
                    ++ [ (LStr "BMI", SFloat [Fin (70 # 28900); Inf false]);
                         (LStr "Age_Group", SCat [Some "Young"; Some "Adult"]) ]))
                (categorical_cols (settings (world_of [zero_height_table]))
                   (zero_height_table
                    ++ [ (LStr "BMI", SFloat [Fin (70 # 28900); Inf false]);
                         (LStr "Age_Group", SCat [Some "Young"; Some "Adult"]) ])))
    ∧ frames w' !! 0
      = Some (zero_height_table
              ++ [ (LStr "BMI", SFloat [Fin (70 # 28900); Inf false]);
                   (LStr "Age_Group", SCat [Some "Young"; Some "Adult"]) ])
    ∧ (∀ l wa A, frames wa !! l = Some A →
         ∃ e' wa', TrainPreprocessor.transform l st wa = (st, wa', inl e')).
Proof.
  apply (failed_fit_breaks_fitted_preprocessor 0 scenario_preprocessor
           (world_of [zero_height_table]) zero_height_table
           (zero_height_table
            ++ [ (LStr "BMI", SFloat [Fin (70 # 28900); Inf false]);
                 (LStr "Age_Group", SCat [Some "Young"; Some "Adult"]) ])).
  - reflexivity.
  - vm_compute. reflexivity.
  - discriminate.
  - vm_compute. reflexivity.
  - vm_compute. reflexivity.
Defined.

(** * Further properties of the evaluator and the comparator *)

(** ** Counting label pairs *)

Lemma count_cons (P : Z * Z → bool) p ps :
  metrics.count P (p :: ps) = ((if P p then 1 else 0) + metrics.count P ps)%Z.
Proof. unfold metrics.count. simpl. destruct (P p); simpl; lia. Qed.

Lemma count_nil (P : Z * Z → bool) : metrics.count P [] = 0%Z.
Proof. done. Qed.

Lemma count_ext (P Q : Z * Z → bool) ps :
  (∀ p, P p = Q p) → metrics.count P ps = metrics.count Q ps.
Proof.
  intros HPQ. induction ps as [|p ps IH]; [done|]. by rewrite !count_cons, HPQ, IH.
Qed.

Lemma count_all (P : Z * Z → bool) ps :
  (∀ p, p ∈ ps → P p = true) → metrics.count P ps = Z.of_nat (length ps).
Proof.
  induction ps as [|p ps IH]; intros HP; [done|]. rewrite count_cons, IH.
  - rewrite HP by by left. simpl length. lia.
  - intros q Hq. apply HP. by right.
Qed.

Lemma count_le_length (P : Z * Z → bool) ps : (metrics.count P ps <= Z.of_nat (length ps))%Z.
Proof.
  unfold metrics.count. apply inj_le. apply List.filter_length_le.
Qed.

(** The labels scikit-learn finds are distinct, and every label of either
    list is among them. *)
Lemma metrics_insert_unique_elem (a x : Z) (l : list Z) :
  x ∈ metrics.insert_unique a l ↔ x = a ∨ x ∈ l.
Proof.
  induction l as [|y l IH]; simpl.
  - rewrite list_elem_of_singleton, elem_of_nil. naive_solver.
  - destruct (Z.eqb_spec a y) as [->|Hne].
    + rewrite elem_of_cons. naive_solver.
    + destruct (a <? y)%Z; rewrite !elem_of_cons; [naive_solver|].
      rewrite IH. naive_solver.
Qed.

Lemma unique_labels_elem (y_true y_pred : list Z) x :
  x ∈ metrics.unique_labels y_true y_pred ↔ x ∈ y_true ++ y_pred.
Proof.
  unfold metrics.unique_labels. induction (y_true ++ y_pred) as [|a l IH]; simpl; [done|].
  rewrite metrics_insert_unique_elem, elem_of_cons, IH. done.
Qed.

Lemma metrics_insert_unique_increasing (a : Z) (l : list Z) :
  increasing Z.lt l → increasing Z.lt (metrics.insert_unique a l).
Proof.
  induction l as [|x r IH]; simpl; [done|]. intros [Hx Hr].
  destruct (Z.eqb_spec a x) as [->|Hne]; [done|].
  destruct (Z.ltb_spec a x) as [Hlt|Hge]; simpl.
  - split; [|done]. constructor; [done|].
    eapply Forall_impl; [done|]. intros y Hy. simpl in Hy. lia.
  - split; [|by apply IH]. apply Forall_forall. intros y Hy.
    apply metrics_insert_unique_elem in Hy as [->|Hy]; [lia|].
    by eapply Forall_forall in Hx.
Qed.

Lemma unique_labels_NoDup (y_true y_pred : list Z) :
  NoDup (metrics.unique_labels y_true y_pred).
Proof.
  apply (increasing_NoDup Z.lt); [intros x; lia|].
  unfold metrics.unique_labels. induction (y_true ++ y_pred) as [|a l IH]; simpl; [done|].
  by apply metrics_insert_unique_increasing.
Qed.

Lemma Zsum_add (g h : Z → Z) (labels : list Z) :
  foldr Z.add 0%Z (map (λ c, g c + h c)%Z labels)
  = (foldr Z.add 0%Z (map g labels) + foldr Z.add 0%Z (map h labels))%Z.
Proof. induction labels as [|c labels IH]; simpl; [done|]. rewrite IH. lia. Qed.

Lemma Zsum_zero (g : Z → Z) (labels : list Z) :
  (∀ c, c ∈ labels → g c = 0%Z) → foldr Z.add 0%Z (map g labels) = 0%Z.
Proof.
  induction labels as [|c labels IH]; intros Hg; simpl; [done|].
  rewrite Hg by by left. rewrite IH; [done|]. intros c' Hc'. apply Hg. by right.
Qed.

Lemma Zsum_indicator (x : Z) (b : bool) (labels : list Z) :
  NoDup labels → x ∈ labels →
  foldr Z.add 0%Z (map (λ c, if (x =? c)%Z && b then 1 else 0)%Z labels)
  = (if b then 1 else 0)%Z.
Proof.
  induction 1 as [|c labels Hc Hnd IH]; [by intros ?%elem_of_nil|].
  intros [->|Hx]%elem_of_cons; simpl.
  - rewrite Z.eqb_refl. simpl. rewrite Zsum_zero; [lia|].
    intros c' Hc'. destruct (Z.eqb_spec c c') as [->|]; done.
  - rewrite IH by done. destruct (Z.eqb_spec x c) as [->|]; [done|]. simpl. lia.
Qed.

(** Counting the pairs class by class, on their true label. *)
Lemma Zsum_count_by_true_label (labels : list Z) (P : Z * Z → bool) (pairs : list (Z * Z)) :
  NoDup labels →
  (∀ p, p ∈ pairs → p.1 ∈ labels) →
  foldr Z.add 0%Z (map (λ c, metrics.count (λ p, (p.1 =? c)%Z && P p) pairs) labels)
  = metrics.count P pairs.
Proof.
  intros Hnd. induction pairs as [|p pairs IH]; intros Hin.
  - apply Zsum_zero. done.
  - rewrite count_cons, <- IH by (intros q Hq; apply Hin; by right).
    rewrite <- (Zsum_indicator p.1 (P p) labels Hnd) by (apply Hin; by left).
    rewrite <- Zsum_add. f_equal. apply map_ext. intros c. by rewrite count_cons.
Qed.

Lemma zip_fst_elem (y_true y_pred : list Z) p : p ∈ zip y_true y_pred → p.1 ∈ y_true.
Proof. destruct p as [a b]. intros Hp. by eapply elem_of_zip_l. Qed.

Lemma total_support (y_true y_pred : list Z) :
  foldr Z.add 0%Z
    (map (metrics.true_sum (zip y_true y_pred)) (metrics.unique_labels y_true y_pred))
  = Z.of_nat (length (zip y_true y_pred)).
Proof.
  rewrite <- (count_all (λ _, true)) by done.
  rewrite <- (Zsum_count_by_true_label (metrics.unique_labels y_true y_pred) (λ _, true));
    [|apply unique_labels_NoDup|].
  - f_equal. apply map_ext. intros c. unfold metrics.true_sum. apply count_ext.
    intros p. by rewrite andb_true_r.
  - intros p Hp%zip_fst_elem. apply unique_labels_elem, elem_of_app. by left.
Qed.

Lemma ratio_self (a : Z) : a ≠ 0%Z → (metrics.ratio a a == 1)%Q.
Proof.
  intros Ha. unfold metrics.ratio. destruct (Z.eqb_spec a 0) as [->|_]; [done|].
  field. intros H0. apply Ha. unfold Qeq in H0. simpl in H0. lia.
Qed.

Lemma weighted_unfold (score : list (Z * Z) → Z → Q) (y_true y_pred : list Z) :
  length y_true = length y_pred →
  y_true ≠ [] →
  metrics.weighted score y_true y_pred
  = inr (Fin (foldr Qplus 0%Q
                (map (λ c, inject_Z (metrics.true_sum (zip y_true y_pred) c)
                           * score (zip y_true y_pred) c)%Q
                   (metrics.unique_labels y_true y_pred))
              / inject_Z (Z.of_nat (length y_true)))).
Proof.
  intros Hlen Hne. unfold metrics.weighted, metrics.check_consistent_length.
  rewrite decide_True by done. simpl. rewrite total_support.
  rewrite length_zip, <- Hlen, Nat.min_id.
  destruct (Z.eqb_spec (Z.of_nat (length y_true)) 0) as [H0|_]; [|done].
  destruct y_true; [done|]. simpl in H0. lia.
Qed.

Lemma Qsum_ext (g h : Z → Q) (labels : list Z) :
  (∀ c, c ∈ labels → (g c == h c)%Q) →
  (foldr Qplus 0%Q (map g labels) == foldr Qplus 0%Q (map h labels))%Q.
Proof.
  induction labels as [|c labels IH]; intros Hgh; simpl; [reflexivity|].
  rewrite (Hgh c) by by left. rewrite IH; [reflexivity|].
  intros c' Hc'. apply Hgh. by right.
Qed.

Lemma Qsum_inject (g : Z → Z) (labels : list Z) :
  (foldr Qplus 0%Q (map (λ c, inject_Z (g c)) labels)
   == inject_Z (foldr Z.add 0%Z (map g labels)))%Q.
Proof.
  induction labels as [|c labels IH]; simpl; [reflexivity|].
  rewrite IH, inject_Z_plus. reflexivity.
Qed.

Lemma accuracy_unfold (y_true y_pred : list Z) :
  length y_true = length y_pred →
  y_true ≠ [] →
  metrics.accuracy_score y_true y_pred
  = inr (Fin (inject_Z (metrics.count (λ p, (p.1 =? p.2)%Z) (zip y_true y_pred))
              / inject_Z (Z.of_nat (length y_true)))).
Proof.
  intros Hlen Hne. unfold metrics.accuracy_score, metrics.check_consistent_length.
  rewrite decide_True by done. simpl.
  destruct (zip y_true y_pred) as [|p ps] eqn:Hz.
  { destruct y_true, y_pred; done. }
  rewrite <- Hz. unfold metrics.ratio. rewrite length_zip, <- Hlen, Nat.min_id.
  destruct (Z.eqb_spec (Z.of_nat (length y_true)) 0) as [H0|_]; [|done].
  destruct y_true; [done|]. simpl in H0. lia.
Qed.

Lemma length_nonzero_Q (y_true : list Z) :
  y_true ≠ [] → (0 < inject_Z (Z.of_nat (length y_true)))%Q.
Proof. intros Hne. rewrite <- (Zlt_Qlt 0). destruct y_true; [done|]. simpl. lia. Qed.

Lemma evaluate_values (y_true y_pred : list Z) (s : ModelEvaluator.t) (w : World) :
  length y_true = length y_pred →
  y_true ≠ [] →
  ∃ w',
    ModelEvaluator.evaluate y_true y_pred s w
    = (s, w',
       inr [ ("accuracy", PFloat (Fin (accuracy_value y_true y_pred)));
             ("precision", PFloat (Fin (weighted_value metrics.class_precision y_true y_pred)));
             ("recall", PFloat (Fin (weighted_value metrics.class_recall y_true y_pred)));
             ("f1_score", PFloat (Fin (weighted_value metrics.class_f1 y_true y_pred))) ])
    ∧ frames w' = frames w ∧ files w' = files w.
Proof.
  intros Hlen Hne.
  destruct (evaluate_run y_true y_pred s w
              [ ("accuracy", PFloat (Fin (accuracy_value y_true y_pred)));
                ("precision",
                 PFloat (Fin (weighted_value metrics.class_precision y_true y_pred)));
                ("recall", PFloat (Fin (weighted_value metrics.class_recall y_true y_pred)));
                ("f1_score", PFloat (Fin (weighted_value metrics.class_f1 y_true y_pred))) ])
    as (cm & _ & Hrun).
  { unfold metrics_dict, metrics.precision_score, metrics.recall_score, metrics.f1_score.
    rewrite accuracy_unfold, !weighted_unfold by done. done. }
  eexists. split; [exact Hrun|done].
Qed.

Lemma count_ext_in (P Q : Z * Z → bool) ps :
  (∀ p, p ∈ ps → P p = Q p) → metrics.count P ps = metrics.count Q ps.
Proof.
  induction ps as [|p ps IH]; intros HPQ; [done|].
  rewrite !count_cons, HPQ by by left. rewrite IH; [done|].
  intros q Hq. apply HPQ. by right.
Qed.

Lemma zip_diag_elem (y : list Z) p : p ∈ zip y y → p.1 = p.2.
Proof.
  induction y as [|a y IH]; simpl; [by intros ?%elem_of_nil|].
  intros [->|Hp]%elem_of_cons; [done|by apply IH].
Qed.

Lemma weighted_value_one (score : list (Z * Z) → Z → Q) (y_true y_pred : list Z) :
  length y_true = length y_pred →
  y_true ≠ [] →
  (∀ c, metrics.true_sum (zip y_true y_pred) c ≠ 0%Z → (score (zip y_true y_pred) c == 1)%Q) →
  (weighted_value score y_true y_pred == 1)%Q.
Proof.
  intros Hlen Hne Hscore. unfold weighted_value.
  pose proof (length_nonzero_Q _ Hne) as Hn.
  assert (foldr Qplus 0%Q
            (map (λ c, inject_Z (metrics.true_sum (zip y_true y_pred) c)
                       * score (zip y_true y_pred) c)%Q
               (metrics.unique_labels y_true y_pred))
          == inject_Z (Z.of_nat (length y_true)))%Q as ->.
  { assert (Z.of_nat (length y_true) = Z.of_nat (length (zip y_true y_pred))) as ->
      by (rewrite length_zip; lia).
    rewrite <- total_support, <- Qsum_inject.
    apply Qsum_ext. intros c _.
    destruct (decide (metrics.true_sum (zip y_true y_pred) c = 0%Z)) as [->|Hnz].
    - change (inject_Z 0) with 0%Q. lra.
    - rewrite (Hscore c Hnz). lra. }
  field. lra.
Qed.

(** X11: predictions that are all right score 1 on the four metrics. *)
Theorem evaluate_perfect_predictions (y : list Z) (w : World) :
  y ≠ [] →
  ∃ w' acc prec rec f1,
    ModelEvaluator.evaluate y y ModelEvaluator.__init__ w
    = (ModelEvaluator.__init__, w',
       inr [ ("accuracy", PFloat (Fin acc)); ("precision", PFloat (Fin prec));
             ("recall", PFloat (Fin rec)); ("f1_score", PFloat (Fin f1)) ])
    ∧ (acc == 1)%Q ∧ (prec == 1)%Q ∧ (rec == 1)%Q ∧ (f1 == 1)%Q.
Proof.
  intros Hne.
  destruct (evaluate_values y y ModelEvaluator.__init__ w eq_refl Hne) as (w' & Hrun & _).
  assert (∀ c, metrics.tp_sum (zip y y) c = metrics.true_sum (zip y y) c) as Htp.
  { intros c. apply count_ext_in. intros p Hp%zip_diag_elem. rewrite <- Hp.
    by destruct (p.1 =? c)%Z. }
  assert (∀ c, metrics.pred_sum (zip y y) c = metrics.true_sum (zip y y) c) as Hpred.
  { intros c. apply count_ext_in. intros p Hp%zip_diag_elem. by rewrite <- Hp. }
  eexists w', _, _, _, _. split; [exact Hrun|]. split_and!.
  - unfold accuracy_value. pose proof (length_nonzero_Q _ Hne) as Hn.
    rewrite (count_all (λ p, (p.1 =? p.2)%Z)).
    + rewrite length_zip, Nat.min_id. field. lra.
    + intros p Hp%zip_diag_elem. by apply Z.eqb_eq.
  - apply weighted_value_one; [done|done|]. intros c Hnz.
    unfold metrics.class_precision. rewrite Htp, Hpred. by apply ratio_self.
  - apply weighted_value_one; [done|done|]. intros c Hnz.
    unfold metrics.class_recall. rewrite Htp. by apply ratio_self.
  - apply weighted_value_one; [done|done|]. intros c Hnz.
    unfold metrics.class_f1. rewrite Htp, Hpred.
    replace (metrics.true_sum (zip y y) c + metrics.true_sum (zip y y) c)%Z
      with (2 * metrics.true_sum (zip y y) c)%Z by lia.
    apply ratio_self. lia.
Qed.

Lemma evaluate_perfect_predictions_witness :
  ∃ w' acc prec rec f1,
    ModelEvaluator.evaluate [0; 1; 1]%Z [0; 1; 1]%Z ModelEvaluator.__init__ (world_of [])
    = (ModelEvaluator.__init__, w',
       inr [ ("accuracy", PFloat (Fin acc)); ("precision", PFloat (Fin prec));
             ("recall", PFloat (Fin rec)); ("f1_score", PFloat (Fin f1)) ])
    ∧ (acc == 1)%Q ∧ (prec == 1)%Q ∧ (rec == 1)%Q ∧ (f1 == 1)%Q.
Proof.
  apply (evaluate_perfect_predictions [0; 1; 1]%Z (world_of [])). discriminate.
Defined.

(** ** A trainer that fails *)

Lemma evaluate_raises (y_true y_pred : list Z) (s : ModelEvaluator.t) (w : World) e :
  metrics_dict y_true y_pred = inl e →
  ModelEvaluator.evaluate y_true y_pred s w = (s, w, inl e)
  ∧ e = ValueError "Found input variables with inconsistent numbers of samples"
  ∧ length y_true ≠ length y_pred.
Proof.
  intros Hm. destruct (decide (length y_true = length y_pred)) as [Hlen|Hlen].
  - destruct (accuracy_score_returns _ _ Hlen) as (acc & Hacc).
    destruct (weighted_returns metrics.class_precision _ _ Hlen) as (prec & Hprec).
    destruct (weighted_returns metrics.class_recall _ _ Hlen) as (rec & Hrec).
    destruct (weighted_returns metrics.class_f1 _ _ Hlen) as (f1 & Hf1).
    unfold metrics_dict, metrics.precision_score, metrics.recall_score, metrics.f1_score in Hm.
    by rewrite Hacc, Hprec, Hrec, Hf1 in Hm.
  - assert (metrics.accuracy_score y_true y_pred
            = inl (ValueError "Found input variables with inconsistent numbers of samples"))
      as Hacc.
    { unfold metrics.accuracy_score, metrics.check_consistent_length.
      by rewrite decide_False. }
    unfold metrics_dict in Hm. rewrite Hacc in Hm. injection Hm as <-.
    split; [|done]. unfold ModelEvaluator.evaluate. simpl. by rewrite Hacc.
Qed.

Lemma compare_step_raises (X_train X_valid : DataFrame) (y_train y_valid : list Z)
    name t (s : ModelComparator.t) (w : World) e :
  trainer_metrics X_train X_valid y_train y_valid t = inl e →
  ModelComparator.compare_step X_train X_valid y_train y_valid name t s w
  = (s, add_log (Log "INFO" "[Comparator] Training model: {}" [PStr name]) w, inl e).
Proof.
  unfold trainer_metrics, trainer_predictions. intros Hm.
  unfold ModelComparator.compare_step, ModelComparator.on_evaluator. simpl.
  destruct (train t (model t) X_train y_train X_valid y_valid) as [e'|fitted] eqn:Htrain;
    simpl in *; [by injection Hm as <-|].
  destruct (predict t fitted X_valid) as [e'|preds] eqn:Hpred; simpl in *;
    [by injection Hm as <-|].
  destruct (evaluate_raises y_valid preds (ModelComparator.evaluator s)
              (add_log (Log "INFO" "[Comparator] Training model: {}" [PStr name]) w) e Hm)
    as (Hev & _).
  rewrite Hev. by destruct s.
Qed.

Lemma compare_loop_raises (X_train X_valid : DataFrame) (y_train y_valid : list Z)
    (before after : dict BaseTrainer) name t (ms : list (dict pyval))
    (s : ModelComparator.t) (w : World) e :
  Forall2 (λ nt m, trainer_metrics X_train X_valid y_train y_valid nt.2 = inr m) before ms →
  trainer_metrics X_train X_valid y_train y_valid t = inl e →
  ∃ w', ModelComparator.compare_loop (before ++ (name, t) :: after)
          X_train X_valid y_train y_valid s w
        = (ModelComparator.mk (ModelComparator.evaluator s)
             (store_results (ModelComparator.results s) (keys before) ms), w', inl e)
        ∧ frames w' = frames w ∧ files w' = files w.
Proof.
  intros HF He. revert s w.
  induction HF as [|[n t'] m items ms' Hm _ IH]; intros s w.
  - simpl. rewrite (compare_step_raises _ _ _ _ name t s w e He).
    eexists. split; [by destruct s|done].
  - simpl in Hm.
    destruct (compare_step_run X_train X_valid y_train y_valid n t' s w m Hm)
      as (w1 & Hstep & Hfr1 & Hfi1).
    destruct (IH (ModelComparator.mk (ModelComparator.evaluator s)
                    (dict_setitem (ModelComparator.results s) n m)) w1)
      as (w2 & Hloop & Hfr2 & Hfi2).
    exists w2. simpl. rewrite Hstep. simpl in *. rewrite Hloop.
    split; [done|]. split; congruence.
Qed.

(** X12: a trainer that fails stops the comparison and leaves the results
    of the trainers before it.  When the trainers before one train, predict
    and are evaluated, and that one raises (in [train], in [predict], or in
    the evaluation because it predicts another number of labels than there
    are validation labels, a [ValueError]), [compare] raises the same
    exception; by then the evaluations of the earlier trainers are stored
    in the comparator, where they stay, and no later trainer was run. *)
Theorem compare_failure_keeps_results
    (before after : dict BaseTrainer) (name : string) (t : BaseTrainer)
    (X_train X_valid : DataFrame) (y_train y_valid : list Z)
    (s : ModelComparator.t) (w : World) (ms : list (dict pyval)) (e : exn) :
  Forall2 (λ nt m, trainer_metrics X_train X_valid y_train y_valid nt.2 = inr m) before ms →
  trainer_metrics X_train X_valid y_train y_valid t = inl e →
  ∃ w',
    ModelComparator.compare (before ++ (name, t) :: after) X_train X_valid y_train y_valid s w
    = (ModelComparator.mk (ModelComparator.evaluator s)
         (store_results (ModelComparator.results s) (keys before) ms), w', inl e)
    ∧ frames w' = frames w ∧ files w' = files w
    ∧ (∀ preds, trainer_predictions X_train X_valid y_train y_valid t = inr preds →
         length preds ≠ length y_valid ∧ exn_class e = "ValueError")
    ∧ (NoDup (keys (ModelComparator.results s) ++ keys before) →
       store_results (ModelComparator.results s) (keys before) ms
       = ModelComparator.results s ++ zip (keys before) ms).
Proof.
  intros HF He.
  destruct (compare_loop_raises X_train X_valid y_train y_valid before after name t ms s w e
              HF He) as (w' & Hloop & Hfr & Hfi).
  exists w'. split_and!; try done.
  - unfold ModelComparator.compare. simpl. by rewrite Hloop.
  - intros preds Hp. unfold trainer_metrics in He. rewrite Hp in He. simpl in He.
    destruct (evaluate_raises y_valid preds ModelEvaluator.__init__ w e He) as (_ & -> & Hlen).
    split; [congruence|done].
  - intros Hnd. apply foldl_set_fresh; [done|].
    unfold keys. rewrite length_map. by eapply Forall2_length.
Qed.

Lemma compare_failure_keeps_results_witness :
  ∃ w',
    ModelComparator.compare
      ([("A", fixed_trainer "A" (repeat 1%Z 11 ++ repeat 0%Z 22))]
       ++ ("B", fixed_trainer "B" [0; 1]%Z)
          :: [("C", fixed_trainer "C" (repeat 0%Z 27 ++ repeat 1%Z 6))])
      [] [] [] y_valid_33 ModelComparator.__init__ (world_of [])
    = (ModelComparator.mk (ModelComparator.evaluator ModelComparator.__init__)
         (store_results (ModelComparator.results ModelComparator.__init__)
            (keys [("A", fixed_trainer "A" (repeat 1%Z 11 ++ repeat 0%Z 22))])
            (take 1 metrics_ABC)),
       w', inl (ValueError "Found input variables with inconsistent numbers of samples"))
    ∧ frames w' = frames (world_of []) ∧ files w' = files (world_of [])
    ∧ (∀ preds, trainer_predictions [] [] [] y_valid_33 (fixed_trainer "B" [0; 1]%Z)
                = inr preds →
         length preds ≠ length y_valid_33
         ∧ exn_class (ValueError "Found input variables with inconsistent numbers of samples")
           = "ValueError")
    ∧ (NoDup (keys (ModelComparator.results ModelComparator.__init__)
              ++ keys [("A", fixed_trainer "A" (repeat 1%Z 11 ++ repeat 0%Z 22))]) →
       store_results (ModelComparator.results ModelComparator.__init__)
         (keys [("A", fixed_trainer "A" (repeat 1%Z 11 ++ repeat 0%Z 22))])
         (take 1 metrics_ABC)
       = ModelComparator.results ModelComparator.__init__
         ++ zip (keys [("A", fixed_trainer "A" (repeat 1%Z 11 ++ repeat 0%Z 22))])
              (take 1 metrics_ABC)).
Proof.
  apply (compare_failure_keeps_results
           [("A", fixed_trainer "A" (repeat 1%Z 11 ++ repeat 0%Z 22))]
           [("C", fixed_trainer "C" (repeat 0%Z 27 ++ repeat 1%Z 6))]
           "B" (fixed_trainer "B" [0; 1]%Z) [] [] [] y_valid_33
           ModelComparator.__init__ (world_of []) (take 1 metrics_ABC)).
  - repeat constructor.
  - vm_compute. reflexivity.
Defined.

(** ** A comparator that has compared before *)

Lemma assoc_set_other {K V} `{EqDecision K} (l : list (K * V)) k v k' v' :
  (k, v) ∈ l → k ≠ k' → (k, v) ∈ assoc_set l k' v'.
Proof.
  intros Hin Hne. induction l as [|[k0 v0] l IH]; simpl; [by apply elem_of_nil in Hin|].
  apply elem_of_cons in Hin as [[= <- <-]|Hin].
  - rewrite decide_False by done. by left.
  - case_decide; right; [done|by apply IH].
Qed.

Lemma assoc_lookup_NoDup {K V} `{EqDecision K} (l : list (K * V)) j k v :
  NoDup (map fst l) → l !! j = Some (k, v) → assoc_lookup l k = Some v.
Proof.
  revert j. induction l as [|[k0 v0] l IH]; intros [|j] Hnd Hj; simpl in *; try done.
  - injection Hj as -> ->. by rewrite decide_True.
  - apply NoDup_cons in Hnd as [Hk0 Hnd].
    rewrite decide_False; [by eapply IH|].
    intros ->. apply Hk0. apply list_elem_of_fmap. exists (k, v).
    split; [done|]. by eapply list_elem_of_lookup_2.
Qed.

Lemma store_results_ok (d : dict (dict pyval)) (names : list string) (ms : list (dict pyval)) :
  results_ok d →
  Forall (λ m, dict_getitem m "f1_score" = inr (PFloat (Fin (f1_of m)))) ms →
  results_ok (store_results d names ms).
Proof.
  unfold store_results. revert d ms.
  induction names as [|n names IH]; intros d [|m ms] Hd Hms; simpl; try done.
  apply Forall_cons in Hms as [Hm Hms]. apply IH; [|done].
  destruct Hd as [Hnd Hall]. split.
  - by apply assoc_set_keys_NoDup.
  - by apply assoc_set_Forall.
Qed.

Lemma store_results_keeps (d : dict (dict pyval)) (names : list string)
    (ms : list (dict pyval)) k m :
  (k, m) ∈ d → k ∉ names → (k, m) ∈ store_results d names ms.
Proof.
  unfold store_results. revert d ms.
  induction names as [|n names IH]; intros d [|m' ms] Hin Hk; simpl; try done.
  apply not_elem_of_cons in Hk as [Hne Hk].
  apply IH; [|done]. by apply assoc_set_other.
Qed.

Lemma store_results_stores (d : dict (dict pyval)) (names : list string)
    (ms : list (dict pyval)) i n m :
  NoDup names → names !! i = Some n → ms !! i = Some m →
  assoc_lookup (store_results d names ms) n = Some m.
Proof.
  unfold store_results. revert d ms i.
  induction names as [|n' names IH]; intros d [|m' ms] [|i] Hnd Hn Hm; simpl in *; try done.
  - injection Hn as ->. injection Hm as ->. apply NoDup_cons in Hnd as [Hn' _].
    clear IH. revert ms d. induction names as [|x names IH]; intros ms d; simpl.
    + apply assoc_lookup_set_eq.
    + destruct ms as [|m0 ms]; simpl; [apply assoc_lookup_set_eq|].
      apply not_elem_of_cons in Hn' as [Hne Hn'].
      assert (∀ d', assoc_lookup d' n = Some m →
                assoc_lookup (foldl (λ d nm, dict_setitem d nm.1 nm.2) d' (zip names ms)) n
                = Some m) as Hkeep.
      { clear -Hn'. revert ms. induction names as [|y names IH]; intros ms d' Hd';
          simpl; [done|]. destruct ms as [|m1 ms]; simpl; [done|].
        apply not_elem_of_cons in Hn' as [Hne Hn'].
        apply IH; [done|]. unfold dict_setitem. by rewrite assoc_lookup_set_ne. }
      apply Hkeep. unfold dict_setitem.
      rewrite assoc_lookup_set_ne by done. apply assoc_lookup_set_eq.
  - apply NoDup_cons in Hnd as [_ Hnd]. by eapply IH.
Qed.

(** X13: the results of earlier comparisons stay and compete.  [compare]
    adds the evaluations of its trainers to the results the comparator
    holds already (replacing, where it stands, the entry of a name that is
    compared again) and selects among all of them: what it returns is the
    first entry of greatest F1 of the whole dictionary, which can be a
    model of an earlier call that is not among the trainers given.  The
    dictionary stays well formed, one entry per name. *)
Theorem compare_uses_all_stored_results
    (trainers : dict BaseTrainer) (X_train X_valid : DataFrame) (y_train y_valid : list Z)
    (s : ModelComparator.t) (w : World) (ms : list (dict pyval)) :
  results_ok (ModelComparator.results s) →
  Forall2 (λ nt m, trainer_metrics X_train X_valid y_train y_valid nt.2 = inr m) trainers ms →
  store_results (ModelComparator.results s) (keys trainers) ms ≠ [] →
  ∃ w' i name m,
    ModelComparator.compare trainers X_train X_valid y_train y_valid s w
    = (ModelComparator.mk (ModelComparator.evaluator s)
         (store_results (ModelComparator.results s) (keys trainers) ms), w', inr (name, m))
    ∧ store_results (ModelComparator.results s) (keys trainers) ms !! i = Some (name, m)
    ∧ (∀ j k m', store_results (ModelComparator.results s) (keys trainers) ms !! j
                 = Some (k, m') → (f1_of m' <= f1_of m)%Q)
    ∧ (∀ j k m', j < i →
         store_results (ModelComparator.results s) (keys trainers) ms !! j = Some (k, m') →
         (f1_of m' < f1_of m)%Q)
    ∧ results_ok (store_results (ModelComparator.results s) (keys trainers) ms)
    ∧ (∀ k m', (k, m') ∈ ModelComparator.results s → k ∉ keys trainers →
         (k, m') ∈ store_results (ModelComparator.results s) (keys trainers) ms
         ∧ (f1_of m' <= f1_of m)%Q).
Proof.
  intros Hok HF Hne.
  set (res := store_results (ModelComparator.results s) (keys trainers) ms) in *.
  assert (results_ok res) as Hres.
  { apply store_results_ok; [done|].
    apply Forall_forall. intros m Hm. apply list_elem_of_lookup in Hm as (j & Hj).
    destruct (Forall2_lookup_r _ _ _ _ _ HF Hj) as ([n t] & _ & Hmet).
    by eapply trainer_metrics_f1. }
  destruct Hres as [Hnd Hall].
  destruct (compare_loop_run X_train X_valid y_train y_valid trainers ms s w HF)
    as (w1 & Hloop & _ & _).
  fold (store_results (ModelComparator.results s) (keys trainers) ms) in Hloop.
  fold res in Hloop.
  set (self := ModelComparator.mk (ModelComparator.evaluator s) res) in *.
  set (q := λ name, f1_of (default [] (assoc_lookup res name))).
  assert (∀ j k m', res !! j = Some (k, m') →
            assoc_lookup res k = Some m'
            ∧ ModelComparator.f1_key self k = inr (PFloat (Fin (q k)))
            ∧ q k = f1_of m'
            ∧ dict_getitem m' "f1_score" = inr (PFloat (Fin (f1_of m')))) as Hentry.
  { intros j k m' Hj.
    pose proof (assoc_lookup_NoDup res j k m' Hnd Hj) as Hl.
    pose proof (proj1 (Forall_forall _ _) Hall (k, m') (list_elem_of_lookup_2 _ _ _ Hj))
      as Hf1. simpl in Hf1.
    split; [done|]. unfold ModelComparator.f1_key, dict_getitem at 1, q. simpl.
    rewrite Hl. simpl. by rewrite Hf1. }
  destruct (py_max_spec (ModelComparator.f1_key self) q (keys res))
    as (b & i & Hmax & Hi & Hmaxall & Hbefore).
  { destruct res; done. }
  { intros x Hx. apply list_elem_of_lookup in Hx as (j & Hj).
    unfold keys in Hj. rewrite list_lookup_fmap in Hj.
    destruct (res !! j) as [[k m']|] eqn:Hr; [|done]. injection Hj as <-.
    by destruct (Hentry j k m' Hr) as (_ & ? & _). }
  assert (∃ m, res !! i = Some (b, m)) as [m Hm].
  { unfold keys in Hi. rewrite list_lookup_fmap in Hi.
    destruct (res !! i) as [[k m]|]; [|done]. injection Hi as ->. by exists m. }
  destruct (Hentry i b m Hm) as (Hlb & _ & Hqb & Hf1).
  assert (∀ j k m', res !! j = Some (k, m') → (f1_of m' <= f1_of m)%Q) as Hle.
  { intros j k m' Hj. destruct (Hentry j k m' Hj) as (_ & _ & <- & _). rewrite <- Hqb.
    eapply (Hmaxall j). unfold keys. by rewrite list_lookup_fmap, Hj. }
  eexists _, i, b, m. split_and!.
  - unfold ModelComparator.compare. simpl. rewrite Hloop. simpl.
    fold self. rewrite Hmax. simpl. unfold dict_getitem at 1. rewrite Hlb.
    simpl. rewrite Hf1. simpl. reflexivity.
  - done.
  - done.
  - intros j k m' Hji Hj. destruct (Hentry j k m' Hj) as (_ & _ & <- & _). rewrite <- Hqb.
    eapply (Hbefore j); [done|]. unfold keys. by rewrite list_lookup_fmap, Hj.
  - done.
  - intros k m' Hin Hk.
    pose proof (store_results_keeps _ (keys trainers) ms k m' Hin Hk) as Hin'.
    split; [done|]. apply list_elem_of_lookup in Hin' as (j & Hj). by eapply Hle.
Qed.

Lemma compare_uses_all_stored_results_witness :
  ∃ w' i name m,
    ModelComparator.compare [("D", fixed_trainer "D" (repeat 1%Z 11 ++ repeat 0%Z 22))]
      [] [] [] y_valid_33
      (ModelComparator.mk ModelEvaluator.__init__ (zip (keys trainers_ABC) metrics_ABC))
      (world_of [])
    = (ModelComparator.mk
         (ModelComparator.evaluator
            (ModelComparator.mk ModelEvaluator.__init__ (zip (keys trainers_ABC) metrics_ABC)))
         (store_results
            (ModelComparator.results
               (ModelComparator.mk ModelEvaluator.__init__
                  (zip (keys trainers_ABC) metrics_ABC)))
            (keys [("D", fixed_trainer "D" (repeat 1%Z 11 ++ repeat 0%Z 22))])
            (take 1 metrics_ABC)),
       w', inr (name, m))
    ∧ store_results
        (ModelComparator.results
           (ModelComparator.mk ModelEvaluator.__init__ (zip (keys trainers_ABC) metrics_ABC)))
        (keys [("D", fixed_trainer "D" (repeat 1%Z 11 ++ repeat 0%Z 22))])
        (take 1 metrics_ABC) !! i = Some (name, m)
    ∧ (∀ j k m',
         store_results
           (ModelComparator.results
              (ModelComparator.mk ModelEvaluator.__init__
                 (zip (keys trainers_ABC) metrics_ABC)))
           (keys [("D", fixed_trainer "D" (repeat 1%Z 11 ++ repeat 0%Z 22))])
           (take 1 metrics_ABC) !! j = Some (k, m') → (f1_of m' <= f1_of m)%Q)
    ∧ (∀ j k m', j < i →
         store_results
           (ModelComparator.results
              (ModelComparator.mk ModelEvaluator.__init__
                 (zip (keys trainers_ABC) metrics_ABC)))
           (keys [("D", fixed_trainer "D" (repeat 1%Z 11 ++ repeat 0%Z 22))])
           (take 1 metrics_ABC) !! j = Some (k, m') → (f1_of m' < f1_of m)%Q)
    ∧ results_ok
        (store_results
           (ModelComparator.results
              (ModelComparator.mk ModelEvaluator.__init__
                 (zip (keys trainers_ABC) metrics_ABC)))
           (keys [("D", fixed_trainer "D" (repeat 1%Z 11 ++ repeat 0%Z 22))])
           (take 1 metrics_ABC))
    ∧ (∀ k m',
         (k, m') ∈ ModelComparator.results
                     (ModelComparator.mk ModelEvaluator.__init__
                        (zip (keys trainers_ABC) metrics_ABC)) →
         k ∉ keys [("D", fixed_trainer "D" (repeat 1%Z 11 ++ repeat 0%Z 22))] →
         (k, m') ∈ store_results
                     (ModelComparator.results
                        (ModelComparator.mk ModelEvaluator.__init__
                           (zip (keys trainers_ABC) metrics_ABC)))
                     (keys [("D", fixed_trainer "D" (repeat 1%Z 11 ++ repeat 0%Z 22))])
                     (take 1 metrics_ABC)
         ∧ (f1_of m' <= f1_of m)%Q).
Proof.
  apply (compare_uses_all_stored_results
           [("D", fixed_trainer "D" (repeat 1%Z 11 ++ repeat 0%Z 22))]
           [] [] [] y_valid_33
           (ModelComparator.mk ModelEvaluator.__init__ (zip (keys trainers_ABC) metrics_ABC))
           (world_of []) (take 1 metrics_ABC)).
  - split; [by apply (bool_decide_unpack _); vm_compute|]. repeat constructor.
  - repeat constructor.
  - discriminate.
Defined.

(** * The inference pipeline *)

Local Arguments InferencePreprocessor.transform : simpl never.
Local Arguments InferencePreprocessor.load : simpl never.
Local Arguments TrainPreprocessor.transform : simpl never.

Lemma pipeline_load_run (models : ModelFiles) (self : InferencePipeline.t) (w : World) :
  InferencePipeline.load models self w
  = let w0 := add_log (Log "INFO" "[InferencePipeline] Loading model and preprocessor..." [])
                w in
    match joblib_load_object models (InferencePipeline.model_path self) self w0 with
    | (_, _, inl e) => (self, w0, inl e)
    | (_, _, inr m) =>
        match InferencePreprocessor.load None
                (InferencePreprocessor.__init__ (InferencePipeline.preprocessor_path self)) w0
        with
        | (p, w1, inl e) =>
            (InferencePipeline.mk (InferencePipeline.model_path self)
               (InferencePipeline.preprocessor_path self) m (Some p), w1, inl e)
        | (p, w1, inr _) =>
            (InferencePipeline.mk (InferencePipeline.model_path self)
               (InferencePipeline.preprocessor_path self) m (Some p),
             add_log (Log "SUCCESS"
                        "[InferencePipeline] Model and preprocessor loaded successfully." [])
               w1,
             inr tt)
        end
    end.
Proof.
  unfold InferencePipeline.load, joblib_load_object, InferencePipeline.on_preprocessor,
    InferencePipeline.set_model, InferencePipeline.set_preprocessor.
  simpl.
  destruct (models !! InferencePipeline.model_path self) as [m|]; simpl.
  - by destruct (InferencePreprocessor.load None _ _) as [[p w1] [e|[]]].
  - destruct (files w !! InferencePipeline.model_path self) as [[ct|]|]; simpl; [| |done].
    + by destruct (InferencePreprocessor.load None _ _) as [[p w1] [e|[]]].
    + by destruct (InferencePreprocessor.load None _ _) as [[p w1] [e|[]]].
Qed.

(** X14: without its model file the pipeline predicts nothing and changes
    nothing.  [predict] of a new pipeline loads the model first: when no
    file is at the model path it raises [FileNotFoundError] for that path;
    the pipeline is as [__init__] left it, and neither the input table nor
    any file was touched. *)
Theorem pipeline_missing_model
    (models : ModelFiles) (model_path preprocessor_path : string) (input_data : loc)
    (w : World) :
  models !! model_path = None →
  files w !! model_path = None →
  ∃ w',
    InferencePipeline.predict models input_data
      (InferencePipeline.__init__ model_path preprocessor_path) w
    = (InferencePipeline.__init__ model_path preprocessor_path, w',
       inl (FileNotFoundError model_path))
    ∧ frames w' = frames w ∧ files w' = files w.
Proof.
  intros Hm Hf. unfold InferencePipeline.predict. simpl.
  rewrite pipeline_load_run. unfold joblib_load_object. simpl. rewrite Hm, Hf.
  eexists. split; [reflexivity|done].
Qed.

Lemma pipeline_missing_model_witness :
  ∃ w',
    InferencePipeline.predict ∅ 0
      (InferencePipeline.__init__ "XGBoost_model.joblib" scenario_path)
      (world_of [single_row_table])
    = (InferencePipeline.__init__ "XGBoost_model.joblib" scenario_path, w',
       inl (FileNotFoundError "XGBoost_model.joblib"))
    ∧ frames w' = frames (world_of [single_row_table])
    ∧ files w' = files (world_of [single_row_table]).
Proof.
  apply (pipeline_missing_model ∅ "XGBoost_model.joblib" scenario_path 0
           (world_of [single_row_table])); reflexivity.
Defined.

(** X15: a load that failed on the preprocessor file is never retried.
    When the model file is there and the preprocessor file is not, the
    first [predict] raises [FileNotFoundError] for the preprocessor path;
    by then the pipeline holds the model and a preprocessor that was
    constructed and not loaded.  Every later [predict], whatever the files
    have become, finds both set, skips [load], and raises the
    [RuntimeError] of an unfitted preprocessor without touching the input
    table. *)
Theorem pipeline_failed_load_is_not_retried
    (models : ModelFiles) (model_path preprocessor_path : string) (m : Model)
    (input_data : loc) (w : World) :
  models !! model_path = Some m →
  models !! preprocessor_path = None →
  files w !! preprocessor_path = None →
  ∃ w' pl,
    InferencePipeline.predict models input_data
      (InferencePipeline.__init__ model_path preprocessor_path) w
    = (pl, w', inl (FileNotFoundError preprocessor_path))
    ∧ frames w' = frames w ∧ files w' = files w
    ∧ pl = InferencePipeline.mk model_path preprocessor_path (ObjModel m)
             (Some (InferencePreprocessor.__init__ preprocessor_path))
    ∧ (∀ models2 input2 w2,
         ∃ w2',
           InferencePipeline.predict models2 input2 pl w2
           = (pl, w2',
              inl (RuntimeError "Preprocessor must be fitted before calling transform()."))
           ∧ frames w2' = frames w2 ∧ files w2' = files w2).
Proof.
  intros Hm Hp Hf. eexists _, _. split_and!.
  - unfold InferencePipeline.predict. simpl.
    rewrite pipeline_load_run. unfold joblib_load_object. simpl. rewrite Hm.
    rewrite (inference_load_missing None (InferencePreprocessor.__init__ preprocessor_path)
               _ preprocessor_path eq_refl) by done.
    reflexivity.
  - done.
  - done.
  - reflexivity.
  - intros models2 input2 w2.
    unfold InferencePipeline.predict, InferencePipeline.on_preprocessor. simpl.
    unfold InferencePreprocessor.transform. simpl.
    eexists. split; [reflexivity|done].
Qed.

Lemma pipeline_failed_load_is_not_retried_witness :
  ∃ w' pl,
    InferencePipeline.predict {["XGBoost_model.joblib" := constant_model]} 0
      (InferencePipeline.__init__ "XGBoost_model.joblib" scenario_path)
      (world_of [single_row_table])
    = (pl, w', inl (FileNotFoundError scenario_path))
    ∧ frames w' = frames (world_of [single_row_table])
    ∧ files w' = files (world_of [single_row_table])
    ∧ pl = InferencePipeline.mk "XGBoost_model.joblib" scenario_path (ObjModel constant_model)
             (Some (InferencePreprocessor.__init__ scenario_path))
    ∧ (∀ models2 input2 w2,
         ∃ w2',
           InferencePipeline.predict models2 input2 pl w2
           = (pl, w2',
              inl (RuntimeError "Preprocessor must be fitted before calling transform()."))
           ∧ frames w2' = frames w2 ∧ files w2' = files w2).
Proof.
  apply (pipeline_failed_load_is_not_retried {["XGBoost_model.joblib" := constant_model]}
           "XGBoost_model.joblib" scenario_path constant_model 0
           (world_of [single_row_table])).
  - apply lookup_singleton_eq.
  - by apply lookup_singleton_ne.
  - reflexivity.
Defined.

(** X16: what the pipeline gives the model.  With the preprocessor file
    that a fitted TrainPreprocessor saved and a model file at another path,
    [predict] of a new pipeline on a table with the fit-time schema, at
    least one row and no infinite value (a table that [transform] encodes)
    loads both, adds BMI and Age_Group to the caller's table, and hands the
    model the values that the TrainPreprocessor's [transform] returns for
    that table, in the same column order but labelled 0 .. n-1 in place of
    the feature names; it returns the model's predictions under the key
    "predictions", or raises what the model raised.  The pipeline keeps the
    model and the loaded preprocessor. *)
Theorem pipeline_predict_after_training
    (data : loc) (self st : TrainPreprocessor.t) (w w1 : World) (D D' : DataFrame)
    (models : ModelFiles) (model_path preprocessor_path : string) (m : Model)
    (l : loc) (wa : World) (A : DataFrame) :
  frames w !! data = Some D →
  TrainPreprocessor.fit data self w = (st, w1, inr tt) →
  frames w1 !! data = Some D' →
  files wa !! preprocessor_path = Some (TrainPreprocessor.pipeline st) →
  models !! model_path = Some m →
  models !! preprocessor_path = None →
  frames wa !! l = Some A →
  same_schema A D ∨ same_schema A D' →
  finite_table A →
  ∃ A' wt out X wa' pl,
    with_derived_features A = inr A'
    ∧ TrainPreprocessor.transform l st wa = (st, wt, inr (length (frames wa)))
    ∧ frames wt !! length (frames wa) = Some out
    ∧ TrainPreprocessor.feature_names st = Some (columns out)
    ∧ X = zip (range_labels (length out)) (map snd out)
    ∧ InferencePipeline.predict models l
        (InferencePipeline.__init__ model_path preprocessor_path) wa
      = (pl, wa',
         match m X with
         | inr preds => inr [("predictions", preds)]
         | inl e => inl e
         end)
    ∧ frames wa' = <[l := A']> (frames wa) ++ [X]
    ∧ files wa' = files wa
    ∧ pl = InferencePipeline.mk model_path preprocessor_path (ObjModel m)
             (Some (InferencePreprocessor.mk true (TrainPreprocessor.pipeline st)
                      preprocessor_path)).
Proof.
  intros HD Hfit HD' Hfile Hm Hp HA Hsch Hfin.
  set (w0 := add_log (Log "INFO" "[InferencePipeline] Loading model and preprocessor..." [])
               wa).
  destruct (inference_load_run None (InferencePreprocessor.__init__ preprocessor_path) w0
              preprocessor_path (TrainPreprocessor.pipeline st) eq_refl Hfile)
    as (w2 & Hload & Hfi2 & Hfr2 & _).
  simpl in Hload.
  set (w3 := add_log (Log "SUCCESS"
                        "[InferencePipeline] Model and preprocessor loaded successfully." [])
               w2).
  assert (frames w3 = frames wa) as Hfr3 by done.
  assert (frames w3 !! l = Some A) as HA3 by (by rewrite Hfr3).
  destruct (transform_fitted_array _ _ _ _ _ _ _ _ _ _ HD Hfit HD' HA Hsch Hfin)
    as (A' & numf & enc & xnum & xcat & xcatD & names & HA' & Hd & HschA & Hst & Hsn & Hsc
        & HscD & Hxcat & Hcats & Hlsc & Hlen & Htrain & _).
  destruct (transform_fitted_array _ _ _ _ _ _ _ _ _ _ HD Hfit HD' HA3 Hsch Hfin)
    as (A'' & numf' & enc' & xnum' & xcat' & xcatD' & names' & HA'' & _ & _ & Hst' & Hsn'
        & Hsc' & _ & _ & _ & _ & _ & _ & Hinf).
  assert (A'' = A') as -> by congruence.
  rewrite Hst in Hst'. injection Hst' as Hnumf Henc Hnames.
  subst numf' enc'. apply app_inv_head in Hnames as <-.
  assert (xnum' = xnum) as -> by congruence.
  assert (xcat' = xcat) as -> by congruence.
  set (num := numeric_cols (settings w) D') in *.
  set (arr := scaled_columns numf xnum ++ concat (encoded_blocks (Some enc) xcat)) in *.
  destruct (Htrain (Some (num ++ names))) as (wt & Ht & Hfrt & _); [by intros ls [= <-]|].
  destruct (Hinf preprocessor_path) as (wi & Hi & Hfri & Hfii).
  assert (TrainPreprocessor.mk true (TrainPreprocessor.pipeline st) (Some (num ++ names)) = st)
    as Hst' by (by rewrite Hst).
  rewrite Hst' in Ht.
  assert (length arr = length (num ++ names)) as Hlen' by done.
  set (out := zip (output_labels (Some (num ++ names)) (length (num ++ names)))
                (map SFloat arr)) in *.
  set (X := zip (range_labels (length (num ++ names))) (map SFloat arr)) in *.
  assert (length out = length (num ++ names)) as Hlout.
  { unfold out, output_labels. rewrite length_zip, length_map. lia. }
  assert (map snd out = map SFloat arr) as Hsnd.
  { unfold out. apply snd_zip. rewrite length_map. unfold output_labels. lia. }
  assert (frames wi !! length (frames w3) = Some X) as HX.
  { rewrite Hfri. apply list_lookup_middle. by rewrite length_insert. }
  exists A', wt, out, X.
  exists (match m X with
          | inr preds =>
              add_log (Log "INFO" "[InferencePipeline] Predictions generated: {}"
                         [PMatrix [preds]]) wi
          | inl _ => wi
          end).
  eexists. split_and!.
  - done.
  - exact Ht.
  - rewrite Hfrt. apply list_lookup_middle. by rewrite length_insert.
  - rewrite Hst. simpl. f_equal. unfold out, columns. symmetry. apply fst_zip.
    rewrite length_map. unfold output_labels. lia.
  - unfold X. by rewrite Hlout, Hsnd.
  - unfold InferencePipeline.predict. simpl.
    rewrite pipeline_load_run. unfold joblib_load_object. simpl. rewrite Hm.
    fold w0. rewrite Hload. fold w3.
    unfold InferencePipeline.on_preprocessor, InferencePipeline.model_predict. simpl.
    rewrite Hi. simpl. rewrite (deref_run _ _ _ X) by done. simpl.
    destruct (m X) as [e|preds]; reflexivity.
  - destruct (m X); simpl; by rewrite Hfri, Hfr3.
  - destruct (m X); simpl; by rewrite Hfii.
  - reflexivity.
Qed.

Lemma pipeline_predict_after_training_witness :
  ∃ A' wt out X wa' pl,
    with_derived_features scenario_table_fitted = inr A'
    ∧ TrainPreprocessor.transform 0 scenario_preprocessor scenario_save.1.2
      = (scenario_preprocessor, wt, inr (length (frames scenario_save.1.2)))
    ∧ frames wt !! length (frames scenario_save.1.2) = Some out
    ∧ TrainPreprocessor.feature_names scenario_preprocessor = Some (columns out)
    ∧ X = zip (range_labels (length out)) (map snd out)
    ∧ InferencePipeline.predict {["XGBoost_model.joblib" := constant_model]} 0
        (InferencePipeline.__init__ "XGBoost_model.joblib" scenario_path) scenario_save.1.2
      = (pl, wa',
         match constant_model X with
         | inr preds => inr [("predictions", preds)]
         | inl e => inl e
         end)
    ∧ frames wa' = <[0 := A']> (frames scenario_save.1.2) ++ [X]
    ∧ files wa' = files scenario_save.1.2
    ∧ pl = InferencePipeline.mk "XGBoost_model.joblib" scenario_path (ObjModel constant_model)
             (Some (InferencePreprocessor.mk true
                      (TrainPreprocessor.pipeline scenario_preprocessor) scenario_path)).
Proof.
  apply (pipeline_predict_after_training 0 TrainPreprocessor.__init__ scenario_preprocessor
           (world_of [scenario_table]) scenario_world scenario_table scenario_table_fitted
           {["XGBoost_model.joblib" := constant_model]} "XGBoost_model.joblib" scenario_path
           constant_model 0 scenario_save.1.2 scenario_table_fitted).
  - reflexivity.
  - vm_compute. reflexivity.
  - vm_compute. reflexivity.
  - vm_compute. reflexivity.
  - apply lookup_singleton_eq.
  - by apply lookup_singleton_ne.
  - vm_compute. reflexivity.
  - right. apply same_schema_refl.
  - solve_finite_table.
Defined.

(** * The request schema and the prediction endpoint *)

Section schema.

Context (to_str : json → option string) (to_float : json → option float).

Lemma float_field_inv record name bounds x :
  ObesityInputSchema.float_field to_float record name bounds = inr x → bounds x = true.
Proof.
  unfold ObesityInputSchema.float_field, ObesityInputSchema.field.
  destruct (assoc_lookup record name) as [v|]; simpl; [|done].
  destruct (to_float v) as [y|]; [|done]. destruct (bounds y) eqn:Hb; [|done].
  by intros [= <-].
Qed.

Lemma between_intro x lo hi :
  float_ge x lo && float_le x hi = true → between x lo hi.
Proof.
  intros [Hge Hle]%andb_true_iff. destruct x as [q|[]|]; simpl in *; try done.
  exists q. split; [done|]. by split; apply Qle_bool_iff.
Qed.

Lemma positive_intro x : float_gt x 0 = true → positive x.
Proof.
  destruct x as [q|[]|]; simpl; try done; [|by right].
  unfold Qltb. intros Hlt%negb_true_iff. left. exists q. split; [done|].
  apply Qnot_le_lt. intros Hle%Qle_bool_iff. congruence.
Qed.

Lemma validate_valid record v :
  ObesityInputSchema.validate to_str to_float record = inr v → valid_input v.
Proof.
  unfold ObesityInputSchema.validate. intros Hv.
  destruct (ObesityInputSchema.str_field to_str record "Gender") as [?|g0]; [done|].
  simpl in Hv. unfold ObesityInputSchema.gender_must_be_valid in Hv at 1.
  destruct (decide (g0 ∈ ["Male"; "Female"])) as [Hg|]; [|done]. simpl in Hv.
  destruct (ObesityInputSchema.float_field to_float record "Age" _) as [?|age] eqn:Hage;
    [done|]. simpl in Hv.
  destruct (ObesityInputSchema.float_field to_float record "Height" _) as [?|ht] eqn:Hht;
    [done|]. simpl in Hv.
  destruct (ObesityInputSchema.float_field to_float record "Weight" _) as [?|wt] eqn:Hwt;
    [done|]. simpl in Hv.
  destruct (ObesityInputSchema.str_field to_str record "family_history_with_overweight")
    as [?|fh]; [done|]. simpl in Hv.
  destruct (ObesityInputSchema.str_field to_str record "FAVC") as [?|favc]; [done|].
  simpl in Hv.
  destruct (ObesityInputSchema.float_field to_float record "FCVC" _) as [?|fcvc] eqn:Hfcvc;
    [done|]. simpl in Hv.
  destruct (ObesityInputSchema.float_field to_float record "NCP" _) as [?|ncp] eqn:Hncp;
    [done|]. simpl in Hv.
  destruct (ObesityInputSchema.str_field to_str record "CAEC") as [?|caec]; [done|].
  simpl in Hv.
  destruct (ObesityInputSchema.str_field to_str record "SMOKE") as [?|smoke]; [done|].
  simpl in Hv.
  destruct (ObesityInputSchema.float_field to_float record "CH2O" _) as [?|ch2o] eqn:Hch2o;
    [done|]. simpl in Hv.
  destruct (ObesityInputSchema.str_field to_str record "SCC") as [?|scc]; [done|].
  simpl in Hv.
  destruct (ObesityInputSchema.float_field to_float record "FAF" _) as [?|faf] eqn:Hfaf;
    [done|]. simpl in Hv.
  destruct (ObesityInputSchema.float_field to_float record "TUE" _) as [?|tue] eqn:Htue;
    [done|]. simpl in Hv.
  destruct (ObesityInputSchema.str_field to_str record "CALC") as [?|calc]; [done|].
  simpl in Hv.
  destruct (ObesityInputSchema.str_field to_str record "MTRANS") as [?|mtrans]; [done|].
  simpl in Hv. injection Hv as <-.
  apply float_field_inv in Hage, Hht, Hwt, Hfcvc, Hncp, Hch2o, Hfaf, Htue.
  unfold valid_input. simpl. split_and!;
    try (by apply between_intro); try (by apply positive_intro).
  set_solver.
Qed.

Lemma validate_error_class record e :
  ObesityInputSchema.validate to_str to_float record = inl e →
  exn_class e = "ValidationError".
Proof.
  unfold ObesityInputSchema.validate, ObesityInputSchema.str_field,
    ObesityInputSchema.float_field, ObesityInputSchema.field,
    ObesityInputSchema.gender_must_be_valid, ObesityInputSchema.validate_categorical_fields.
  intros He.
  repeat match type of He with
         | context [assoc_lookup record ?k] =>
             destruct (assoc_lookup record k); simpl in He; [|by injection He as <-]
         | context [to_str ?v] =>
             destruct (to_str v); simpl in He; [|by injection He as <-]
         | context [to_float ?v] =>
             destruct (to_float v); simpl in He; [|by injection He as <-]
         | context [decide ?P] =>
             destruct (decide P); simpl in He; [|by injection He as <-]
         | context [if ?b then _ else _] =>
             destruct b; simpl in He; [|by injection He as <-]
         end.
  done.
Qed.

Lemma validate_loop_inv records acc validated :
  validate_loop to_str to_float records acc = inr validated →
  ∃ vs, validated = acc ++ vs
        ∧ Forall2 (λ r v, ObesityInputSchema.validate to_str to_float r = inr v) records vs.
Proof.
  revert acc. induction records as [|r records IH]; intros acc; simpl.
  - intros [= <-]. exists []. by rewrite app_nil_r.
  - destruct (ObesityInputSchema.validate to_str to_float r) as [e|v] eqn:Hv.
    + by case_decide.
    + intros (vs & -> & HF)%IH. exists (v :: vs). rewrite <- app_assoc. split; [done|].
      by constructor.
Qed.

Lemma validate_loop_error records acc e :
  validate_loop to_str to_float records acc = inl e →
  ∃ i r e',
    records !! i = Some r
    ∧ ObesityInputSchema.validate to_str to_float r = inl e'
    ∧ e = ValueError ("Invalid record format: " +:+ exn_arg e')
    ∧ ∀ j r', j < i → records !! j = Some r' →
        returns (ObesityInputSchema.validate to_str to_float r').
Proof.
  revert acc. induction records as [|r records IH]; intros acc; simpl; [done|].
  destruct (ObesityInputSchema.validate to_str to_float r) as [e'|v] eqn:Hv.
  - rewrite (validate_error_class _ _ Hv). rewrite decide_True by done.
    intros [= <-]. exists 0, r, e'. split_and!; try done. intros j r' Hj. lia.
  - intros (i & r0 & e' & Hi & He' & -> & Hbefore)%IH.
    exists (S i), r0, e'. split_and!; try done.
    intros [|j] r' Hj Hr'; simpl in Hr'.
    + injection Hr' as <-. by exists v.
    + eapply Hbefore; [|done]. lia.
Qed.

(** X17: what passes the schema.  When [validate_input_records] returns, it
    returns one validated record per record received, in the same order,
    and each satisfies the bounds of the schema: Gender is Male or Female;
    Age, FCVC, NCP, CH2O, FAF and TUE are numbers within their bounds (no
    NaN, no infinity); Height and Weight are above 0, the infinity not
    being excluded. *)
Theorem validate_input_records_sound (records : list (dict json))
    (validated : list ObesityInputSchema.t) :
  validate_input_records to_str to_float records = inr validated →
  Forall2 (λ r v, ObesityInputSchema.validate to_str to_float r = inr v) records validated
  ∧ length validated = length records
  ∧ Forall valid_input validated.
Proof.
  intros (vs & -> & HF)%validate_loop_inv. simpl. split_and!.
  - done.
  - symmetry. by eapply Forall2_length.
  - apply Forall_forall. intros v Hv. apply list_elem_of_lookup in Hv as (i & Hi).
    destruct (Forall2_lookup_r _ _ _ _ _ HF Hi) as (r & _ & Hr).
    by eapply validate_valid.
Qed.

(** X18: an invalid record is reported as a [ValueError].  When
    [validate_input_records] raises, what it raises is a [ValueError] whose
    message starts with "Invalid record format: ", made from the
    [ValidationError] of the first record that fails the schema; every
    record before that one passes, and no validated record is returned. *)
Theorem validate_input_records_error (records : list (dict json)) (e : exn) :
  validate_input_records to_str to_float records = inl e →
  ∃ i r e',
    records !! i = Some r
    ∧ ObesityInputSchema.validate to_str to_float r = inl e'
    ∧ exn_class e' = "ValidationError"
    ∧ e = ValueError ("Invalid record format: " +:+ exn_arg e')
    ∧ ∀ j r', j < i → records !! j = Some r' →
        returns (ObesityInputSchema.validate to_str to_float r').
Proof.
  intros (i & r & e' & Hi & He' & -> & Hbefore)%validate_loop_error.
  exists i, r, e'. split_and!; try done. by eapply validate_error_class.
Qed.

End schema.

Lemma validate_input_records_sound_witness :
  Forall2 (λ r v, ObesityInputSchema.validate json_str json_number r = inr v)
    [example_record; example_record] [example_input; example_input]
  ∧ length [example_input; example_input] = length [example_record; example_record]
  ∧ Forall valid_input [example_input; example_input].
Proof.
  apply (validate_input_records_sound json_str json_number
           [example_record; example_record] [example_input; example_input]).
  reflexivity.
Defined.

Lemma validate_input_records_error_witness :
  ∃ i r e',
    [example_record; old_age_record; example_record] !! i = Some r
    ∧ ObesityInputSchema.validate json_str json_number r = inl e'
    ∧ exn_class e' = "ValidationError"
    ∧ ValueError "Invalid record format: Age: ensure this value is within its bounds"
      = ValueError ("Invalid record format: " +:+ exn_arg e')
    ∧ ∀ j r', j < i → [example_record; old_age_record; example_record] !! j = Some r' →
        returns (ObesityInputSchema.validate json_str json_number r').
Proof.
  apply (validate_input_records_error json_str json_number
           [example_record; old_age_record; example_record]
           (ValueError "Invalid record format: Age: ensure this value is within its bounds")).
  reflexivity.
Defined.

Lemma validate_input_records_sound_aux
    (to_str : json → option string) (to_float : json → option float)
    (records : list (dict json)) (validated : list ObesityInputSchema.t) :
  validate_input_records to_str to_float records = inr validated →
  length validated = length records ∧ Forall valid_input validated.
Proof.
  intros (vs & -> & HF)%validate_loop_inv. simpl. split.
  - symmetry. by eapply Forall2_length.
  - apply Forall_forall. intros v Hv. apply list_elem_of_lookup in Hv as (i & Hi).
    destruct (Forall2_lookup_r _ _ _ _ _ HF Hi) as (r & _ & Hr).
    by eapply validate_valid.
Qed.

Lemma records_frame_derived (v : ObesityInputSchema.t) (vs : list ObesityInputSchema.t) :
  with_derived_features (records_frame (v :: vs))
  = inr (records_frame (v :: vs)
         ++ [ (LStr "BMI",
               SFloat (zip_with fdiv (map ObesityInputSchema.Weight (v :: vs))
                         (map (λ x, fmul x x) (map ObesityInputSchema.Height (v :: vs)))));
              (LStr "Age_Group", SCat (map cut_bin (map ObesityInputSchema.Age (v :: vs)))) ]).
Proof. reflexivity. Qed.

Lemma cut_bin_None (a : Q) :
  (0 <= a <= 120)%Q → cut_bin (Fin a) = None ↔ (a == 0 ∨ 100 < a)%Q.
Proof.
  intros Ha. unfold cut_bin.
  destruct (Qle_bool a 0) eqn:H0.
  { apply Qle_bool_iff in H0. split; [|done]. intros _. left. lra. }
  assert (0 < a)%Q as Hpos.
  { apply Qnot_le_lt. intros Hle%Qle_bool_iff. congruence. }
  destruct (Qle_bool a 18) eqn:H18.
  { apply Qle_bool_iff in H18. split; [done|]. intros [?|?]; lra. }
  destruct (Qle_bool a 30) eqn:H30.
  { apply Qle_bool_iff in H30. split; [done|]. intros [?|?]; lra. }
  destruct (Qle_bool a 50) eqn:H50.
  { apply Qle_bool_iff in H50. split; [done|]. intros [?|?]; lra. }
  destruct (Qle_bool a 100) eqn:H100.
  { apply Qle_bool_iff in H100. split; [done|]. intros [?|?]; lra. }
  split; [|done]. intros _. right.
  apply Qnot_le_lt. intros Hle%Qle_bool_iff. congruence.
Qed.

(** X19: the schema and the derived features.  For the records that
    [validate_input_records] returns, one at least, put in a table as the
    endpoint does, BMI and Age_Group are derived without an error, one
    value per record: the BMI of a record is its Weight divided by the
    square of its Height, its group is the bin of its Age.  The schema lets
    in ages for which there is no age group: the group of a record is
    missing exactly when its Age is 0 or above 100. *)
Theorem validated_records_derived_features
    (to_str : json → option string) (to_float : json → option float)
    (records : list (dict json)) (validated : list ObesityInputSchema.t) :
  validate_input_records to_str to_float records = inr validated →
  records ≠ [] →
  ∃ df' bmi group,
    with_derived_features (records_frame validated) = inr df'
    ∧ df_getitem df' "BMI" = inr (SFloat bmi)
    ∧ df_getitem df' "Age_Group" = inr (SCat group)
    ∧ length bmi = length records ∧ length group = length records
    ∧ ∀ i v, validated !! i = Some v →
        ∃ a, ObesityInputSchema.Age v = Fin a ∧ (0 <= a <= 120)%Q
          ∧ group !! i = Some (cut_bin (Fin a))
          ∧ (group !! i = Some None ↔ (a == 0 ∨ 100 < a)%Q)
          ∧ bmi !! i
            = Some (fdiv (ObesityInputSchema.Weight v)
                      (fmul (ObesityInputSchema.Height v) (ObesityInputSchema.Height v))).
Proof.
  intros Hv Hne.
  destruct (validate_input_records_sound_aux to_str to_float records validated Hv)
    as (Hlen & Hvalid).
  destruct validated as [|v0 vs]; [by destruct records|].
  eexists _, _, _. split; [apply records_frame_derived|].
  split; [reflexivity|]. split; [reflexivity|].
  split; [by rewrite length_zip_with, !length_map, Nat.min_id|].
  split; [by rewrite !length_map|].
  intros i v Hi.
  pose proof (proj1 (Forall_forall _ _) Hvalid v (list_elem_of_lookup_2 _ _ _ Hi))
    as (_ & (a & Ha & Hrange) & _).
  exists a. split; [done|]. split; [done|].
  assert (map cut_bin (map ObesityInputSchema.Age (v0 :: vs)) !! i = Some (cut_bin (Fin a)))
    as Hgroup by (by rewrite !list_lookup_fmap, Hi, <- Ha).
  split_and!.
  - done.
  - rewrite Hgroup. split.
    + intros [= Hnone]. by apply (cut_bin_None a Hrange).
    + intros Hage. f_equal. by apply (cut_bin_None a Hrange).
  - by rewrite lookup_zip_with, !list_lookup_fmap, Hi.
Qed.

Lemma validated_records_derived_features_witness :
  ∃ df' bmi group,
    with_derived_features (records_frame [example_input]) = inr df'
    ∧ df_getitem df' "BMI" = inr (SFloat bmi)
    ∧ df_getitem df' "Age_Group" = inr (SCat group)
    ∧ length bmi = length [example_record] ∧ length group = length [example_record]
    ∧ ∀ i v, [example_input] !! i = Some v →
        ∃ a, ObesityInputSchema.Age v = Fin a ∧ (0 <= a <= 120)%Q
          ∧ group !! i = Some (cut_bin (Fin a))
          ∧ (group !! i = Some None ↔ (a == 0 ∨ 100 < a)%Q)
          ∧ bmi !! i
            = Some (fdiv (ObesityInputSchema.Weight v)
                      (fmul (ObesityInputSchema.Height v) (ObesityInputSchema.Height v))).
Proof.
  apply (validated_records_derived_features json_str json_number [example_record]
           [example_input]).
  - reflexivity.
  - discriminate.
Defined.

(** X20: the prediction endpoint never returns a prediction.  Whatever the
    request, the settings and the files, [predict] raises [HTTPException]
    with status 400 and writes no file.  When a record fails the schema,
    the detail is the message of the [ValueError] and nothing else
    happened.  When all the records pass, the table is built, and then the
    path of the model cannot be made: the settings have no attribute
    [best_model_name]; the detail says so, and no pipeline is constructed,
    no model loaded. *)
Theorem predict_endpoint_always_fails
    (to_str : json → option string) (to_float : json → option float)
    (cfg : config.Settings) (models : ModelFiles) (records : list (dict json)) (w : World) :
  ∃ w' detail,
    prediction_router.predict to_str to_float cfg models records w
    = (w', prediction_router.HTTPException 400 detail)
    ∧ files w' = files w
    ∧ logs w' = logs w
    ∧ (∀ validated, validate_input_records to_str to_float records = inr validated →
         detail = "'Settings' object has no attribute 'best_model_name'"
         ∧ frames w' = frames w ++ [records_frame validated])
    ∧ (∀ e, validate_input_records to_str to_float records = inl e →
         detail = exn_arg e ∧ exn_class e = "ValueError" ∧ w' = w).
Proof.
  unfold prediction_router.predict, prediction_router.predict_try. simpl.
  destruct (validate_input_records to_str to_float records) as [e|validated] eqn:Hv; simpl.
  - destruct (validate_loop_error to_str to_float records [] e Hv)
      as (i & r & e' & _ & _ & -> & _).
    eexists _, _. split; [reflexivity|]. split_and!; try done.
    intros e [= <-]. done.
  - eexists _, _. split; [reflexivity|]. split_and!; try done.
    intros validated' [= <-]. done.
Qed.

(** * The drift summary *)

(** X21: the drift ratio, with no column and with some.  When the first
    metric of the report gives its verdict and two integer counts,
    [summarize] returns the verdict and the counts as they are, the number
    of features under the key "n_total_columns", and a drift ratio: the
    integer 0 when there is no feature, so that nothing is divided by zero,
    and otherwise the float drifted / features, which lies between 0 and 1
    when the drifted columns are among the features.  It logs the summary
    and changes nothing else. *)
Theorem summarize_drift_ratio
    (self : DriftDetector.t) (w : World) (report verdict : json) (d n : Z) :
  DriftDetector.first_result report "dataset_drift" = inr verdict →
  DriftDetector.first_result report "n_drifted_columns" = inr (JInt d) →
  DriftDetector.first_result report "n_features" = inr (JInt n) →
  ∃ w' ratio,
    DriftDetector.summarize (inr report) self w
    = (self, w',
       inr [ ("dataset_drift", verdict); ("n_drifted_columns", JInt d);
             ("n_total_columns", JInt n); ("drift_ratio", ratio) ])
    ∧ (n = 0%Z → ratio = JInt 0)
    ∧ (n ≠ 0%Z →
       ∃ q, ratio = JFloat (Fin q) ∧ (q == inject_Z d / inject_Z n)%Q
            ∧ ((0 <= d <= n)%Z → (0 <= q <= 1)%Q))
    ∧ frames w' = frames w ∧ files w' = files w
    ∧ length (logs w') = S (length (logs w)).
Proof.
  intros Hv Hd Hn. unfold DriftDetector.summarize. simpl. rewrite Hv, Hd, Hn. simpl.
  destruct (Z.eqb_spec n 0) as [->|Hne]; simpl.
  - eexists _, _. split; [reflexivity|]. split_and!; try done.
    simpl. rewrite length_app. simpl. lia.
  - unfold json_truediv. simpl.
    assert (Qeq_bool (inject_Z n) 0 = false) as Hz.
    { apply not_true_is_false. intros Heq%Qeq_bool_iff. apply Hne.
      unfold Qeq in Heq. simpl in Heq. lia. }
    rewrite Hz. simpl.
    eexists _, _. split; [reflexivity|]. split_and!; try done.
    + intros _. eexists. split; [reflexivity|]. split; [reflexivity|].
      intros Hdn.
      assert (0 < inject_Z n)%Q as Hn0 by (rewrite <- (Zlt_Qlt 0); lia).
      assert (0 <= inject_Z d)%Q as Hd0 by (rewrite <- (Zle_Qle 0); lia).
      assert (inject_Z d <= inject_Z n)%Q as Hle by (rewrite <- Zle_Qle; lia).
      split.
      * apply Qle_shift_div_l; [done|]. lra.
      * apply Qle_shift_div_r; [done|]. lra.
    + simpl. rewrite length_app. simpl. lia.
Qed.

Lemma summarize_drift_ratio_witness :
  ∃ w' ratio,
    DriftDetector.summarize (inr (drift_report true 1 3)) (DriftDetector.__init__ "NObeyesdad")
      (world_of [])
    = (DriftDetector.__init__ "NObeyesdad", w',
       inr [ ("dataset_drift", JBool true); ("n_drifted_columns", JInt 1);
             ("n_total_columns", JInt 3); ("drift_ratio", ratio) ])
    ∧ (3%Z = 0%Z → ratio = JInt 0)
    ∧ (3%Z ≠ 0%Z →
       ∃ q, ratio = JFloat (Fin q) ∧ (q == inject_Z 1 / inject_Z 3)%Q
            ∧ ((0 <= 1 <= 3)%Z → (0 <= q <= 1)%Q))
    ∧ frames w' = frames (world_of []) ∧ files w' = files (world_of [])
    ∧ length (logs w') = S (length (logs (world_of []))).
Proof.
  apply (summarize_drift_ratio (DriftDetector.__init__ "NObeyesdad") (world_of [])
           (drift_report true 1 3) (JBool true) 1 3); reflexivity.
Defined.

(** ** The model registry and the data loader *)

Local Arguments py_int : simpl never.

Lemma max_loop_by_first {A} (key : A → result Z) (num : A → Z) (items : list A) :
  Forall (λ x, key x = inr (num x)) items →
  ∀ m, ∃ pre r post,
    m :: items = pre ++ r :: post
    ∧ Forall (λ x, (num x < num r)%Z) pre
    ∧ Forall (λ x, (num x <= num r)%Z) post
    ∧ max_loop_by key items m (num m) = inr r.
Proof.
  induction 1 as [|item rest Hitem _ IH]; intros m.
  - exists [], m, []. by split_and!.
  - simpl. rewrite Hitem. simpl. destruct (Z.ltb_spec (num m) (num item)) as [Hlt|Hge].
    + destruct (IH item) as (pre & r & post & Heq & Hpre & Hpost & Hrun).
      exists (m :: pre), r, post. split_and!; [by rewrite Heq|..|done|done].
      constructor; [|done].
      destruct pre as [|p pre]; simplify_eq/=; [done|].
      apply Forall_cons in Hpre as [Hp _]. lia.
    + destruct (IH m) as (pre & r & post & Heq & Hpre & Hpost & Hrun).
      destruct pre as [|p pre]; simplify_eq/=.
      * eexists [], _, (item :: _). split_and!; [done|done|by constructor|done].
      * apply Forall_cons in Hpre as [Hp Hpre].
        exists (p :: item :: pre), r, post. split_and!; [done|..|done|done].
        constructor; [done|]. constructor; [lia|done].
Qed.

Lemma max_loop_by_raises {A} (key : A → result Z) (items : list A) :
  Exists (λ x, ∃ e, key x = inl e) items →
  ∀ m mv, ∃ x e, x ∈ items ∧ key x = inl e ∧ max_loop_by key items m mv = inl e.
Proof.
  induction items as [|item rest IH]; intros Hex m mv.
  - by apply Exists_nil in Hex.
  - simpl. destruct (key item) as [e|val] eqn:Hk; simpl.
    + exists item, e. split_and!; [left|done|done].
    + apply Exists_cons in Hex as [[e He]|Hex]; [congruence|].
      destruct (mv <? val)%Z.
      * destruct (IH Hex item val) as (x & e & Hx & He & Hrun).
        exists x, e. split_and!; [by right|done|done].
      * destruct (IH Hex m mv) as (x & e & Hx & He & Hrun).
        exists x, e. split_and!; [by right|done|done].
Qed.

Lemma py_int_error_class (s : string) (e : exn) :
  py_int s = inl e → exn_class e = "ValueError".
Proof.
  unfold py_int, int_of_digits, rbind. intros He.
  repeat case_match; by simplify_eq.
Qed.

(** X22: the latest version is the greatest number.  When the registry lists
    at least one version of the model and the version of each one reads as an
    integer, [get_latest_version] returns the listed version whose number is
    the greatest, numbers being compared as integers and not as texts; of
    several with that number it returns the first listed.  It logs one line
    and changes nothing else. *)
Theorem get_latest_version_numeric_maximum
    (cfg : config.Settings) (self : ModelRegistry.t) (w : World)
    (versions : list ModelRegistry.ModelVersion) (num : ModelRegistry.ModelVersion → Z) :
  ModelRegistry.client_latest_versions self (config.model_name cfg) = inr versions →
  versions ≠ [] →
  (∀ v, v ∈ versions → py_int (ModelRegistry.version v) = inr (num v)) →
  ∃ pre latest post,
    versions = pre ++ latest :: post
    ∧ Forall (λ v, (num v < num latest)%Z) pre
    ∧ Forall (λ v, (num v <= num latest)%Z) post
    ∧ ModelRegistry.get_latest_version cfg self w
      = (self,
         add_log (Log "INFO" "[Registry] Latest version: {}, stage={}"
                    [PStr (ModelRegistry.version latest);
                     PStr (ModelRegistry.current_stage latest)]) w,
         inr latest).
Proof.
  intros Hclient Hne Hnum.
  destruct versions as [|v0 rest]; [done|].
  assert (Forall (λ v, py_int (ModelRegistry.version v) = inr (num v)) rest) as Hrest.
  { apply Forall_forall. intros v Hv. apply Hnum. by right. }
  destruct (max_loop_by_first (λ v, py_int (ModelRegistry.version v)) num rest Hrest v0)
    as (pre & latest & post & Heq & Hpre & Hpost & Hrun).
  exists pre, latest, post. split_and!; [done..|].
  unfold ModelRegistry.get_latest_version. simpl. rewrite Hclient. simpl.
  rewrite (Hnum v0) by left. simpl. by rewrite Hrun.
Qed.

Lemma get_latest_version_numeric_maximum_witness :
  ∃ pre latest post,
    [ {| ModelRegistry.version := "9"; ModelRegistry.current_stage := "Production" |};
      {| ModelRegistry.version := "10"; ModelRegistry.current_stage := "Staging" |} ]
    = pre ++ latest :: post
    ∧ Forall (λ v, (version_number v < version_number latest)%Z) pre
    ∧ Forall (λ v, (version_number v <= version_number latest)%Z) post
    ∧ ModelRegistry.get_latest_version config.default registry_9_10 (world_of [])
      = (registry_9_10,
         add_log (Log "INFO" "[Registry] Latest version: {}, stage={}"
                    [PStr (ModelRegistry.version latest);
                     PStr (ModelRegistry.current_stage latest)]) (world_of []),
         inr latest).
Proof.
  apply (get_latest_version_numeric_maximum config.default registry_9_10 (world_of []) _
           version_number).
  - reflexivity.
  - done.
  - intros v Hv. repeat (apply elem_of_cons in Hv as [->|Hv]; [by vm_compute|]).
    by apply elem_of_nil in Hv.
Defined.

(** X23: no version, or a version that is no number.  When the registry lists
    no version of the model, or lists a version whose text is not an integer,
    [get_latest_version] raises ValueError; it logs nothing and changes
    nothing.  (Version texts in ASCII.) *)
Theorem get_latest_version_raises
    (cfg : config.Settings) (self : ModelRegistry.t) (w : World)
    (versions : list ModelRegistry.ModelVersion) :
  ModelRegistry.client_latest_versions self (config.model_name cfg) = inr versions →
  Forall (λ v, is_ascii_text (ModelRegistry.version v) = true) versions →
  versions = [] ∨ Exists (λ v, ∃ e, py_int (ModelRegistry.version v) = inl e) versions →
  ∃ e, ModelRegistry.get_latest_version cfg self w = (self, w, inl e)
       ∧ exn_class e = "ValueError".
Proof.
  intros Hclient _ Hbad.
  unfold ModelRegistry.get_latest_version. simpl. rewrite Hclient. simpl.
  destruct Hbad as [->|Hex].
  - simpl. by eexists.
  - destruct versions as [|v0 rest]; [by apply Exists_nil in Hex|].
    simpl. destruct (py_int (ModelRegistry.version v0)) as [e|val] eqn:Hv0; simpl.
    + exists e. split; [done|]. by eapply py_int_error_class.
    + apply Exists_cons in Hex as [[e He]|Hex]; [congruence|].
      destruct (max_loop_by_raises (λ v, py_int (ModelRegistry.version v)) rest Hex v0 val)
        as (x & e & _ & He & Hrun).
      rewrite Hrun. exists e. split; [done|]. by eapply py_int_error_class.
Qed.

Lemma get_latest_version_raises_witness :
  ∃ e, ModelRegistry.get_latest_version config.default
         (ModelRegistry.mk (λ _, inr [ {| ModelRegistry.version := "2";
                                          ModelRegistry.current_stage := "None" |};
                                       {| ModelRegistry.version := "v3";
                                          ModelRegistry.current_stage := "Staging" |} ]))
         (world_of [])
       = (ModelRegistry.mk (λ _, inr [ {| ModelRegistry.version := "2";
                                          ModelRegistry.current_stage := "None" |};
                                       {| ModelRegistry.version := "v3";
                                          ModelRegistry.current_stage := "Staging" |} ]),
          world_of [], inl e)
       ∧ exn_class e = "ValueError".
Proof.
  eapply get_latest_version_raises.
  - reflexivity.
  - by repeat constructor.
  - right. apply Exists_cons_tl, Exists_cons_hd. by vm_compute; eexists.
Defined.

Lemma load_data_raises
    (read_csv : string → result DataFrame) (self : ObesityDataLoader.t) (w : World) (e : exn) :
  read_csv (ObesityDataLoader.file_path self) = inl e →
  ∃ record, ObesityDataLoader.load_data read_csv self w = (self, add_log record w, inl e)
            ∧ level record = "ERROR".
Proof.
  intros Hfail. unfold ObesityDataLoader.load_data. simpl. rewrite Hfail.
  repeat case_decide; simpl; by eexists.
Qed.

(** X24: a reload that fails keeps the loaded table.  [load_data] keeps the
    table it read in a new object and returns that object; when a later
    [load_data] fails, it raises the exception of [read_csv] unchanged after
    one ERROR line, and the loader still holds the first table: [get_data]
    returns it, without a warning. *)
Theorem failed_reload_keeps_loaded_data
    (read_csv1 read_csv2 : string → result DataFrame)
    (self : ObesityDataLoader.t) (w : World) (df : DataFrame) (e : exn) :
  read_csv1 (ObesityDataLoader.file_path self) = inr df →
  read_csv2 (ObesityDataLoader.file_path self) = inl e →
  ∃ data self1 w1 record,
    ObesityDataLoader.load_data read_csv1 self w = (self1, w1, inr data)
    ∧ frames w1 = frames w ++ [df] ∧ frames w1 !! data = Some df
    ∧ ObesityDataLoader.load_data read_csv2 self1 w1 = (self1, add_log record w1, inl e)
    ∧ level record = "ERROR"
    ∧ ObesityDataLoader.get_data self1 (add_log record w1)
      = (self1, add_log record w1, inr (Some data)).
Proof.
  intros Hok Hfail.
  pose (self1 := ObesityDataLoader.mk (ObesityDataLoader.file_path self)
                   (Some (length (frames w)))).
  assert (∃ w1, ObesityDataLoader.load_data read_csv1 self w
                = (self1, w1, inr (length (frames w)))
                ∧ frames w1 = frames w ++ [df]) as (w1 & Hrun1 & Hframes).
  { unfold ObesityDataLoader.load_data. simpl. rewrite Hok. simpl. by eexists. }
  destruct (load_data_raises read_csv2 self1 w1 e Hfail) as (record & Hrun2 & Hlevel).
  exists (length (frames w)), self1, w1, record.
  split_and!; [done|done| |done|done|done].
  by rewrite Hframes, lookup_app_r, Nat.sub_diag.
Qed.

Lemma failed_reload_keeps_loaded_data_witness :
  ∃ data self1 w1 record,
    ObesityDataLoader.load_data (csv_present single_row_table)
      (ObesityDataLoader.__init__ "data/raw/obesity.csv") (world_of [])
    = (self1, w1, inr data)
    ∧ frames w1 = frames (world_of []) ++ [single_row_table]
    ∧ frames w1 !! data = Some single_row_table
    ∧ ObesityDataLoader.load_data csv_missing self1 w1
      = (self1, add_log record w1, inl (FileNotFoundError "data/raw/obesity.csv"))
    ∧ level record = "ERROR"
    ∧ ObesityDataLoader.get_data self1 (add_log record w1)
      = (self1, add_log record w1, inr (Some data)).
Proof.
  apply (failed_reload_keeps_loaded_data (csv_present single_row_table) csv_missing
           (ObesityDataLoader.__init__ "data/raw/obesity.csv") (world_of [])
           single_row_table (FileNotFoundError "data/raw/obesity.csv")); reflexivity.
Defined.
